(** * Shard multiplayer client runtime: a shallow embedding

    The generator emits GDScript classes (ShardConnection, ShardState,
    ShardInput, ShardMatch, ShardLobby, ShardPrediction).  Each class is
    embedded below as a record of its member variables together with one
    function per method.  A method takes the object before the call and
    returns the object after the call and the effects it produced, in
    program order: lines printed by [_log] and signals emitted.

    Conventions
    - GDScript [int] is [Z]; GDScript [float] is [Q] (exact rationals, no
      rounding); a [Dictionary] decoded from JSON is a [gmap string variant];
      a [Dictionary] keyed by peer id is a [gmap Z _]; an [Array] is a [list].
    - Conversions [float(v)], [bool(v)], [int(v)], [str(v)], the method
      [Vector2.distance_to] and the JSON codec are engine built-ins: they are
      the fields of the class [Engine], and every statement below holds for
      every instance of it.
    - The clock ([Time.get_ticks_msec], [OS.get_ticks_msec]) is passed to the
      methods that read it as the argument [now]. *)

From Stdlib Require Import ZArith QArith Qround Qpower Qminmax Bool Lia Lqa.
From stdpp Require Import gmap strings list fin_maps pretty.

Set Warnings "-register-all".
Open Scope Z_scope.

(** ** Values *)

Inductive variant : Type :=
  | VNil
  | VBool (b : bool)
  | VInt (n : Z)
  | VFloat (q : Q)
  | VStr (s : string)
  | VArray (l : list variant)
  | VDict (d : gmap string variant).

Abbreviation Dict := (gmap string variant).

(** [d.get(key, default)] *)
Definition dict_get (d : Dict) (key : string) (default : variant) : variant :=
  match d !! key with
  | Some v => v
  | None => default
  end.

(** [d.has(key)] *)
Definition dict_has (d : Dict) (key : string) : bool :=
  match d !! key with
  | Some _ => true
  | None => false
  end.

(** [v is Array], [v is Dictionary] *)
Definition is_Array (v : variant) : bool :=
  match v with VArray _ => true | _ => false end.

Definition is_Dictionary (v : variant) : bool :=
  match v with VDict _ => true | _ => false end.

Definition as_Array (v : variant) : list variant :=
  match v with VArray l => l | _ => [] end.

(** [v == n] for an [int] n: numbers compare by value, anything else differs. *)
Definition variant_eq_int (v : variant) (n : Z) : bool :=
  match v with
  | VInt m => m =? n
  | VFloat q => Qeq_bool q (inject_Z n)
  | _ => false
  end.

(** [v == s] for a [String] s *)
Definition variant_eq_str (v : variant) (s : string) : bool :=
  match v with
  | VStr s' => bool_decide (s' = s)
  | _ => false
  end.

(** A [Variant] passed where the code expects a Dictionary.  Calling a
    Dictionary method on any other value is a runtime error; such a value
    reads as the empty Dictionary. *)
Definition as_Dict (v : variant) : Dict :=
  match v with VDict d => d | _ => ∅ end.

(** A [Variant] assigned to a member variable typed [String].  Assigning a
    value of another type is a runtime error; such a value reads as the
    empty String. *)
Definition as_String (v : variant) : string :=
  match v with VStr s => s | _ => "" end.

(** [s.is_empty()] on a String *)
Definition str_is_empty (s : string) : bool :=
  match s with EmptyString => true | _ => false end.

(** ** Floating-point helpers, over exact rationals *)

Definition Qltb (a b : Q) : bool := negb (Qle_bool b a).

(** [clampf(x, lo, hi)] *)
Definition clampf (x lo hi : Q) : Q :=
  if Qltb x lo then lo else if Qltb hi x then hi else x.

(** [lerpf(from, to, weight)] *)
Definition lerpf (from to weight : Q) : Q := (from + (to - from) * weight)%Q.

(** [min(a, b)] on floats *)
Definition minf (a b : Q) : Q := if Qltb b a then b else a.

(** [int(x)] for a float x: truncation toward zero *)
Definition int_of_float (x : Q) : Z := Z.quot (Qnum x) (Z.pos (Qden x)).

(** A numeric [Variant] where the code expects a [float] (an [int] widens;
    arithmetic on any other value is a runtime error and reads as 0). *)
Definition variant_num (v : variant) : Q :=
  match v with
  | VInt n => inject_Z n
  | VFloat q => q
  | VBool b => if b then 1 else 0
  | _ => 0
  end.

(** A numeric [Variant] where the code expects an [int] (a [float] truncates). *)
Definition variant_int (v : variant) : Z :=
  match v with
  | VInt n => n
  | VFloat q => int_of_float q
  | VBool b => if b then 1 else 0
  | _ => 0
  end.

(** A [Variant] used as a condition. *)
Definition variant_truthy (v : variant) : bool :=
  match v with
  | VNil => false
  | VBool b => b
  | VInt n => negb (n =? 0)
  | VFloat q => negb (Qeq_bool q 0)
  | VStr s => negb (str_is_empty s)
  | VArray l => match l with [] => false | _ => true end
  | VDict d => negb (bool_decide (d = ∅))
  end.

(** [while a.size() > cap: a.pop_front()] *)
Fixpoint pop_front_while_over {A : Type} (cap : nat) (a : list A) : list A :=
  match a with
  | [] => []
  | _ :: rest => if (cap <? length a)%nat then pop_front_while_over cap rest else a
  end.

(** [pow(2, n)] for an int n *)
Definition pow2 (n : Z) : Q := Qpower 2 n.

Module Vector2.
Record t := mk { x : Q; y : Q }.
Definition ZERO : t := mk 0 0.
(** [v * s] *)
Definition scale (v : t) (s : Q) : t := mk (x v * s) (y v * s).
(** [a + b] *)
Definition add (a b : t) : t := mk (x a + x b) (y a + y b).
End Vector2.

(** ** Engine built-ins *)

Class Engine := {
  to_float : variant -> Q;
  to_bool : variant -> bool;
  to_int : variant -> Z;
  to_str : variant -> string;
  distance_to : Vector2.t -> Vector2.t -> Q;
  json_stringify : Dict -> string;
  json_parse : string -> option variant;
  utf8_size : string -> Z
}.

(** ** Effects *)

Inductive effect (signal : Type) : Type :=
  | Print (component : string) (format : string) (args : list variant)
  | Emit (s : signal).

Arguments Print {signal} component format args.
Arguments Emit {signal} s.

(** The signals among the effects, in order. *)
Fixpoint emitted {signal : Type} (tr : list (effect signal)) : list signal :=
  match tr with
  | [] => []
  | Emit s :: rest => s :: emitted rest
  | Print _ _ _ :: rest => emitted rest
  end.

(** ** ShardProtocol *)

Module ShardProtocol.
Definition MSG_CREATE_LOBBY : string := "create_lobby".
Definition MSG_JOIN_LOBBY : string := "join_lobby".
Definition MSG_LEAVE_LOBBY : string := "leave_lobby".
Definition MSG_START_MATCH : string := "start_match".
Definition MSG_PLAYER_INPUT : string := "player_input".
Definition MSG_PING : string := "ping".
Definition MSG_AUTHENTICATED : string := "authenticated".
Definition MSG_COUNTDOWN : string := "countdown".
Definition MSG_ROUND_START : string := "round_start".
Definition MSG_STATE_SNAPSHOT : string := "state_snapshot".
Definition MSG_ROUND_OVER : string := "round_over".
Definition MSG_MATCH_OVER : string := "match_over".
Definition MSG_PONG : string := "pong".

Definition CLOSE_INVALID_SESSION : Z := 4001.
Definition CLOSE_RATE_LIMITED : Z := 4008.
Definition CLOSE_MESSAGE_TOO_LARGE : Z := 4009.

Definition MSG_LOBBY_CREATED : string := "lobby_created".
Definition MSG_LOBBY_JOINED : string := "lobby_joined".
Definition MSG_PLAYER_JOINED : string := "player_joined".
Definition MSG_PLAYER_LEFT : string := "player_left".
Definition MSG_LOBBY_CLOSED : string := "lobby_closed".
Definition MSG_PLAYER_DAMAGED : string := "player_damaged".
Definition MSG_PLAYER_ELIMINATED : string := "player_eliminated".
Definition MSG_PLAYER_DISCONNECTED : string := "player_disconnected".
Definition MSG_PLAYER_RECONNECTED : string := "player_reconnected".
Definition MSG_PLAYER_TIMEOUT : string := "player_timeout".
Definition MSG_WEAPON_PICKUP : string := "weapon_pickup".
Definition MSG_WEAPON_DROPPED : string := "weapon_dropped".
Definition MSG_ERROR : string := "error".

Definition ERR_INVALID_LOBBY_CODE : string := "invalid_lobby_code".
Definition ERR_LOBBY_FULL : string := "lobby_full".
Definition ERR_ALREADY_IN_LOBBY : string := "already_in_lobby".
Definition ERR_NOT_HOST : string := "not_host".
Definition ERR_NOT_ENOUGH_PLAYERS : string := "not_enough_players".
Definition ERR_INVALID_MESSAGE : string := "invalid_message".
Definition ERR_RATE_LIMITED : string := "rate_limited".
Definition ERR_MESSAGE_TOO_LARGE : string := "message_too_large".

Definition LOBBY_ERROR_CODES : list string :=
  [ERR_INVALID_LOBBY_CODE; ERR_LOBBY_FULL; ERR_ALREADY_IN_LOBBY; ERR_NOT_HOST;
   ERR_NOT_ENOUGH_PLAYERS].

(** [code in LOBBY_ERROR_CODES] *)
Definition is_lobby_error (code : string) : bool :=
  bool_decide (code ∈ LOBBY_ERROR_CODES).
End ShardProtocol.

(** ** A small vocabulary for methods

    A method of an object of type [S] that emits effects of type [E]. *)

Definition action (S E : Type) : Type := S -> S * list E.

Definition skip {S E : Type} : action S E := fun s => (s, []).

Definition seq {S E : Type} (a b : action S E) : action S E :=
  fun s => let '(s1, e1) := a s in let '(s2, e2) := b s1 in (s2, e1 ++ e2).

Definition modify {S E : Type} (f : S -> S) : action S E := fun s => (f s, []).

Definition tell {S E : Type} (e : E) : action S E := fun s => (s, [e]).

Definition when {S E : Type} (cond : S -> bool) (body : action S E) : action S E :=
  fun s => if cond s then body s else (s, []).

Notation "a >> b" := (seq a b) (at level 65, right associativity).

(** ** ShardConnection (Godot 4) *)

Module ShardConnection.

Inductive State := DISCONNECTED | CONNECTING | CONNECTED | AUTHENTICATED.

(** The integer value of an enum constant. *)
Definition State_value (s : State) : Z :=
  match s with
  | DISCONNECTED => 0
  | CONNECTING => 1
  | CONNECTED => 2
  | AUTHENTICATED => 3
  end.

Definition State_eqb (a b : State) : bool := State_value a =? State_value b.

Inductive signal :=
  | connected
  | disconnected (reason : string)
  | authenticated (user_id username : string)
  | authentication_failed (reason : string)
  | reconnected
  | reconnection_failed
  | connection_lost
  | rate_limited
  | error_received (code message : string)
  | message_received (message : Dict)
  | latency_updated (latency_ms : Z).

(** The transport object: what [get_ready_state], [get_close_code] and
    [get_packet] answer, and the text frames handed to [send_text]. *)
Inductive ReadyState := STATE_CONNECTING | STATE_OPEN | STATE_CLOSING | STATE_CLOSED.

Record WebSocketPeer := mkPeer {
  ready_state : ReadyState;
  close_code : Z;
  packets : list string;
  sent_text : list string
}.

Definition WebSocketPeer_new : WebSocketPeer := mkPeer STATE_CLOSED 0 [] [].

Definition MATCH_RECONNECT_TIMEOUT : Q := 60.
Definition PING_INTERVAL : Q := 5.
Definition LATENCY_BUFFER_SIZE : nat := 5.
Definition OK : Z := 0.

Record t := mk {
  _ws : option WebSocketPeer;
  _state : State;
  _token : string;
  _user_id : string;
  _username : string;
  _reconnect_attempts : Z;
  _reconnect_timer : Q;
  _is_reconnecting : bool;
  _was_authenticated : bool;
  _match_reconnect_timer : Q;
  _in_match : bool;
  server_host : string;
  server_port : Z;
  auto_reconnect : bool;
  reconnect_delay : Q;
  max_reconnect_attempts : Z;
  debug_logging : bool;
  _messages_sent : Z;
  _messages_received : Z;
  _bytes_sent : Z;
  _bytes_received : Z;
  _ping_timer : Q;
  _ping_sent_time : Z;
  _current_latency : Z;
  _latency_buffer : list Z
}.

(** The member variables as initialised by the class, with the default
    settings of [_load_settings]. *)
Definition init : t :=
  mk None DISCONNECTED "" "" "" 0 0 false false 0 false
     "localhost" 9877 true 2 5 false 0 0 0 0 0 0 0 [].

Definition set_ws (v : option WebSocketPeer) (c : t) : t :=
  mk v (_state c) (_token c) (_user_id c) (_username c)
    (_reconnect_attempts c) (_reconnect_timer c) (_is_reconnecting c)
    (_was_authenticated c) (_match_reconnect_timer c) (_in_match c)
    (server_host c) (server_port c) (auto_reconnect c) (reconnect_delay c)
    (max_reconnect_attempts c) (debug_logging c) (_messages_sent c)
    (_messages_received c) (_bytes_sent c) (_bytes_received c)
    (_ping_timer c) (_ping_sent_time c) (_current_latency c)
    (_latency_buffer c).

Definition set_state (v : State) (c : t) : t :=
  mk (_ws c) v (_token c) (_user_id c) (_username c) (_reconnect_attempts c)
    (_reconnect_timer c) (_is_reconnecting c) (_was_authenticated c)
    (_match_reconnect_timer c) (_in_match c) (server_host c) (server_port c)
    (auto_reconnect c) (reconnect_delay c) (max_reconnect_attempts c)
    (debug_logging c) (_messages_sent c) (_messages_received c)
    (_bytes_sent c) (_bytes_received c) (_ping_timer c) (_ping_sent_time c)
    (_current_latency c) (_latency_buffer c).

Definition set_token (v : string) (c : t) : t :=
  mk (_ws c) (_state c) v (_user_id c) (_username c) (_reconnect_attempts c)
    (_reconnect_timer c) (_is_reconnecting c) (_was_authenticated c)
    (_match_reconnect_timer c) (_in_match c) (server_host c) (server_port c)
    (auto_reconnect c) (reconnect_delay c) (max_reconnect_attempts c)
    (debug_logging c) (_messages_sent c) (_messages_received c)
    (_bytes_sent c) (_bytes_received c) (_ping_timer c) (_ping_sent_time c)
    (_current_latency c) (_latency_buffer c).

Definition set_user_id (v : string) (c : t) : t :=
  mk (_ws c) (_state c) (_token c) v (_username c) (_reconnect_attempts c)
    (_reconnect_timer c) (_is_reconnecting c) (_was_authenticated c)
    (_match_reconnect_timer c) (_in_match c) (server_host c) (server_port c)
    (auto_reconnect c) (reconnect_delay c) (max_reconnect_attempts c)
    (debug_logging c) (_messages_sent c) (_messages_received c)
    (_bytes_sent c) (_bytes_received c) (_ping_timer c) (_ping_sent_time c)
    (_current_latency c) (_latency_buffer c).

Definition set_username (v : string) (c : t) : t :=
  mk (_ws c) (_state c) (_token c) (_user_id c) v (_reconnect_attempts c)
    (_reconnect_timer c) (_is_reconnecting c) (_was_authenticated c)
    (_match_reconnect_timer c) (_in_match c) (server_host c) (server_port c)
    (auto_reconnect c) (reconnect_delay c) (max_reconnect_attempts c)
    (debug_logging c) (_messages_sent c) (_messages_received c)
    (_bytes_sent c) (_bytes_received c) (_ping_timer c) (_ping_sent_time c)
    (_current_latency c) (_latency_buffer c).

Definition set_reconnect_attempts (v : Z) (c : t) : t :=
  mk (_ws c) (_state c) (_token c) (_user_id c) (_username c) v
    (_reconnect_timer c) (_is_reconnecting c) (_was_authenticated c)
    (_match_reconnect_timer c) (_in_match c) (server_host c) (server_port c)
    (auto_reconnect c) (reconnect_delay c) (max_reconnect_attempts c)
    (debug_logging c) (_messages_sent c) (_messages_received c)
    (_bytes_sent c) (_bytes_received c) (_ping_timer c) (_ping_sent_time c)
    (_current_latency c) (_latency_buffer c).

Definition set_reconnect_timer (v : Q) (c : t) : t :=
  mk (_ws c) (_state c) (_token c) (_user_id c) (_username c)
    (_reconnect_attempts c) v (_is_reconnecting c) (_was_authenticated c)
    (_match_reconnect_timer c) (_in_match c) (server_host c) (server_port c)
    (auto_reconnect c) (reconnect_delay c) (max_reconnect_attempts c)
    (debug_logging c) (_messages_sent c) (_messages_received c)
    (_bytes_sent c) (_bytes_received c) (_ping_timer c) (_ping_sent_time c)
    (_current_latency c) (_latency_buffer c).

Definition set_is_reconnecting (v : bool) (c : t) : t :=
  mk (_ws c) (_state c) (_token c) (_user_id c) (_username c)
    (_reconnect_attempts c) (_reconnect_timer c) v (_was_authenticated c)
    (_match_reconnect_timer c) (_in_match c) (server_host c) (server_port c)
    (auto_reconnect c) (reconnect_delay c) (max_reconnect_attempts c)
    (debug_logging c) (_messages_sent c) (_messages_received c)
    (_bytes_sent c) (_bytes_received c) (_ping_timer c) (_ping_sent_time c)
    (_current_latency c) (_latency_buffer c).

Definition set_was_authenticated (v : bool) (c : t) : t :=
  mk (_ws c) (_state c) (_token c) (_user_id c) (_username c)
    (_reconnect_attempts c) (_reconnect_timer c) (_is_reconnecting c) v
    (_match_reconnect_timer c) (_in_match c) (server_host c) (server_port c)
    (auto_reconnect c) (reconnect_delay c) (max_reconnect_attempts c)
    (debug_logging c) (_messages_sent c) (_messages_received c)
    (_bytes_sent c) (_bytes_received c) (_ping_timer c) (_ping_sent_time c)
    (_current_latency c) (_latency_buffer c).

Definition set_match_reconnect_timer (v : Q) (c : t) : t :=
  mk (_ws c) (_state c) (_token c) (_user_id c) (_username c)
    (_reconnect_attempts c) (_reconnect_timer c) (_is_reconnecting c)
    (_was_authenticated c) v (_in_match c) (server_host c) (server_port c)
    (auto_reconnect c) (reconnect_delay c) (max_reconnect_attempts c)
    (debug_logging c) (_messages_sent c) (_messages_received c)
    (_bytes_sent c) (_bytes_received c) (_ping_timer c) (_ping_sent_time c)
    (_current_latency c) (_latency_buffer c).

Definition set_in_match (v : bool) (c : t) : t :=
  mk (_ws c) (_state c) (_token c) (_user_id c) (_username c)
    (_reconnect_attempts c) (_reconnect_timer c) (_is_reconnecting c)
    (_was_authenticated c) (_match_reconnect_timer c) v (server_host c)
    (server_port c) (auto_reconnect c) (reconnect_delay c)
    (max_reconnect_attempts c) (debug_logging c) (_messages_sent c)
    (_messages_received c) (_bytes_sent c) (_bytes_received c)
    (_ping_timer c) (_ping_sent_time c) (_current_latency c)
    (_latency_buffer c).

Definition set_debug_logging (v : bool) (c : t) : t :=
  mk (_ws c) (_state c) (_token c) (_user_id c) (_username c)
    (_reconnect_attempts c) (_reconnect_timer c) (_is_reconnecting c)
    (_was_authenticated c) (_match_reconnect_timer c) (_in_match c)
    (server_host c) (server_port c) (auto_reconnect c) (reconnect_delay c)
    (max_reconnect_attempts c) v (_messages_sent c) (_messages_received c)
    (_bytes_sent c) (_bytes_received c) (_ping_timer c) (_ping_sent_time c)
    (_current_latency c) (_latency_buffer c).

Definition set_messages_sent (v : Z) (c : t) : t :=
  mk (_ws c) (_state c) (_token c) (_user_id c) (_username c)
    (_reconnect_attempts c) (_reconnect_timer c) (_is_reconnecting c)
    (_was_authenticated c) (_match_reconnect_timer c) (_in_match c)
    (server_host c) (server_port c) (auto_reconnect c) (reconnect_delay c)
    (max_reconnect_attempts c) (debug_logging c) v (_messages_received c)
    (_bytes_sent c) (_bytes_received c) (_ping_timer c) (_ping_sent_time c)
    (_current_latency c) (_latency_buffer c).

Definition set_messages_received (v : Z) (c : t) : t :=
  mk (_ws c) (_state c) (_token c) (_user_id c) (_username c)
    (_reconnect_attempts c) (_reconnect_timer c) (_is_reconnecting c)
    (_was_authenticated c) (_match_reconnect_timer c) (_in_match c)
    (server_host c) (server_port c) (auto_reconnect c) (reconnect_delay c)
    (max_reconnect_attempts c) (debug_logging c) (_messages_sent c) v
    (_bytes_sent c) (_bytes_received c) (_ping_timer c) (_ping_sent_time c)
    (_current_latency c) (_latency_buffer c).

Definition set_bytes_sent (v : Z) (c : t) : t :=
  mk (_ws c) (_state c) (_token c) (_user_id c) (_username c)
    (_reconnect_attempts c) (_reconnect_timer c) (_is_reconnecting c)
    (_was_authenticated c) (_match_reconnect_timer c) (_in_match c)
    (server_host c) (server_port c) (auto_reconnect c) (reconnect_delay c)
    (max_reconnect_attempts c) (debug_logging c) (_messages_sent c)
    (_messages_received c) v (_bytes_received c) (_ping_timer c)
    (_ping_sent_time c) (_current_latency c) (_latency_buffer c).

Definition set_bytes_received (v : Z) (c : t) : t :=
  mk (_ws c) (_state c) (_token c) (_user_id c) (_username c)
    (_reconnect_attempts c) (_reconnect_timer c) (_is_reconnecting c)
    (_was_authenticated c) (_match_reconnect_timer c) (_in_match c)
    (server_host c) (server_port c) (auto_reconnect c) (reconnect_delay c)
    (max_reconnect_attempts c) (debug_logging c) (_messages_sent c)
    (_messages_received c) (_bytes_sent c) v (_ping_timer c)
    (_ping_sent_time c) (_current_latency c) (_latency_buffer c).

Definition set_ping_timer (v : Q) (c : t) : t :=
  mk (_ws c) (_state c) (_token c) (_user_id c) (_username c)
    (_reconnect_attempts c) (_reconnect_timer c) (_is_reconnecting c)
    (_was_authenticated c) (_match_reconnect_timer c) (_in_match c)
    (server_host c) (server_port c) (auto_reconnect c) (reconnect_delay c)
    (max_reconnect_attempts c) (debug_logging c) (_messages_sent c)
    (_messages_received c) (_bytes_sent c) (_bytes_received c) v
    (_ping_sent_time c) (_current_latency c) (_latency_buffer c).

Definition set_ping_sent_time (v : Z) (c : t) : t :=
  mk (_ws c) (_state c) (_token c) (_user_id c) (_username c)
    (_reconnect_attempts c) (_reconnect_timer c) (_is_reconnecting c)
    (_was_authenticated c) (_match_reconnect_timer c) (_in_match c)
    (server_host c) (server_port c) (auto_reconnect c) (reconnect_delay c)
    (max_reconnect_attempts c) (debug_logging c) (_messages_sent c)
    (_messages_received c) (_bytes_sent c) (_bytes_received c)
    (_ping_timer c) v (_current_latency c) (_latency_buffer c).

Definition set_current_latency (v : Z) (c : t) : t :=
  mk (_ws c) (_state c) (_token c) (_user_id c) (_username c)
    (_reconnect_attempts c) (_reconnect_timer c) (_is_reconnecting c)
    (_was_authenticated c) (_match_reconnect_timer c) (_in_match c)
    (server_host c) (server_port c) (auto_reconnect c) (reconnect_delay c)
    (max_reconnect_attempts c) (debug_logging c) (_messages_sent c)
    (_messages_received c) (_bytes_sent c) (_bytes_received c)
    (_ping_timer c) (_ping_sent_time c) v (_latency_buffer c).

Definition set_latency_buffer (v : list Z) (c : t) : t :=
  mk (_ws c) (_state c) (_token c) (_user_id c) (_username c)
    (_reconnect_attempts c) (_reconnect_timer c) (_is_reconnecting c)
    (_was_authenticated c) (_match_reconnect_timer c) (_in_match c)
    (server_host c) (server_port c) (auto_reconnect c) (reconnect_delay c)
    (max_reconnect_attempts c) (debug_logging c) (_messages_sent c)
    (_messages_received c) (_bytes_sent c) (_bytes_received c)
    (_ping_timer c) (_ping_sent_time c) (_current_latency c) v.


Abbreviation M := (action t (effect signal)).

Definition _log (format : string) (args : list variant) : M :=
  fun c => (c, if debug_logging c then [Print "ShardConnection" format args] else []).

Definition emit (s : signal) : M := tell (Emit s).

Definition is_connected (c : t) : bool := State_value CONNECTED <=? State_value (_state c).

Definition is_authenticated (c : t) : bool := State_eqb (_state c) AUTHENTICATED.

Definition is_reconnecting (c : t) : bool := _is_reconnecting c.

Definition get_reconnect_attempts (c : t) : Z := _reconnect_attempts c.

Definition _clear_user_info : M :=
  modify (set_user_id "") >> modify (set_username "").

(** [_ws.send_text(text)] *)
Definition send_text (text : string) (ws : WebSocketPeer) : WebSocketPeer :=
  mkPeer (ready_state ws) (close_code ws) (packets ws) (sent_text ws ++ [text]).

(** [_ws.connect_to_url(url, ...)], whose result [err] the transport decides *)
Definition connect_to_url (err : Z) (ws : WebSocketPeer) : WebSocketPeer :=
  if err =? OK then mkPeer STATE_CONNECTING 0 [] [] else ws.

Definition send_message `{Engine} (message : Dict) : M := fun c =>
  if State_value (_state c) <? State_value CONNECTED
  then _log "Cannot send message - not connected" [] c
  else match _ws c with
       | None => (c, [])
       | Some ws =>
           let json_str := json_stringify message in
           let data_size := utf8_size json_str in
           (modify (set_ws (Some (send_text json_str ws))) >>
            modify (fun c => set_messages_sent (_messages_sent c + 1) c) >>
            modify (fun c => set_bytes_sent (_bytes_sent c + data_size) c) >>
            _log "Sent: %s" [VStr json_str]) c
       end.

(** *** Latency measurement *)

Definition get_latency (c : t) : Z := _current_latency c.

Definition get_average_latency (c : t) : Z :=
  match _latency_buffer c with
  | [] => 0
  | _ =>
      let sum := fold_left (fun sum latency => sum + latency) (_latency_buffer c) 0 in
      Z.quot sum (Z.of_nat (length (_latency_buffer c)))
  end.

Definition _send_ping `{Engine} (now : Z) : M :=
  modify (set_ping_sent_time now) >>
  send_message (<["type" := VStr ShardProtocol.MSG_PING]> (<["timestamp" := VInt now]> ∅)) >>
  _log "Ping sent at %d" [VInt now].

Definition _handle_pong (now : Z) (message : Dict) : M := fun c =>
  let current_time := now in
  let rtt := current_time - _ping_sent_time c in
  (modify (set_current_latency rtt) >>
   modify (fun c => set_latency_buffer (_latency_buffer c ++ [rtt]) c) >>
   when (fun c => (LATENCY_BUFFER_SIZE <? length (_latency_buffer c))%nat)
        (modify (fun c => set_latency_buffer (tail (_latency_buffer c)) c)) >>
   (fun c => _log "Pong received - RTT: %d ms, Average: %d ms"
                  [VInt rtt; VInt (get_average_latency c)] c) >>
   emit (latency_updated rtt)) c.

(** *** Connection event handlers *)

Definition _on_connected : M :=
  _log "WebSocket connected" [] >> modify (set_state CONNECTED) >> emit connected.

(** *** Reconnection logic *)

Definition _schedule_reconnect : M := fun c =>
  let delay := (reconnect_delay c * pow2 (_reconnect_attempts c))%Q in
  let delay := minf delay 30 in
  (modify (set_reconnect_timer delay) >>
   _log "Scheduling reconnection attempt %d in %.1f seconds"
        [VInt (_reconnect_attempts c + 1); VFloat delay]) c.

Definition _start_reconnection : M := fun c =>
  if str_is_empty (_token c)
  then (_log "Cannot reconnect - no token available" [] >> emit reconnection_failed) c
  else (modify (set_is_reconnecting true) >>
        modify (set_reconnect_attempts 0) >>
        modify (set_match_reconnect_timer 0) >>
        _schedule_reconnect) c.

Definition _attempt_reconnect (connect_err : Z) : M := fun c =>
  if negb (_is_reconnecting c) then (c, [])
  else
    (modify (fun c => set_reconnect_attempts (_reconnect_attempts c + 1) c) >>
     (fun c => _log "Reconnection attempt %d of %d"
                    [VInt (_reconnect_attempts c); VInt (max_reconnect_attempts c)] c) >>
     (fun c =>
        if max_reconnect_attempts c <? _reconnect_attempts c
        then (_log "Max reconnection attempts exceeded" [] >>
              modify (set_is_reconnecting false) >>
              emit reconnection_failed) c
        else if _in_match c && Qle_bool MATCH_RECONNECT_TIMEOUT (_match_reconnect_timer c)
        then (_log "Match reconnection timeout exceeded" [] >>
              modify (set_is_reconnecting false) >>
              modify (set_in_match false) >>
              emit reconnection_failed) c
        else (modify (set_ws None) >>
              modify (set_state CONNECTING) >>
              modify (set_ws (Some (connect_to_url connect_err WebSocketPeer_new))) >>
              (if negb (connect_err =? OK)
               then _log "Failed to initiate reconnection: %d" [VInt connect_err] >>
                    modify (set_state DISCONNECTED) >>
                    _schedule_reconnect
               else skip)) c)) c.

Definition _on_disconnected : M := fun c =>
  let close_code := match _ws c with Some ws => close_code ws | None => 0 end in
  (_log "WebSocket disconnected (code: %d)" [VInt close_code] >>
   (fun c =>
      let previous_state := _state c in
      (modify (set_state DISCONNECTED) >>
       (if close_code =? ShardProtocol.CLOSE_INVALID_SESSION
        then _log "Authentication failed - invalid or expired session" [] >>
             _clear_user_info >>
             emit (authentication_failed "Invalid or expired session")
        else if close_code =? ShardProtocol.CLOSE_RATE_LIMITED
        then _log "Rate limited by server" [] >> emit rate_limited
        else
          (if close_code =? ShardProtocol.CLOSE_MESSAGE_TOO_LARGE
           then _log "Message exceeded size limit" [] >>
                emit (error_received "message_too_large" "Message exceeded 4KB limit")
           else skip) >>
          (fun c =>
             if State_eqb previous_state AUTHENTICATED && auto_reconnect c
             then (modify (set_was_authenticated true) >>
                   emit connection_lost >>
                   _start_reconnection) c
             else emit (disconnected "Connection closed") c))) c)) c.

(** *** Authentication handling *)

Definition _handle_authenticated `{Engine} (message : Dict) : M :=
  match message !! "user" with
  | None => _log "Authenticated message missing 'user' field" []
  | Some (VDict user) =>
      if negb (dict_has user "id") || negb (dict_has user "username")
      then _log "User info missing required fields" []
      else
        modify (set_user_id (to_str (dict_get user "id" VNil))) >>
        modify (set_username (to_str (dict_get user "username" VNil))) >>
        modify (set_state AUTHENTICATED) >>
        (fun c => _log "Authenticated as %s (ID: %s)"
                       [VStr (_username c); VStr (_user_id c)] c) >>
        (fun c =>
           if _is_reconnecting c
           then (modify (set_is_reconnecting false) >>
                 modify (set_reconnect_attempts 0) >>
                 modify (set_match_reconnect_timer 0) >>
                 emit reconnected) c
           else emit (authenticated (_user_id c) (_username c)) c)
  | Some _ =>
      (* [user.has] on a value that is not a Dictionary: no field is found *)
      _log "User info missing required fields" []
  end.

(** *** Polling *)

(** The body of the [while] loop of [_process_incoming], once per packet
    that [get_packet] returns. *)
Definition _process_packet `{Engine} (now : Z) (data : string) : M :=
  modify (fun c => set_messages_received (_messages_received c + 1) c) >>
  modify (fun c => set_bytes_received (_bytes_received c + utf8_size data) c) >>
  _log "Received: %s" [VStr data] >>
  match json_parse data with
  | None => _log "Failed to parse JSON: %s" []
  | Some (VDict message) =>
      match message !! "type" with
      | None => _log "Message missing 'type' field" []
      | Some ty =>
          if variant_eq_str ty ShardProtocol.MSG_AUTHENTICATED
          then _handle_authenticated message
          else if variant_eq_str ty ShardProtocol.MSG_PONG
          then _handle_pong now message
          else emit (message_received message)
      end
  | Some _ => _log "Invalid message format - expected Dictionary" []
  end.

Fixpoint _process_packets `{Engine} (now : Z) (pending : list string) : M :=
  match pending with
  | [] => skip
  | data :: rest => _process_packet now data >> _process_packets now rest
  end.

Definition _process_incoming `{Engine} (now : Z) : M := fun c =>
  match _ws c with
  | None => (c, [])
  | Some ws =>
      (modify (set_ws (Some (mkPeer (ready_state ws) (close_code ws) [] (sent_text ws)))) >>
       _process_packets now (packets ws)) c
  end.

(** [poll(delta)].  [transport] is what [_ws.poll()] does to the socket and
    [connect_err] is the result of a [connect_to_url] made during the call. *)
Definition poll `{Engine} (delta : Q) (now : Z)
    (transport : WebSocketPeer -> WebSocketPeer) (connect_err : Z) : M :=
  (fun c =>
     match _ws c with
     | None => (c, [])
     | Some ws =>
         let ws := transport ws in
         (modify (set_ws (Some ws)) >>
          match ready_state ws with
          | STATE_OPEN =>
              when (fun c => State_eqb (_state c) CONNECTING) _on_connected >>
              _process_incoming now
          | STATE_CLOSING => skip
          | STATE_CLOSED =>
              when (fun c => negb (State_eqb (_state c) DISCONNECTED)) _on_disconnected
          | STATE_CONNECTING => skip
          end) c
     end) >>
  when (fun c => _is_reconnecting c && State_eqb (_state c) DISCONNECTED)
       (modify (fun c => set_reconnect_timer (_reconnect_timer c - delta)%Q c) >>
        when (fun c => Qle_bool (_reconnect_timer c) 0) (_attempt_reconnect connect_err)) >>
  when (fun c => State_eqb (_state c) AUTHENTICATED)
       (modify (fun c => set_ping_timer (_ping_timer c + delta)%Q c) >>
        when (fun c => Qle_bool PING_INTERVAL (_ping_timer c))
             (_send_ping now >> modify (set_ping_timer 0))) >>
  when (fun c => _in_match c && _is_reconnecting c)
       (modify (fun c => set_match_reconnect_timer (_match_reconnect_timer c + delta)%Q c) >>
        when (fun c => Qle_bool MATCH_RECONNECT_TIMEOUT (_match_reconnect_timer c))
             (_log "Match reconnection timeout exceeded" [] >>
              modify (set_is_reconnecting false) >>
              modify (set_in_match false) >>
              emit reconnection_failed)).

(** *** Connection management *)

(** [connect_to_server(token)]; [connect_err] is the result of its
    [connect_to_url]. *)
Definition connect_to_server (connect_err : Z) (token : string) : M := fun c =>
  if negb (State_eqb (_state c) DISCONNECTED)
  then _log "Already connected or connecting" [] c
  else
    (modify (set_token token) >>
     modify (set_state CONNECTING) >>
     modify (set_is_reconnecting false) >>
     modify (set_ws (Some WebSocketPeer_new)) >>
     (fun c => _log "Connecting to ws://%s:%d" [VStr (server_host c); VInt (server_port c)] c) >>
     modify (set_ws (Some (connect_to_url connect_err WebSocketPeer_new))) >>
     (if negb (connect_err =? OK)
      then _log "Failed to initiate connection: %d" [VInt connect_err] >>
           modify (set_state DISCONNECTED) >>
           emit (disconnected "Failed to initiate connection")
      else skip)) c.

(** [disconnect_from_server()]; [closing] is what [_ws.close()] does to the
    socket. *)
Definition disconnect_from_server (closing : WebSocketPeer -> WebSocketPeer) : M :=
  _log "Disconnecting from server" [] >>
  modify (set_is_reconnecting false) >>
  modify (set_reconnect_attempts 0) >>
  modify (set_was_authenticated false) >>
  modify (set_in_match false) >>
  modify (set_ping_timer 0) >>
  modify (set_latency_buffer []) >>
  modify (set_current_latency 0) >>
  modify (fun c => match _ws c with
                   | Some ws => set_ws (Some (closing ws)) c
                   | None => c
                   end) >>
  modify (set_state DISCONNECTED) >>
  _clear_user_info.

Definition reconnect : M := fun c =>
  if negb (State_eqb (_state c) DISCONNECTED)
  then _log "Cannot reconnect - not disconnected" [] c
  else if str_is_empty (_token c)
  then (_log "Cannot reconnect - no token stored" [] >> emit reconnection_failed) c
  else (modify (set_is_reconnecting true) >>
        modify (set_reconnect_attempts 0) >>
        _start_reconnection) c.

Definition get_state (c : t) : State := _state c.

Definition get_state_string (c : t) : string :=
  match _state c with
  | DISCONNECTED => "disconnected"
  | CONNECTING => "connecting"
  | CONNECTED => "connected"
  | AUTHENTICATED => "authenticated"
  end.

Definition get_user_id (c : t) : string := _user_id c.

Definition get_username (c : t) : string := _username c.

End ShardConnection.

(** The outcome of a method that is handed the connection: the object and
    the connection after the call ([None] is [null]), and the effects of each. *)
Record call_result (S signal : Type) := CallResult {
  handler : S;
  handler_connection : option ShardConnection.t;
  effects : list (effect signal);
  connection_effects : list (effect ShardConnection.signal)
}.

Arguments CallResult {S signal} handler handler_connection effects connection_effects.
Arguments handler {S signal} c.
Arguments handler_connection {S signal} c.
Arguments effects {S signal} c.
Arguments connection_effects {S signal} c.

(** ** ShardState (Godot 4; the Godot 3 template is the same code with the
    Godot 3 spelling of the built-ins) *)

Module ShardState.

Definition SNAPSHOT_BUFFER_SIZE : nat := 3.

Inductive signal :=
  | state_received (snapshot : Dict).

Record t := mk {
  _snapshots : list Dict;
  _interpolation_delay : Z;
  _snapshots_received : Z;
  _debug_logging : bool
}.

Definition init : t := mk [] 100 0 false.

Definition set_snapshots (v : list Dict) (s : t) : t :=
  mk v (_interpolation_delay s) (_snapshots_received s) (_debug_logging s).

Definition set_snapshots_received (v : Z) (s : t) : t :=
  mk (_snapshots s) (_interpolation_delay s) v (_debug_logging s).

Definition set_interpolation_delay_field (v : Z) (s : t) : t :=
  mk (_snapshots s) v (_snapshots_received s) (_debug_logging s).

Abbreviation M := (action t (effect signal)).

Definition _log (format : string) (args : list variant) : M :=
  fun s => (s, if _debug_logging s then [Print "ShardState" format args] else []).

(** *** Snapshot handling *)

(** The Dictionary [snapshot] that [handle_snapshot] builds from a message
    received at time [now]. *)
Definition make_snapshot (now : Z) (message : Dict) : Dict :=
  <["tick" := dict_get message "tick" (VInt 0)]>
  (<["timestamp" := dict_get message "timestamp" (VInt 0)]>
  (<["server_time" := VInt now]>
  (<["last_processed_input" := dict_get message "last_processed_input" (VDict ∅)]>
  (<["players" := dict_get message "players" (VArray [])]>
  (<["projectiles" := dict_get message "projectiles" (VArray [])]>
  (<["pickups" := dict_get message "pickups" (VArray [])]> ∅)))))).

Definition handle_snapshot (now : Z) (message : Dict) : M :=
  let snapshot := make_snapshot now message in
  modify (fun s => set_snapshots (_snapshots s ++ [snapshot]) s) >>
  modify (fun s => set_snapshots (pop_front_while_over SNAPSHOT_BUFFER_SIZE (_snapshots s)) s) >>
  modify (fun s => set_snapshots_received (_snapshots_received s + 1) s) >>
  _log "Received snapshot tick %d with %d players"
       [dict_get snapshot "tick" VNil;
        VInt (Z.of_nat (length (as_Array (dict_get snapshot "players" VNil))))] >>
  tell (Emit (state_received snapshot)).

(** [{}] when there is no snapshot *)
Definition get_latest_state (s : t) : Dict :=
  match last (_snapshots s) with
  | None => ∅
  | Some latest => latest
  end.

(** *** State interpolation *)

Definition server_time (snapshot : Dict) : Z :=
  variant_int (dict_get snapshot "server_time" VNil).

Fixpoint _find_player_by_peer_id (players : list variant) (peer_id : Z) : option variant :=
  match players with
  | [] => None
  | player :: rest =>
      if variant_eq_int (dict_get (as_Dict player) "peer_id" (VInt (-1))) peer_id
      then Some player
      else _find_player_by_peer_id rest peer_id
  end.

(** One iteration of the [for new_player in newer_players] loop: the element
    appended to [result]. *)
Definition _interpolate_player (older_players : list variant) (new_player : variant)
    (t : Q) : variant :=
  let np := as_Dict new_player in
  let peer_id := dict_get np "peer_id" (VInt (-1)) in
  match _find_player_by_peer_id older_players (variant_int peer_id) with
  | Some old_player =>
      let op := as_Dict old_player in
      VDict
        (<["peer_id" := peer_id]>
        (<["x" := VFloat (lerpf (variant_num (dict_get op "x" (VFloat 0)))
                                (variant_num (dict_get np "x" (VFloat 0))) t)]>
        (<["y" := VFloat (lerpf (variant_num (dict_get op "y" (VFloat 0)))
                                (variant_num (dict_get np "y" (VFloat 0))) t)]>
        (<["vx" := dict_get np "vx" (VFloat 0)]>
        (<["vy" := dict_get np "vy" (VFloat 0)]>
        (<["health" := dict_get np "health" (VInt 100)]>
        (<["weapon" := dict_get np "weapon" VNil]>
        (<["weapon_cooldown" := dict_get np "weapon_cooldown" (VFloat 0)]>
        (<["state" := dict_get np "state" (VStr "alive")]> ∅)))))))))
  | None => new_player
  end.

Fixpoint _interpolate_players_loop (older_players newer_players : list variant) (t : Q)
    (result : list variant) : list variant :=
  match newer_players with
  | [] => result
  | new_player :: rest =>
      _interpolate_players_loop older_players rest t
        (result ++ [_interpolate_player older_players new_player t])
  end.

Definition _interpolate_players (older_players newer_players : list variant) (t : Q)
    : list variant :=
  _interpolate_players_loop older_players newer_players t [].

(** The [for i in range(_snapshots.size() - 1)] search: the first adjacent
    pair whose receipt times bracket [target_time], if any. *)
Fixpoint find_bracket (snapshots : list Dict) (target_time : Q) : option (Dict * Dict) :=
  match snapshots with
  | snap_older :: ((snap_newer :: _) as rest) =>
      if Qle_bool (inject_Z (server_time snap_older)) target_time
         && Qle_bool target_time (inject_Z (server_time snap_newer))
      then Some (snap_older, snap_newer)
      else find_bracket rest target_time
  | _ => None
  end.

(** The interpolation parameter computed from a bracketing pair. *)
Definition interpolation_t (older newer : Dict) (target_time : Q) : Q :=
  let time_diff := server_time newer - server_time older in
  let t := if 0 <? time_diff
           then ((target_time - inject_Z (server_time older)) / inject_Z time_diff)%Q
           else 0%Q in
  clampf t 0 1.

Definition get_interpolated_state (render_time : Q) (s : t) : Dict * list (effect signal) :=
  if (length (_snapshots s) <? 2)%nat then (get_latest_state s, [])
  else
    let target_time := (render_time - inject_Z (_interpolation_delay s))%Q in
    match find_bracket (_snapshots s) target_time with
    | None =>
        (get_latest_state s,
         snd (_log "No bracketing snapshots for time %d, returning latest"
                   [VInt (int_of_float target_time)] s))
    | Some (older, newer) =>
        let t := interpolation_t older newer target_time in
        let interpolated : Dict :=
          <["tick" := dict_get newer "tick" VNil]>
          (<["timestamp" := dict_get newer "timestamp" VNil]>
          (<["server_time" :=
               VInt (int_of_float (lerpf (inject_Z (server_time older))
                                         (inject_Z (server_time newer)) t))]>
          (<["last_processed_input" := dict_get newer "last_processed_input" VNil]>
          (<["players" :=
               VArray (_interpolate_players (as_Array (dict_get older "players" VNil))
                                            (as_Array (dict_get newer "players" VNil)) t)]>
          (<["projectiles" := dict_get newer "projectiles" VNil]>
          (<["pickups" := dict_get newer "pickups" VNil]> ∅)))))) in
        (interpolated, [])
    end.

(** *** Utility methods *)

Definition get_last_processed_tick `{Engine} (peer_id : Z) (s : t) : Z :=
  match last (_snapshots s) with
  | None => 0
  | Some latest =>
      let last_processed := as_Dict (dict_get latest "last_processed_input" (VDict ∅)) in
      let tick := dict_get last_processed (to_str (VInt peer_id)) (VInt 0) in
      (* [last_processed.get(peer_id, 0)] looks an int key up in a Dictionary
         decoded from JSON, whose keys are Strings: it answers the default. *)
      let tick := if variant_eq_int tick 0 then VInt 0 else tick in
      variant_int tick
  end.

Definition get_snapshot_count (s : t) : Z := Z.of_nat (length (_snapshots s)).

Definition reset : M :=
  modify (set_snapshots []) >> modify (set_snapshots_received 0) >> _log "State reset" [].



(** *** Configuration *)

Definition set_interpolation_delay (delay_ms : Z) : M :=
  modify (set_interpolation_delay_field (Z.max 0 delay_ms)) >>
  (fun s => _log "Interpolation delay set to %d ms" [VInt (_interpolation_delay s)] s).

Definition get_interpolation_delay (s : t) : Z := _interpolation_delay s.

End ShardState.

(** ** ShardInput (Godot 4; the Godot 3 template is the same code) *)

Module ShardInput.

Definition INPUT_BUFFER_SIZE : nat := 60.

Inductive signal :=
  | input_sent (tick : Z) (input : Dict).

(** An element of [_input_buffer]: the Dictionary [{"tick": .., "input": ..}]. *)
Record entry := mkEntry { tick : Z; input : Dict }.

Record t := mk {
  _current_tick : Z;
  _input_buffer : list entry;
  _inputs_sent : Z;
  _debug_logging : bool
}.

Definition init : t := mk 0 [] 0 false.

Definition set_current_tick (v : Z) (s : t) : t :=
  mk v (_input_buffer s) (_inputs_sent s) (_debug_logging s).

Definition set_input_buffer (v : list entry) (s : t) : t :=
  mk (_current_tick s) v (_inputs_sent s) (_debug_logging s).

Definition set_inputs_sent (v : Z) (s : t) : t :=
  mk (_current_tick s) (_input_buffer s) v (_debug_logging s).

Abbreviation M := (action t (effect signal)).

Definition _log (format : string) (args : list variant) : M :=
  fun s => (s, if _debug_logging s then [Print "ShardInput" format args] else []).

Definition _validate_input `{Engine} (input : Dict) : Dict :=
  <["move_x" := VFloat (clampf (to_float (dict_get input "move_x" (VFloat 0))) (-1) 1)]>
  (<["move_y" := VFloat (clampf (to_float (dict_get input "move_y" (VFloat 0))) (-1) 1)]>
  (<["jump" := VBool (to_bool (dict_get input "jump" (VBool false)))]>
  (<["pickup" := VBool (to_bool (dict_get input "pickup" (VBool false)))]>
  (<["use_weapon" := VBool (to_bool (dict_get input "use_weapon" (VBool false)))]>
  (<["drop_weapon" := VBool (to_bool (dict_get input "drop_weapon" (VBool false)))]>
  (<["aim_angle" := VFloat (to_float (dict_get input "aim_angle" (VFloat 0)))]> ∅)))))).

(** *** Input buffer for prediction *)

Definition _store_input (tick : Z) (input : Dict) : M :=
  modify (fun s => set_input_buffer (_input_buffer s ++ [mkEntry tick input]) s) >>
  modify (fun s => set_input_buffer
                     (pop_front_while_over INPUT_BUFFER_SIZE (_input_buffer s)) s).

Definition get_inputs_after_tick (tick : Z) (s : t) : list entry :=
  fold_left (fun result entry => if tick <? ShardInput.tick entry
                                 then result ++ [entry] else result)
            (_input_buffer s) [].

(** [while buffer.size() > 0 and buffer[0].tick <= tick: buffer.pop_front()] *)
Fixpoint pop_front_while_tick_le (tick : Z) (buffer : list entry) : list entry :=
  match buffer with
  | [] => []
  | first :: rest =>
      if ShardInput.tick first <=? tick then pop_front_while_tick_le tick rest else buffer
  end.

Definition clear_inputs_before_tick (tick : Z) (s : t) : t :=
  set_input_buffer (pop_front_while_tick_le tick (_input_buffer s)) s.

Fixpoint find_input_at_tick (tick : Z) (buffer : list entry) : Dict :=
  match buffer with
  | [] => ∅
  | entry :: rest =>
      if ShardInput.tick entry =? tick then input entry else find_input_at_tick tick rest
  end.

Definition get_input_at_tick (tick : Z) (s : t) : Dict :=
  find_input_at_tick tick (_input_buffer s).

Definition get_buffer_size (s : t) : Z := Z.of_nat (length (_input_buffer s)).

(** *** Tick management *)

Definition get_current_tick (s : t) : Z := _current_tick s.

Definition set_tick (tick : Z) (s : t) : t := set_current_tick tick s.

Definition get_inputs_sent (s : t) : Z := _inputs_sent s.

(** *** Input sending

    The call acts on two objects, the input handler and the connection it is
    given ([None] is [null]). *)

Definition send_input `{Engine} (now : Z) (connection : option ShardConnection.t)
    (input : Dict) (is_playing : bool) (s : t) : call_result t signal :=
  if negb is_playing
  then CallResult s connection (snd (_log "Ignoring input - not in PLAYING state" [] s)) []
  else
    match connection with
    | None =>
        CallResult s connection (snd (_log "Ignoring input - not connected/authenticated" [] s)) []
    | Some conn =>
        if negb (ShardConnection.is_authenticated conn)
        then CallResult s connection
                    (snd (_log "Ignoring input - not connected/authenticated" [] s)) []
        else
          let s := set_current_tick (_current_tick s + 1) s in
          let validated_input := _validate_input input in
          let message : Dict :=
            <["type" := VStr ShardProtocol.MSG_PLAYER_INPUT]>
            (<["timestamp" := VInt now]>
            (<["tick" := VInt (_current_tick s)]>
            (<["input" := VDict validated_input]> ∅))) in
          let '(conn, conn_effects) := ShardConnection.send_message message conn in
          let s := set_inputs_sent (_inputs_sent s + 1) s in
          let '(s, effs) :=
            (_store_input (_current_tick s) validated_input >>
             _log "Sent input tick %d: %s" [VInt (_current_tick s); VDict validated_input] >>
             tell (Emit (input_sent (_current_tick s) validated_input))) s in
          CallResult s (Some conn) effs conn_effects
    end.

Definition reset : M :=
  modify (set_current_tick 0) >> modify (set_input_buffer []) >>
  modify (set_inputs_sent 0) >> _log "Input state reset" [].

End ShardInput.

(** ** ShardMatch (Godot 3) *)

Module ShardMatch.

Inductive State := LOBBY | COUNTDOWN | PLAYING | ROUND_OVER | MATCH_OVER.

Inductive signal :=
  | countdown (seconds : Z)
  | round_started (round_number : Z) (spawn_positions weapon_spawns : list variant)
  | round_ended (winner_peer_id : Z) (scores : gmap Z Z)
  | match_ended (winner_peer_id : Z) (winner_username : string)
                (final_scores : list variant).

Record t := mk {
  _state : State;
  _current_round : Z;
  _scores : gmap Z Z;
  _spawn_positions : list variant;
  _weapon_spawns : list variant;
  _final_winner_peer_id : Z;
  _final_winner_username : string;
  _final_scores : list variant;
  _debug_logging : bool
}.

Definition init : t := mk LOBBY 0 ∅ [] [] (-1) "" [] false.

Definition set_state (v : State) (m : t) : t :=
  mk v (_current_round m) (_scores m) (_spawn_positions m) (_weapon_spawns m)
    (_final_winner_peer_id m) (_final_winner_username m) (_final_scores m)
    (_debug_logging m).

Definition set_current_round (v : Z) (m : t) : t :=
  mk (_state m) v (_scores m) (_spawn_positions m) (_weapon_spawns m)
    (_final_winner_peer_id m) (_final_winner_username m) (_final_scores m)
    (_debug_logging m).

Definition set_scores (v : gmap Z Z) (m : t) : t :=
  mk (_state m) (_current_round m) v (_spawn_positions m) (_weapon_spawns m)
    (_final_winner_peer_id m) (_final_winner_username m) (_final_scores m)
    (_debug_logging m).

Definition set_spawn_positions (v : list variant) (m : t) : t :=
  mk (_state m) (_current_round m) (_scores m) v (_weapon_spawns m)
    (_final_winner_peer_id m) (_final_winner_username m) (_final_scores m)
    (_debug_logging m).

Definition set_weapon_spawns (v : list variant) (m : t) : t :=
  mk (_state m) (_current_round m) (_scores m) (_spawn_positions m) v
    (_final_winner_peer_id m) (_final_winner_username m) (_final_scores m)
    (_debug_logging m).

Definition set_final_winner_peer_id (v : Z) (m : t) : t :=
  mk (_state m) (_current_round m) (_scores m) (_spawn_positions m)
    (_weapon_spawns m) v (_final_winner_username m) (_final_scores m)
    (_debug_logging m).

Definition set_final_winner_username (v : string) (m : t) : t :=
  mk (_state m) (_current_round m) (_scores m) (_spawn_positions m)
    (_weapon_spawns m) (_final_winner_peer_id m) v (_final_scores m)
    (_debug_logging m).

Definition set_final_scores (v : list variant) (m : t) : t :=
  mk (_state m) (_current_round m) (_scores m) (_spawn_positions m)
    (_weapon_spawns m) (_final_winner_peer_id m) (_final_winner_username m) v
    (_debug_logging m).

Abbreviation M := (action t (effect signal)).

Definition _log (format : string) (args : list variant) : M :=
  fun m => (m, if _debug_logging m then [Print "ShardMatch" format args] else []).

Definition emit_signal (s : signal) : M := tell (Emit s).

Definition start_match `{Engine} (now : Z) (connection : option ShardConnection.t) (m : t)
    : call_result t signal :=
  match connection with
  | None => CallResult m connection (snd (_log "Cannot start match - not authenticated" [] m)) []
  | Some conn =>
      if negb (ShardConnection.is_authenticated conn)
      then CallResult m connection
                      (snd (_log "Cannot start match - not authenticated" [] m)) []
      else
        let message : Dict :=
          <["type" := VStr ShardProtocol.MSG_START_MATCH]> (<["timestamp" := VInt now]> ∅) in
        let '(conn, conn_effects) := ShardConnection.send_message message conn in
        CallResult m (Some conn) (snd (_log "Sent start_match request" [] m)) conn_effects
  end.

Definition _handle_countdown `{Engine} (message : Dict) : M :=
  if negb (dict_has message "seconds")
  then _log "countdown message missing seconds field" []
  else
    let seconds := to_int (dict_get message "seconds" VNil) in
    modify (set_state COUNTDOWN) >>
    _log "Countdown: %d seconds" [VInt seconds] >>
    emit_signal (countdown seconds).

Definition _handle_round_start `{Engine} (message : Dict) : M :=
  if negb (dict_has message "round")
  then _log "round_start message missing round field" []
  else
    modify (set_current_round (to_int (dict_get message "round" VNil))) >>
    modify (set_state PLAYING) >>
    modify (set_spawn_positions []) >>
    (if dict_has message "spawn_positions"
        && is_Array (dict_get message "spawn_positions" VNil)
     then modify (set_spawn_positions (as_Array (dict_get message "spawn_positions" VNil)))
     else skip) >>
    modify (set_weapon_spawns []) >>
    (if dict_has message "weapon_spawns"
        && is_Array (dict_get message "weapon_spawns" VNil)
     then modify (set_weapon_spawns (as_Array (dict_get message "weapon_spawns" VNil)))
     else skip) >>
    (fun m => _log "Round %d started with %d spawn positions and %d weapon spawns"
                   [VInt (_current_round m);
                    VInt (Z.of_nat (length (_spawn_positions m)));
                    VInt (Z.of_nat (length (_weapon_spawns m)))] m) >>
    (fun m => emit_signal (round_started (_current_round m) (_spawn_positions m)
                                         (_weapon_spawns m)) m).

(** One iteration of the [for s in scores_array] loop of [_parse_scores]. *)
Definition _parse_score `{Engine} (scores : gmap Z Z) (s : variant) : gmap Z Z :=
  match s with
  | VDict s =>
      if negb (dict_has s "peer_id") then scores
      else
        let peer_id := to_int (dict_get s "peer_id" VNil) in
        let rounds_won := to_int (dict_get s "rounds_won" (VInt 0)) in
        <[peer_id := rounds_won]> scores
  | _ => scores
  end.

Definition _parse_scores `{Engine} (scores_array : variant) : M :=
  match scores_array with
  | VArray scores_array =>
      modify (fun m => set_scores (fold_left _parse_score scores_array (_scores m)) m)
  | _ => _log "Invalid scores data - expected Array" []
  end.

Definition _parse_final_scores `{Engine} (scores_array : variant) : M :=
  modify (set_scores ∅) >> _parse_scores scores_array.

Definition _handle_round_over `{Engine} (message : Dict) : M :=
  modify (set_state ROUND_OVER) >>
  let winner_peer_id :=
    if dict_has message "winner_peer_id"
    then to_int (dict_get message "winner_peer_id" VNil) else -1 in
  (if dict_has message "scores"
   then _parse_scores (dict_get message "scores" VNil) else skip) >>
  _log "Round over - winner: %d, scores: %s" [VInt winner_peer_id] >>
  (fun m => emit_signal (round_ended winner_peer_id (_scores m)) m).

Definition _handle_match_over `{Engine} (message : Dict) : M :=
  modify (set_state MATCH_OVER) >>
  modify (set_final_winner_peer_id (-1)) >>
  (if dict_has message "winner_peer_id"
   then modify (set_final_winner_peer_id (to_int (dict_get message "winner_peer_id" VNil)))
   else skip) >>
  modify (set_final_winner_username "") >>
  (if dict_has message "winner_username"
   then modify (set_final_winner_username (to_str (dict_get message "winner_username" VNil)))
   else skip) >>
  modify (set_final_scores []) >>
  (if dict_has message "final_scores" && is_Array (dict_get message "final_scores" VNil)
   then modify (set_final_scores (as_Array (dict_get message "final_scores" VNil))) >>
        _parse_final_scores (dict_get message "final_scores" VNil)
   else skip) >>
  (fun m => _log "Match over - winner: %s (peer_id: %d)"
                 [VStr (_final_winner_username m); VInt (_final_winner_peer_id m)] m) >>
  (fun m => emit_signal (match_ended (_final_winner_peer_id m) (_final_winner_username m)
                                     (_final_scores m)) m).

(** [handle_message]: the object after the call, its effects, and the
    returned flag (whether the message was claimed). *)
Definition handle_message `{Engine} (message : Dict) (m : t)
    : t * list (effect signal) * bool :=
  match message !! "type" with
  | None => (m, [], false)
  | Some ty =>
      if variant_eq_str ty ShardProtocol.MSG_COUNTDOWN
      then (_handle_countdown message m, true)
      else if variant_eq_str ty ShardProtocol.MSG_ROUND_START
      then (_handle_round_start message m, true)
      else if variant_eq_str ty ShardProtocol.MSG_ROUND_OVER
      then (_handle_round_over message m, true)
      else if variant_eq_str ty ShardProtocol.MSG_MATCH_OVER
      then (_handle_match_over message m, true)
      else (m, [], false)
  end.

Definition get_state (m : t) : State := _state m.
Definition get_current_round (m : t) : Z := _current_round m.
Definition get_scores (m : t) : gmap Z Z := _scores m.
Definition get_spawn_positions (m : t) : list variant := _spawn_positions m.
Definition get_weapon_spawns (m : t) : list variant := _weapon_spawns m.

Definition is_playing (m : t) : bool :=
  match _state m with PLAYING => true | _ => false end.

Definition get_state_string (m : t) : string :=
  match _state m with
  | LOBBY => "lobby"
  | COUNTDOWN => "countdown"
  | PLAYING => "playing"
  | ROUND_OVER => "round_over"
  | MATCH_OVER => "match_over"
  end.

Definition is_in_match (m : t) : bool :=
  match _state m with LOBBY => false | _ => true end.

Definition is_match_over (m : t) : bool :=
  match _state m with MATCH_OVER => true | _ => false end.

Definition reset : M :=
  modify (set_state LOBBY) >>
  modify (set_current_round 0) >>
  modify (set_scores ∅) >>
  modify (set_spawn_positions []) >>
  modify (set_weapon_spawns []) >>
  modify (set_final_winner_peer_id (-1)) >>
  modify (set_final_winner_username "") >>
  modify (set_final_scores []) >>
  _log "Match state reset" [].

Definition return_to_lobby : M :=
  modify (set_state LOBBY) >>
  modify (set_current_round 0) >>
  modify (set_spawn_positions []) >>
  modify (set_weapon_spawns []).

End ShardMatch.

(** ** ShardLobby (Godot 3) *)

Module ShardLobby.

(** A value of the roster map: [{"username": .., "is_host": ..}]. *)
Record player := mkPlayer { username : string; is_host : variant }.

Inductive signal :=
  | lobby_created (lobby_code : string) (players : gmap Z player)
  | lobby_joined (lobby_code : string) (players : gmap Z player)
  | lobby_left
  | lobby_closed (reason : variant)
  | lobby_error (code : string) (message : variant)
  | player_joined (peer_id : Z) (username : string)
  | player_left (peer_id : Z) (username : string) (new_host_peer_id : Z).

Record t := mk {
  _lobby_code : string;
  _players : gmap Z player;
  _my_peer_id : Z;
  _host_peer_id : Z;
  _debug_logging : bool
}.

Definition init : t := mk "" ∅ (-1) (-1) false.

Definition set_lobby_code (v : string) (l : t) : t :=
  mk v (_players l) (_my_peer_id l) (_host_peer_id l) (_debug_logging l).

Definition set_players (v : gmap Z player) (l : t) : t :=
  mk (_lobby_code l) v (_my_peer_id l) (_host_peer_id l) (_debug_logging l).

Definition set_host_peer_id (v : Z) (l : t) : t :=
  mk (_lobby_code l) (_players l) (_my_peer_id l) v (_debug_logging l).

Definition set_my_peer_id (peer_id : Z) (l : t) : t :=
  mk (_lobby_code l) (_players l) peer_id (_host_peer_id l) (_debug_logging l).

Abbreviation M := (action t (effect signal)).

Definition _log (format : string) (args : list variant) : M :=
  fun l => (l, if _debug_logging l then [Print "ShardLobby" format args] else []).

Definition emit_signal (s : signal) : M := tell (Emit s).

Definition _clear_state : M :=
  modify (set_lobby_code "") >> modify (set_players ∅) >> modify (set_host_peer_id (-1)).

Definition leave_lobby `{Engine} (now : Z) (connection : option ShardConnection.t) (l : t)
    : call_result t signal :=
  match connection with
  | None => CallResult l connection (snd (_log "Cannot leave lobby - not authenticated" [] l)) []
  | Some conn =>
      if negb (ShardConnection.is_authenticated conn)
      then CallResult l connection
                      (snd (_log "Cannot leave lobby - not authenticated" [] l)) []
      else if str_is_empty (_lobby_code l)
      then CallResult l connection (snd (_log "Cannot leave lobby - not in a lobby" [] l)) []
      else
        let message : Dict :=
          <["type" := VStr ShardProtocol.MSG_LEAVE_LOBBY]> (<["timestamp" := VInt now]> ∅) in
        let '(conn, conn_effects) := ShardConnection.send_message message conn in
        let '(l, effs) :=
          (_log "Sent leave_lobby request" [] >> _clear_state >> emit_signal lobby_left) l in
        CallResult l (Some conn) effs conn_effects
  end.

Definition get_lobby_code (l : t) : string := _lobby_code l.
Definition get_players (l : t) : gmap Z player := _players l.
Definition get_player_count (l : t) : Z := Z.of_nat (size (_players l)).
Definition get_my_peer_id (l : t) : Z := _my_peer_id l.
Definition get_host_peer_id (l : t) : Z := _host_peer_id l.
Definition is_in_lobby (l : t) : bool := negb (str_is_empty (_lobby_code l)).

Definition reset : M := _clear_state >> modify (set_my_peer_id (-1)).

(** [is_host()]; the name [is_host] is taken by the roster field. *)
Definition is_host' (l : t) : bool :=
  (0 <=? _my_peer_id l) && (_my_peer_id l =? _host_peer_id l).

(** *** Requests *)

Definition create_lobby `{Engine} (now : Z) (connection : option ShardConnection.t) (l : t)
    : call_result t signal :=
  match connection with
  | None => CallResult l connection (snd (_log "Cannot create lobby - not authenticated" [] l)) []
  | Some conn =>
      if negb (ShardConnection.is_authenticated conn)
      then CallResult l connection
                      (snd (_log "Cannot create lobby - not authenticated" [] l)) []
      else
        let message : Dict :=
          <["type" := VStr ShardProtocol.MSG_CREATE_LOBBY]> (<["timestamp" := VInt now]> ∅) in
        let '(conn, conn_effects) := ShardConnection.send_message message conn in
        CallResult l (Some conn) (snd (_log "Sent create_lobby request" [] l)) conn_effects
  end.

Definition join_lobby `{Engine} (now : Z) (connection : option ShardConnection.t)
    (lobby_code : string) (l : t) : call_result t signal :=
  match connection with
  | None => CallResult l connection (snd (_log "Cannot join lobby - not authenticated" [] l)) []
  | Some conn =>
      if negb (ShardConnection.is_authenticated conn)
      then CallResult l connection
                      (snd (_log "Cannot join lobby - not authenticated" [] l)) []
      else if str_is_empty lobby_code
      then
        let '(l, effs) :=
          (_log "Cannot join lobby - empty lobby code" [] >>
           emit_signal (lobby_error ShardProtocol.ERR_INVALID_LOBBY_CODE
                                    (VStr "Lobby code cannot be empty"))) l in
        CallResult l connection effs []
      else
        let message : Dict :=
          <["type" := VStr ShardProtocol.MSG_JOIN_LOBBY]>
          (<["timestamp" := VInt now]>
          (<["lobby_code" := VStr lobby_code]> ∅)) in
        let '(conn, conn_effects) := ShardConnection.send_message message conn in
        CallResult l (Some conn)
                   (snd (_log "Sent join_lobby request for code: %s" [VStr lobby_code] l))
                   conn_effects
  end.

(** *** Messages of the server *)

(** One iteration of the [for p in players_array] loop of [_parse_players]. *)
Definition _parse_player `{Engine} (l : t) (p : variant) : t :=
  match p with
  | VDict p =>
      if negb (dict_has p "peer_id") || negb (dict_has p "username") then l
      else
        let peer_id := to_int (dict_get p "peer_id" VNil) in
        let is_host := dict_get p "is_host" (VBool false) in
        let l := set_players
                   (<[peer_id := mkPlayer (to_str (dict_get p "username" VNil)) is_host]>
                      (_players l)) l in
        let l := if variant_truthy is_host then set_host_peer_id peer_id l else l in
        if variant_truthy (dict_get p "is_self" (VBool false))
        then set_my_peer_id peer_id l else l
  | _ => l
  end.

Definition _parse_players `{Engine} (players_array : variant) : M :=
  modify (set_players ∅) >>
  modify (set_host_peer_id (-1)) >>
  match players_array with
  | VArray players_array =>
      modify (fun l => fold_left _parse_player players_array l) >>
      (fun l => _log "Parsed %d players, host: %d, self: %d"
                     [VInt (Z.of_nat (size (_players l))); VInt (_host_peer_id l);
                      VInt (_my_peer_id l)] l)
  | _ => _log "Invalid players data - expected Array" []
  end.

Definition _handle_lobby_created `{Engine} (message : Dict) : M :=
  if negb (dict_has message "lobby_code")
  then _log "lobby_created message missing lobby_code" []
  else
    modify (set_lobby_code (as_String (dict_get message "lobby_code" VNil))) >>
    (if dict_has message "players"
     then _parse_players (dict_get message "players" VNil) else skip) >>
    (fun l => _log "Lobby created with code: %s" [VStr (_lobby_code l)] l) >>
    (fun l => emit_signal (lobby_created (_lobby_code l) (_players l)) l).

Definition _handle_lobby_joined `{Engine} (message : Dict) : M :=
  if negb (dict_has message "lobby_code")
  then _log "lobby_joined message missing lobby_code" []
  else
    modify (set_lobby_code (as_String (dict_get message "lobby_code" VNil))) >>
    (if dict_has message "players"
     then _parse_players (dict_get message "players" VNil) else skip) >>
    (fun l => _log "Joined lobby with code: %s" [VStr (_lobby_code l)] l) >>
    (fun l => emit_signal (lobby_joined (_lobby_code l) (_players l)) l).

Definition _handle_player_joined `{Engine} (message : Dict) : M :=
  if negb (dict_has message "peer_id") || negb (dict_has message "username")
  then _log "player_joined message missing required fields" []
  else
    let peer_id := to_int (dict_get message "peer_id" VNil) in
    let username := to_str (dict_get message "username" VNil) in
    modify (fun l => set_players
                       (<[peer_id := mkPlayer username (VBool false)]> (_players l)) l) >>
    _log "Player joined: %s (peer_id: %d)" [VStr username; VInt peer_id] >>
    emit_signal (player_joined peer_id username).

Definition _handle_player_left `{Engine} (message : Dict) : M := fun l =>
  if negb (dict_has message "peer_id")
  then _log "player_left message missing peer_id" [] l
  else
    let peer_id := to_int (dict_get message "peer_id" VNil) in
    let username :=
      match _players l !! peer_id with
      | Some p => ShardLobby.username p
      | None => ""
      end in
    let username :=
      if dict_has message "username"
      then to_str (dict_get message "username" VNil) else username in
    let new_host_peer_id :=
      if dict_has message "new_host_peer_id"
      then to_int (dict_get message "new_host_peer_id" VNil) else -1 in
    (modify (fun l => set_players (delete peer_id (_players l)) l) >>
     (if dict_has message "new_host_peer_id"
      then
        modify (set_host_peer_id new_host_peer_id) >>
        modify (fun l =>
                  match _players l !! _host_peer_id l with
                  | Some p =>
                      set_players
                        (<[_host_peer_id l := mkPlayer (ShardLobby.username p) (VBool true)]>
                           (_players l)) l
                  | None => l
                  end) >>
        _log "Host transferred to peer_id: %d" [VInt new_host_peer_id]
      else skip) >>
     _log "Player left: %s (peer_id: %d)" [VStr username; VInt peer_id] >>
     emit_signal (player_left peer_id username new_host_peer_id)) l.

Definition _handle_lobby_closed (message : Dict) : M :=
  let reason := dict_get message "reason" (VStr "Lobby closed") in
  _log "Lobby closed: %s" [reason] >>
  _clear_state >>
  emit_signal (lobby_closed reason).

Definition _handle_error `{Engine} (message : Dict) (l : t)
    : t * list (effect signal) * bool :=
  if negb (dict_has message "code") then (l, [], false)
  else
    let code := to_str (dict_get message "code" VNil) in
    let error_message := dict_get message "message" (VStr "Unknown error") in
    if ShardProtocol.is_lobby_error code
    then ((_log "Lobby error: %s - %s" [VStr code; error_message] >>
           emit_signal (lobby_error code error_message)) l, true)
    else (l, [], false).

(** [handle_message]: the object after the call, its effects, and the
    returned flag (whether the message was claimed). *)
Definition handle_message `{Engine} (message : Dict) (l : t)
    : t * list (effect signal) * bool :=
  match message !! "type" with
  | None => (l, [], false)
  | Some ty =>
      if variant_eq_str ty ShardProtocol.MSG_LOBBY_CREATED
      then (_handle_lobby_created message l, true)
      else if variant_eq_str ty ShardProtocol.MSG_LOBBY_JOINED
      then (_handle_lobby_joined message l, true)
      else if variant_eq_str ty ShardProtocol.MSG_PLAYER_JOINED
      then (_handle_player_joined message l, true)
      else if variant_eq_str ty ShardProtocol.MSG_PLAYER_LEFT
      then (_handle_player_left message l, true)
      else if variant_eq_str ty ShardProtocol.MSG_LOBBY_CLOSED
      then (_handle_lobby_closed message l, true)
      else if variant_eq_str ty ShardProtocol.MSG_ERROR
      then _handle_error message l
      else (l, [], false)
  end.

End ShardLobby.

(** ** ShardPrediction (Godot 3) *)

Module ShardPrediction.

Definition CORRECTION_THRESHOLD : Q := 5.
Definition GRAVITY : Q := 980.
Definition MOVE_SPEED : Q := 200.
Definition JUMP_VELOCITY : Q := -400.

Inductive signal :=
  | prediction_corrected (server_pos predicted_pos : Vector2.t) (correction_amount : Q).

Record t := mk {
  _enabled : bool;
  _predicted_position : Vector2.t;
  _predicted_velocity : Vector2.t;
  _my_peer_id : Z;
  _is_grounded : bool;
  _prediction_corrections : Z;
  _debug_logging : bool
}.

Definition init : t := mk true Vector2.ZERO Vector2.ZERO (-1) true 0 false.

Definition set_enabled_field (v : bool) (p : t) : t :=
  mk v (_predicted_position p) (_predicted_velocity p) (_my_peer_id p)
    (_is_grounded p) (_prediction_corrections p) (_debug_logging p).

Definition set_predicted_position (v : Vector2.t) (p : t) : t :=
  mk (_enabled p) v (_predicted_velocity p) (_my_peer_id p)
    (_is_grounded p) (_prediction_corrections p) (_debug_logging p).

Definition set_predicted_velocity (v : Vector2.t) (p : t) : t :=
  mk (_enabled p) (_predicted_position p) v (_my_peer_id p)
    (_is_grounded p) (_prediction_corrections p) (_debug_logging p).

Definition set_my_peer_id_field (v : Z) (p : t) : t :=
  mk (_enabled p) (_predicted_position p) (_predicted_velocity p) v
    (_is_grounded p) (_prediction_corrections p) (_debug_logging p).

Definition set_is_grounded (v : bool) (p : t) : t :=
  mk (_enabled p) (_predicted_position p) (_predicted_velocity p) (_my_peer_id p)
    v (_prediction_corrections p) (_debug_logging p).

Definition set_prediction_corrections (v : Z) (p : t) : t :=
  mk (_enabled p) (_predicted_position p) (_predicted_velocity p) (_my_peer_id p)
    (_is_grounded p) v (_debug_logging p).

Abbreviation M := (action t (effect signal)).

Definition _log (format : string) (args : list variant) : M :=
  fun p => (p, if _debug_logging p then [Print "ShardPrediction" format args] else []).

Definition set_enabled (enabled : bool) : M :=
  modify (set_enabled_field enabled) >> _log "Prediction %s" [VBool enabled].

Definition is_enabled (p : t) : bool := _enabled p.

Definition set_my_peer_id (peer_id : Z) : M :=
  modify (set_my_peer_id_field peer_id) >> _log "My peer ID set to %d" [VInt peer_id].

Definition apply_input (input : Dict) (delta : Q) (p : t) : t :=
  if negb (_enabled p) then p
  else
    let move_x := variant_num (dict_get input "move_x" (VFloat 0)) in
    let p := set_predicted_velocity
               (Vector2.mk (move_x * MOVE_SPEED) (Vector2.y (_predicted_velocity p))) p in
    let jump := dict_get input "jump" (VBool false) in
    let p := if variant_truthy jump && _is_grounded p
             then set_is_grounded false
                    (set_predicted_velocity
                       (Vector2.mk (Vector2.x (_predicted_velocity p)) JUMP_VELOCITY) p)
             else p in
    let p := set_predicted_velocity
               (Vector2.mk (Vector2.x (_predicted_velocity p))
                           (Vector2.y (_predicted_velocity p) + GRAVITY * delta)) p in
    let p := set_predicted_position
               (Vector2.add (_predicted_position p)
                            (Vector2.scale (_predicted_velocity p) delta)) p in
    if Qle_bool 0 (Vector2.y (_predicted_position p))
       && Qle_bool 0 (Vector2.y (_predicted_velocity p))
    then set_is_grounded true
           (set_predicted_velocity
              (Vector2.mk (Vector2.x (_predicted_velocity p)) 0)
              (set_predicted_position
                 (Vector2.mk (Vector2.x (_predicted_position p)) 0) p))
    else p.

Definition apply_input_without_delta (input : Dict) (p : t) : t :=
  apply_input input (1 / 60) p.

Fixpoint _find_my_player (players : list variant) (p : t) : option variant :=
  match players with
  | [] => None
  | player :: rest =>
      if variant_eq_int (dict_get (as_Dict player) "peer_id" (VInt (-1))) (_my_peer_id p)
      then Some player
      else _find_my_player rest p
  end.

(** [reconcile(state, input_handler)]: the prediction object and the input
    handler after the call, and the effects.  [state] is only read. *)
Definition reconcile `{Engine} (state : ShardState.t) (input_handler : ShardInput.t) (p : t)
    : t * ShardInput.t * list (effect signal) :=
  if negb (_enabled p) || (_my_peer_id p <? 0) then (p, input_handler, [])
  else
    let latest := ShardState.get_latest_state state in
    if bool_decide (latest = ∅) then (p, input_handler, [])
    else
      match _find_my_player (as_Array (dict_get latest "players" (VArray []))) p with
      | None => (p, input_handler, [])
      | Some server_player =>
          let sp := as_Dict server_player in
          let server_pos :=
            Vector2.mk (variant_num (dict_get sp "x" (VFloat 0)))
                       (variant_num (dict_get sp "y" (VFloat 0))) in
          let last_processed := ShardState.get_last_processed_tick (_my_peer_id p) state in
          let diff := distance_to (_predicted_position p) server_pos in
          let '(p, effs) :=
            if Qltb CORRECTION_THRESHOLD diff
            then
              let '(p, log1) :=
                _log "Prediction error: %.2f units (threshold: %.2f)"
                     [VFloat diff; VFloat CORRECTION_THRESHOLD] p in
              let old_predicted := _predicted_position p in
              let p := set_predicted_position server_pos p in
              let p := set_predicted_velocity
                         (Vector2.mk (variant_num (dict_get sp "vx" (VFloat 0)))
                                     (variant_num (dict_get sp "vy" (VFloat 0)))) p in
              let p := set_is_grounded
                         (Qle_bool 0 (Vector2.y (_predicted_velocity p))
                          && Qle_bool 0 (Vector2.y (_predicted_position p))) p in
              let unprocessed_inputs :=
                ShardInput.get_inputs_after_tick last_processed input_handler in
              let '(p, log2) :=
                _log "Re-applying %d unprocessed inputs after tick %d"
                     [VInt (Z.of_nat (length unprocessed_inputs)); VInt last_processed] p in
              let p := fold_left (fun p entry =>
                                    apply_input_without_delta (ShardInput.input entry) p)
                                 unprocessed_inputs p in
              let p := set_prediction_corrections (_prediction_corrections p + 1) p in
              (p, log1 ++ log2 ++ [Emit (prediction_corrected server_pos old_predicted diff)])
            else (p, []) in
          (p, ShardInput.clear_inputs_before_tick last_processed input_handler, effs)
      end.

Definition get_predicted_position (p : t) : Vector2.t := _predicted_position p.
Definition get_predicted_velocity (p : t) : Vector2.t := _predicted_velocity p.
Definition is_grounded (p : t) : bool := _is_grounded p.
Definition get_prediction_corrections (p : t) : Z := _prediction_corrections p.

Definition get_my_peer_id (p : t) : Z := _my_peer_id p.

Definition set_position (pos : Vector2.t) : M :=
  modify (set_predicted_position pos) >>
  _log "Position set to %s" [VFloat (Vector2.x pos); VFloat (Vector2.y pos)].

Definition set_velocity (vel : Vector2.t) : M := modify (set_predicted_velocity vel).

Definition set_grounded (grounded : bool) : M := modify (set_is_grounded grounded).

Definition initialize_from_server_state (state : ShardState.t) : M := fun p =>
  if _my_peer_id p <? 0 then (p, [])
  else
    let latest := ShardState.get_latest_state state in
    if bool_decide (latest = ∅) then (p, [])
    else
      match _find_my_player (as_Array (dict_get latest "players" (VArray []))) p with
      | None => (p, [])
      | Some server_player =>
          let sp := as_Dict server_player in
          (modify (set_predicted_position
                     (Vector2.mk (variant_num (dict_get sp "x" (VFloat 0)))
                                 (variant_num (dict_get sp "y" (VFloat 0))))) >>
           modify (set_predicted_velocity
                     (Vector2.mk (variant_num (dict_get sp "vx" (VFloat 0)))
                                 (variant_num (dict_get sp "vy" (VFloat 0))))) >>
           modify (fun p => set_is_grounded
                              (Qle_bool 0 (Vector2.y (_predicted_velocity p))
                               && Qle_bool 0 (Vector2.y (_predicted_position p))) p) >>
           (fun p => _log "Initialized from server state: pos=%s vel=%s"
                          [VFloat (Vector2.x (_predicted_position p));
                           VFloat (Vector2.y (_predicted_position p));
                           VFloat (Vector2.x (_predicted_velocity p));
                           VFloat (Vector2.y (_predicted_velocity p))] p)) p
      end.

Definition reset : M :=
  modify (set_predicted_position Vector2.ZERO) >>
  modify (set_predicted_velocity Vector2.ZERO) >>
  modify (set_is_grounded true) >>
  modify (set_prediction_corrections 0) >>
  _log "Prediction state reset" [].

End ShardPrediction.

(** ** ShardMultiplayer (Godot 3): the singleton that owns the components

    The record holds the six components as they are after
    [_initialize_components], so every [if _lobby:] guard of the source
    holds.  A signal of a component runs the method that [_wire_signals]
    connected to it, at the point where it is emitted. *)

Module ShardMultiplayer.

Inductive signal :=
  | connected
  | disconnected (reason : string)
  | authenticated (user_id username : string)
  | authentication_failed (reason : string)
  | reconnected
  | reconnection_failed
  | connection_lost
  | lobby_created (lobby_code : string) (players : gmap Z ShardLobby.player)
  | lobby_joined (lobby_code : string) (players : gmap Z ShardLobby.player)
  | lobby_left
  | lobby_closed (reason : variant)
  | lobby_error (code : string) (message : variant)
  | player_joined (peer_id : Z) (username : string)
  | player_left (peer_id : Z) (username : string) (new_host_peer_id : Z)
  | countdown (seconds : Z)
  | round_started (round_number : Z) (spawn_positions weapon_spawns : list variant)
  | round_ended (winner_peer_id : Z) (scores : gmap Z Z)
  | match_ended (winner_peer_id : Z) (winner_username : string)
                (final_scores : list variant)
  | state_received (snapshot : Dict)
  | player_damaged (attacker_peer_id victim_peer_id damage health_remaining : Z)
  | player_eliminated (peer_id killer_peer_id : Z)
  | player_disconnected (peer_id : Z) (username : string)
  | player_reconnected (peer_id : Z) (username : string)
  | player_timed_out (peer_id : Z) (username : string)
  | weapon_picked_up (peer_id : Z) (weapon_type : string)
  | weapon_dropped (peer_id : Z) (weapon_type : string) (position : Vector2.t)
  | latency_updated (latency_ms : Z)
  | error_received (code message : string)
  | rate_limited
  | prediction_corrected (server_pos predicted_pos : Vector2.t) (correction_amount : Q).

Record t := mk {
  _connection : ShardConnection.t;
  _lobby : ShardLobby.t;
  _match : ShardMatch.t;
  _input : ShardInput.t;
  _state : ShardState.t;
  _prediction : ShardPrediction.t;
  _debug_logging : bool;
  _interpolation_delay : Z;
  _prediction_enabled : bool;
  _last_error : Dict
}.

Definition set_connection (v : ShardConnection.t) (o : t) : t :=
  mk v (_lobby o) (_match o) (_input o) (_state o) (_prediction o)
    (_debug_logging o) (_interpolation_delay o) (_prediction_enabled o) (_last_error o).

Definition set_lobby (v : ShardLobby.t) (o : t) : t :=
  mk (_connection o) v (_match o) (_input o) (_state o) (_prediction o)
    (_debug_logging o) (_interpolation_delay o) (_prediction_enabled o) (_last_error o).

Definition set_match (v : ShardMatch.t) (o : t) : t :=
  mk (_connection o) (_lobby o) v (_input o) (_state o) (_prediction o)
    (_debug_logging o) (_interpolation_delay o) (_prediction_enabled o) (_last_error o).

Definition set_input (v : ShardInput.t) (o : t) : t :=
  mk (_connection o) (_lobby o) (_match o) v (_state o) (_prediction o)
    (_debug_logging o) (_interpolation_delay o) (_prediction_enabled o) (_last_error o).

Definition set_state (v : ShardState.t) (o : t) : t :=
  mk (_connection o) (_lobby o) (_match o) (_input o) v (_prediction o)
    (_debug_logging o) (_interpolation_delay o) (_prediction_enabled o) (_last_error o).

Definition set_prediction (v : ShardPrediction.t) (o : t) : t :=
  mk (_connection o) (_lobby o) (_match o) (_input o) (_state o) v
    (_debug_logging o) (_interpolation_delay o) (_prediction_enabled o) (_last_error o).

Definition set_last_error (v : Dict) (o : t) : t :=
  mk (_connection o) (_lobby o) (_match o) (_input o) (_state o) (_prediction o)
    (_debug_logging o) (_interpolation_delay o) (_prediction_enabled o) v.

Abbreviation M := (action t (effect signal)).

Definition _log (format : string) (args : list variant) : M :=
  fun o => (o, if _debug_logging o then [Print "ShardMultiplayer" format args] else []).

Definition emit_signal (s : signal) : M := tell (Emit s).

(** The effects of a call on a component, as they reach the singleton: a
    line printed by the component is a line printed, and an emitted signal
    runs the method connected to it. *)
Fixpoint deliver {A : Type} (on_signal : A -> M) (tr : list (effect A)) : M :=
  match tr with
  | [] => skip
  | Print component format args :: rest =>
      tell (Print component format args) >> deliver on_signal rest
  | Emit s :: rest => on_signal s >> deliver on_signal rest
  end.

(** The Dictionary stored in [_last_error]. *)
Definition error_record (code : string) (message : variant) (now : Z) : Dict :=
  <["code" := VStr code]> (<["message" := message]> (<["timestamp" := VInt now]> ∅)).

(** *** Signal handlers: state and prediction *)

Definition _on_state_received (snapshot : Dict) : M :=
  emit_signal (state_received snapshot).

Definition _on_prediction_corrected (server_pos predicted_pos : Vector2.t)
    (correction_amount : Q) : M :=
  _log "Prediction corrected: server=%s predicted=%s diff=%.2f" [VFloat correction_amount] >>
  emit_signal (prediction_corrected server_pos predicted_pos correction_amount).

Definition _on_state_signal (s : ShardState.signal) : M :=
  match s with
  | ShardState.state_received snapshot => _on_state_received snapshot
  end.

Definition _on_prediction_signal (s : ShardPrediction.signal) : M :=
  match s with
  | ShardPrediction.prediction_corrected server_pos predicted_pos correction_amount =>
      _on_prediction_corrected server_pos predicted_pos correction_amount
  end.

(** No method is connected to the signal of the input handler. *)
Definition _on_input_signal (s : ShardInput.signal) : M := skip.

(** A method call on a component. *)
Definition on_state (a : ShardState.M) : M := fun o =>
  let '(s, effs) := a (_state o) in
  (modify (set_state s) >> deliver _on_state_signal effs) o.

Definition on_prediction (a : ShardPrediction.M) : M := fun o =>
  let '(p, effs) := a (_prediction o) in
  (modify (set_prediction p) >> deliver _on_prediction_signal effs) o.

Definition on_input (a : ShardInput.M) : M := fun o =>
  let '(i, effs) := a (_input o) in
  (modify (set_input i) >> deliver _on_input_signal effs) o.

(** *** Helper methods *)

Definition _sync_peer_id_to_prediction : M := fun o =>
  let peer_id := ShardLobby.get_my_peer_id (_lobby o) in
  if 0 <=? peer_id
  then on_prediction (ShardPrediction.set_my_peer_id peer_id) o
  else (o, []).

(** The [for spawn in spawn_positions] search: the first spawn that is a
    Dictionary whose peer id is [my_peer_id]. *)
Fixpoint _find_spawn (spawn_positions : list variant) (my_peer_id : Z) : option Dict :=
  match spawn_positions with
  | [] => None
  | VDict spawn :: rest =>
      if variant_eq_int (dict_get spawn "peer_id" (VInt (-1))) my_peer_id
      then Some spawn
      else _find_spawn rest my_peer_id
  | _ :: rest => _find_spawn rest my_peer_id
  end.

Definition _initialize_prediction_for_round (spawn_positions : list variant) : M := fun o =>
  let my_peer_id := ShardLobby.get_my_peer_id (_lobby o) in
  if my_peer_id <? 0 then (o, [])
  else
    match _find_spawn spawn_positions my_peer_id with
    | None => (o, [])
    | Some spawn =>
        let pos := Vector2.mk (variant_num (dict_get spawn "x" (VFloat 0)))
                              (variant_num (dict_get spawn "y" (VFloat 0))) in
        (on_prediction (ShardPrediction.set_position pos) >>
         on_prediction (ShardPrediction.set_velocity Vector2.ZERO) >>
         on_prediction (ShardPrediction.set_grounded true) >>
         _log "Initialized prediction at spawn: %s"
              [VFloat (Vector2.x pos); VFloat (Vector2.y pos)]) o
    end.

(** *** Signal handlers: match *)

Definition _on_countdown (seconds : Z) : M :=
  _log "Countdown: %d" [VInt seconds] >> emit_signal (countdown seconds).

Definition _on_round_started (round_number : Z) (spawn_positions weapon_spawns : list variant)
    : M :=
  _log "Round %d started" [VInt round_number] >>
  on_input ShardInput.reset >>
  _initialize_prediction_for_round spawn_positions >>
  emit_signal (round_started round_number spawn_positions weapon_spawns).

Definition _on_round_ended (winner_peer_id : Z) (scores : gmap Z Z) : M :=
  _log "Round ended - winner: %d" [VInt winner_peer_id] >>
  emit_signal (round_ended winner_peer_id scores).

Definition _on_match_ended (winner_peer_id : Z) (winner_username : string)
    (final_scores : list variant) : M :=
  _log "Match ended - winner: %s (peer_id=%d)" [VStr winner_username; VInt winner_peer_id] >>
  modify (fun o => set_connection (ShardConnection.set_in_match false (_connection o)) o) >>
  emit_signal (match_ended winner_peer_id winner_username final_scores).

Definition _on_match_signal (s : ShardMatch.signal) : M :=
  match s with
  | ShardMatch.countdown seconds => _on_countdown seconds
  | ShardMatch.round_started round_number spawn_positions weapon_spawns =>
      _on_round_started round_number spawn_positions weapon_spawns
  | ShardMatch.round_ended winner_peer_id scores => _on_round_ended winner_peer_id scores
  | ShardMatch.match_ended winner_peer_id winner_username final_scores =>
      _on_match_ended winner_peer_id winner_username final_scores
  end.

Definition on_match (a : ShardMatch.M) : M := fun o =>
  let '(m, effs) := a (_match o) in
  (modify (set_match m) >> deliver _on_match_signal effs) o.

(** *** Signal handlers: lobby *)

Definition _on_lobby_created (lobby_code : string) (players : gmap Z ShardLobby.player) : M :=
  _log "Lobby created: %s with %d players" [VStr lobby_code; VInt (Z.of_nat (size players))] >>
  _sync_peer_id_to_prediction >>
  emit_signal (lobby_created lobby_code players).

Definition _on_lobby_joined (lobby_code : string) (players : gmap Z ShardLobby.player) : M :=
  _log "Joined lobby: %s with %d players" [VStr lobby_code; VInt (Z.of_nat (size players))] >>
  _sync_peer_id_to_prediction >>
  emit_signal (lobby_joined lobby_code players).

Definition _on_lobby_left : M :=
  _log "Left lobby" [] >> emit_signal lobby_left.

Definition _on_lobby_closed (reason : variant) : M :=
  _log "Lobby closed: %s" [reason] >>
  on_match ShardMatch.reset >>
  emit_signal (lobby_closed reason).

Definition _on_lobby_error (now : Z) (code : string) (message : variant) : M :=
  _log "Lobby error: %s - %s" [VStr code; message] >>
  modify (set_last_error (error_record code message now)) >>
  emit_signal (lobby_error code message).

Definition _on_player_joined (peer_id : Z) (username : string) : M :=
  _log "Player joined: %s (peer_id=%d)" [VStr username; VInt peer_id] >>
  emit_signal (player_joined peer_id username).

Definition _on_player_left (peer_id : Z) (username : string) (new_host_peer_id : Z) : M :=
  _log "Player left: %s (peer_id=%d), new host: %d"
       [VStr username; VInt peer_id; VInt new_host_peer_id] >>
  emit_signal (player_left peer_id username new_host_peer_id).

Definition _on_lobby_signal (now : Z) (s : ShardLobby.signal) : M :=
  match s with
  | ShardLobby.lobby_created lobby_code players => _on_lobby_created lobby_code players
  | ShardLobby.lobby_joined lobby_code players => _on_lobby_joined lobby_code players
  | ShardLobby.lobby_left => _on_lobby_left
  | ShardLobby.lobby_closed reason => _on_lobby_closed reason
  | ShardLobby.lobby_error code message => _on_lobby_error now code message
  | ShardLobby.player_joined peer_id username => _on_player_joined peer_id username
  | ShardLobby.player_left peer_id username new_host_peer_id =>
      _on_player_left peer_id username new_host_peer_id
  end.

Definition on_lobby (now : Z) (a : ShardLobby.M) : M := fun o =>
  let '(l, effs) := a (_lobby o) in
  (modify (set_lobby l) >> deliver (_on_lobby_signal now) effs) o.

Definition _reset_game_state (now : Z) : M :=
  on_lobby now ShardLobby.reset >>
  on_match ShardMatch.reset >>
  on_input ShardInput.reset >>
  on_state ShardState.reset >>
  on_prediction ShardPrediction.reset.

(** *** Message routing *)

Definition _handle_error `{Engine} (now : Z) (message : Dict) : M :=
  let code := to_str (dict_get message "code" (VStr "unknown")) in
  let error_message := to_str (dict_get message "message" (VStr "Unknown error")) in
  modify (set_last_error (error_record code (VStr error_message) now)) >>
  _log "Error received: %s - %s" [VStr code; VStr error_message] >>
  (if negb (ShardProtocol.is_lobby_error code)
   then emit_signal (error_received code error_message)
   else skip).

Definition _handle_game_event `{Engine} (now : Z) (message : Dict) : M :=
  let msg_type := dict_get message "type" (VStr "") in
  let peer_id := to_int (dict_get message "peer_id" (VInt (-1))) in
  if variant_eq_str msg_type ShardProtocol.MSG_PLAYER_DAMAGED
  then emit_signal (player_damaged (to_int (dict_get message "attacker_peer_id" (VInt (-1))))
                                   (to_int (dict_get message "victim_peer_id" (VInt (-1))))
                                   (to_int (dict_get message "damage" (VInt 0)))
                                   (to_int (dict_get message "health_remaining" (VInt 0))))
  else if variant_eq_str msg_type ShardProtocol.MSG_PLAYER_ELIMINATED
  then emit_signal (player_eliminated peer_id
                                      (to_int (dict_get message "killer_peer_id" (VInt (-1)))))
  else if variant_eq_str msg_type ShardProtocol.MSG_PLAYER_DISCONNECTED
  then emit_signal (player_disconnected peer_id (to_str (dict_get message "username" (VStr ""))))
  else if variant_eq_str msg_type ShardProtocol.MSG_PLAYER_RECONNECTED
  then emit_signal (player_reconnected peer_id (to_str (dict_get message "username" (VStr ""))))
  else if variant_eq_str msg_type ShardProtocol.MSG_PLAYER_TIMEOUT
  then emit_signal (player_timed_out peer_id (to_str (dict_get message "username" (VStr ""))))
  else if variant_eq_str msg_type ShardProtocol.MSG_WEAPON_PICKUP
  then emit_signal (weapon_picked_up peer_id
                                     (to_str (dict_get message "weapon_type" (VStr ""))))
  else if variant_eq_str msg_type ShardProtocol.MSG_WEAPON_DROPPED
  then emit_signal (weapon_dropped peer_id
                      (to_str (dict_get message "weapon_type" (VStr "")))
                      (Vector2.mk (variant_num (dict_get message "x" (VFloat 0)))
                                  (variant_num (dict_get message "y" (VFloat 0)))))
  else if variant_eq_str msg_type ShardProtocol.MSG_ERROR
  then _handle_error now message
  else skip.

Definition _on_message_received `{Engine} (now : Z) (message : Dict) : M := fun o =>
  match message !! "type" with
  | None => _log "Received message without type field" [] o
  | Some msg_type =>
      (_log "Routing message: %s" [msg_type] >>
       (fun o =>
          let '(l, effs, claimed) := ShardLobby.handle_message message (_lobby o) in
          (modify (set_lobby l) >>
           deliver (_on_lobby_signal now) effs >>
           (if claimed then skip
            else
              fun o =>
                let '(m, effs, claimed) := ShardMatch.handle_message message (_match o) in
                (modify (set_match m) >>
                 deliver _on_match_signal effs >>
                 (if claimed
                  then
                    if variant_eq_str msg_type ShardProtocol.MSG_ROUND_START
                    then modify (fun o => set_connection
                                            (ShardConnection.set_in_match true (_connection o)) o)
                    else if variant_eq_str msg_type ShardProtocol.MSG_MATCH_OVER
                    then modify (fun o => set_connection
                                            (ShardConnection.set_in_match false (_connection o)) o)
                    else skip
                  else if variant_eq_str msg_type ShardProtocol.MSG_STATE_SNAPSHOT
                  then on_state (ShardState.handle_snapshot now message)
                  else _handle_game_event now message)) o)) o)) o
  end.

(** *** Signal handlers: connection *)

Definition _on_connection_connected : M :=
  _log "Connected to server" [] >> emit_signal connected.

Definition _on_connection_disconnected (now : Z) (reason : string) : M :=
  _log "Disconnected: %s" [VStr reason] >>
  _reset_game_state now >>
  emit_signal (disconnected reason).

Definition _on_connection_authenticated (user_id username : string) : M :=
  _log "Authenticated as %s (ID: %s)" [VStr username; VStr user_id] >>
  emit_signal (authenticated user_id username).

Definition _on_connection_authentication_failed (now : Z) (reason : string) : M :=
  _log "Authentication failed: %s" [VStr reason] >>
  modify (set_last_error (error_record "authentication_failed" (VStr reason) now)) >>
  emit_signal (authentication_failed reason).

Definition _on_connection_reconnected : M :=
  _log "Reconnected to server" [] >>
  (fun o => on_prediction (ShardPrediction.initialize_from_server_state (_state o)) o) >>
  emit_signal reconnected.

Definition _on_connection_reconnection_failed (now : Z) : M :=
  _log "Reconnection failed" [] >>
  _reset_game_state now >>
  emit_signal reconnection_failed.

Definition _on_connection_lost : M :=
  _log "Connection lost" [] >> emit_signal connection_lost.

Definition _on_connection_rate_limited (now : Z) : M :=
  _log "Rate limited by server" [] >>
  modify (set_last_error (error_record "rate_limited" (VStr "Too many requests") now)) >>
  emit_signal rate_limited.

Definition _on_connection_error (now : Z) (code message : string) : M :=
  _log "Connection error: %s - %s" [VStr code; VStr message] >>
  modify (set_last_error (error_record code (VStr message) now)) >>
  emit_signal (error_received code message).

Definition _on_latency_updated (latency_ms : Z) : M :=
  emit_signal (latency_updated latency_ms).

Definition _on_connection_signal `{Engine} (now : Z) (s : ShardConnection.signal) : M :=
  match s with
  | ShardConnection.connected => _on_connection_connected
  | ShardConnection.disconnected reason => _on_connection_disconnected now reason
  | ShardConnection.authenticated user_id username =>
      _on_connection_authenticated user_id username
  | ShardConnection.authentication_failed reason =>
      _on_connection_authentication_failed now reason
  | ShardConnection.reconnected => _on_connection_reconnected
  | ShardConnection.reconnection_failed => _on_connection_reconnection_failed now
  | ShardConnection.connection_lost => _on_connection_lost
  | ShardConnection.rate_limited => _on_connection_rate_limited now
  | ShardConnection.error_received code message => _on_connection_error now code message
  | ShardConnection.message_received message => _on_message_received now message
  | ShardConnection.latency_updated latency_ms => _on_latency_updated latency_ms
  end.

(** The outcome of a component method that was handed [_connection]: the
    connection first (it is written to before the component goes on), then
    the component. *)
Definition with_connection `{Engine} {S A : Type} (now : Z) (set : S -> t -> t)
    (on_signal : A -> M) (r : call_result S A) : M :=
  modify (fun o => match handler_connection r with
                   | Some c => set_connection c o
                   | None => o
                   end) >>
  deliver (_on_connection_signal now) (connection_effects r) >>
  modify (set (handler r)) >>
  deliver on_signal (effects r).

(** *** Lobby API *)

Definition create_lobby `{Engine} (now : Z) : M :=
  _log "Creating lobby..." [] >>
  (fun o => with_connection now set_lobby (_on_lobby_signal now)
              (ShardLobby.create_lobby now (Some (_connection o)) (_lobby o)) o).

Definition join_lobby `{Engine} (now : Z) (lobby_code : string) : M :=
  _log "Joining lobby: %s" [VStr lobby_code] >>
  (fun o => with_connection now set_lobby (_on_lobby_signal now)
              (ShardLobby.join_lobby now (Some (_connection o)) lobby_code (_lobby o)) o).

Definition leave_lobby `{Engine} (now : Z) : M :=
  _log "Leaving lobby..." [] >>
  (fun o => with_connection now set_lobby (_on_lobby_signal now)
              (ShardLobby.leave_lobby now (Some (_connection o)) (_lobby o)) o).

(** *** Match API *)

Definition start_match `{Engine} (now : Z) : M :=
  _log "Starting match..." [] >>
  (fun o => with_connection now set_match _on_match_signal
              (ShardMatch.start_match now (Some (_connection o)) (_match o)) o) >>
  modify (fun o => set_connection (ShardConnection.set_in_match true (_connection o)) o).

(** *** Input API

    [process_delta] is what [get_process_delta_time()] answers. *)

Definition send_input `{Engine} (now : Z) (process_delta : Q) (input : Dict) : M := fun o =>
  let is_playing := ShardMatch.is_playing (_match o) in
  (with_connection now set_input _on_input_signal
     (ShardInput.send_input now (Some (_connection o)) input is_playing (_input o)) >>
   when (fun o => ShardPrediction.is_enabled (_prediction o) && is_playing)
        (modify (fun o => set_prediction
                            (ShardPrediction.apply_input input process_delta (_prediction o))
                            o))) o.

(** *** Connection API *)

Definition on_connection `{Engine} (now : Z) (a : ShardConnection.M) : M := fun o =>
  let '(c, effs) := a (_connection o) in
  (modify (set_connection c) >> deliver (_on_connection_signal now) effs) o.

Definition disconnect_from_server `{Engine}
    (now : Z) (closing : ShardConnection.WebSocketPeer -> ShardConnection.WebSocketPeer)
    : M :=
  _log "Disconnecting from server..." [] >>
  on_connection now (ShardConnection.disconnect_from_server closing) >>
  _reset_game_state now.

(** *** Diagnostics *)

Definition get_connection_state (o : t) : string :=
  if ShardMatch.is_in_match (_match o) then "in_match"
  else if ShardLobby.is_in_lobby (_lobby o) then "in_lobby"
  else ShardConnection.get_state_string (_connection o).

Definition get_last_error (o : t) : Dict := _last_error o.

End ShardMultiplayer.

(** ** Sequences of calls *)

(** Snapshots handled one after the other; each is a receipt time and a message. *)
Definition handle_snapshots (messages : list (Z * Dict)) (s : ShardState.t) : ShardState.t :=
  fold_left (fun s m => fst (ShardState.handle_snapshot (fst m) (snd m) s)) messages s.

(** Inputs stored one after the other. *)
Definition store_inputs (inputs : list ShardInput.entry) (s : ShardInput.t) : ShardInput.t :=
  fold_left (fun s e => fst (ShardInput._store_input (ShardInput.tick e) (ShardInput.input e) s))
            inputs s.

(** A call on the input handler's buffer: a store, or one of the queries. *)
Inductive input_call :=
  | Store (e : ShardInput.entry)
  | GetInputsAfterTick (tick : Z)
  | GetInputAtTick (tick : Z)
  | GetBufferSize.

(** The input handler after a call; what a query returns is dropped. *)
Definition run_input_call (s : ShardInput.t) (c : input_call) : ShardInput.t :=
  match c with
  | Store e => fst (ShardInput._store_input (ShardInput.tick e) (ShardInput.input e) s)
  | GetInputsAfterTick tick => let _ := ShardInput.get_inputs_after_tick tick s in s
  | GetInputAtTick tick => let _ := ShardInput.get_input_at_tick tick s in s
  | GetBufferSize => let _ := ShardInput.get_buffer_size s in s
  end.

(** The entries stored by a sequence of calls, oldest first. *)
Fixpoint stored_entries (calls : list input_call) : list ShardInput.entry :=
  match calls with
  | [] => []
  | Store e :: rest => e :: stored_entries rest
  | _ :: rest => stored_entries rest
  end.

(** The number of fields of a Dictionary that hold a [bool]. *)
Definition bool_field_count (d : Dict) : nat :=
  map_fold (fun _ v n => match v with VBool _ => S n | _ => n end) 0%nat d.

(** ** An instance of the engine built-ins, for evaluating examples

    Numbers and booleans convert as GDScript converts them; a String converts
    to 0, to its non-emptiness and to itself; [distance_to] is the Euclidean
    distance rounded down to a multiple of 1/1000; the frame of a message is
    its type tag. *)

Definition sqrt_milli (q : Q) : Q :=
  Z.sqrt (Qnum q * 1000000 / Z.pos (Qden q)) # 1000.

Definition reference_engine : Engine := {|
  to_float := variant_num;
  to_bool := variant_truthy;
  to_int := variant_int;
  to_str := fun v => match v with
                     | VStr s => s
                     | VInt n => pretty n
                     | _ => ""
                     end;
  distance_to := fun a b =>
    sqrt_milli ((Vector2.x a - Vector2.x b) * (Vector2.x a - Vector2.x b)
                + (Vector2.y a - Vector2.y b) * (Vector2.y a - Vector2.y b));
  json_stringify := fun d => match d !! "type" with Some (VStr s) => s | _ => "" end;
  json_parse := fun s => Some (VDict (<["type" := VStr s]> ∅));
  utf8_size := fun s => Z.of_nat (String.length s)
|}.

(** ** Score payloads, as the specification words them

    The (peer id, rounds won) pairs that a scores payload carries, in payload
    order: the elements that are Dictionaries with a peer id. *)
Definition score_entries `{Engine} (scores_array : list variant) : list (Z * Z) :=
  omap (fun s => match s with
                 | VDict s =>
                     if dict_has s "peer_id"
                     then Some (to_int (dict_get s "peer_id" VNil),
                                to_int (dict_get s "rounds_won" (VInt 0)))
                     else None
                 | _ => None
                 end) scores_array.

(** The payload as a map by peer id; of two entries for one peer the later
    one counts. *)
Definition payload_scores `{Engine} (scores_array : list variant) : gmap Z Z :=
  list_to_map (reverse (score_entries scores_array)).

(** Merging a payload into a score map by peer id: the payload's entry where
    it has one, the old entry otherwise. *)
Definition merge_scores (payload old : gmap Z Z) : gmap Z Z := payload ∪ old.

(** ** Clamping to [-1, 1], as the specification words it

    [y] is [x] clamped: [x] itself when it is in range, the bound it
    passed otherwise. *)
Definition clamped_to_unit (x y : Q) : Prop :=
  (-1 <= y <= 1)%Q /\
  ((-1 <= x <= 1)%Q -> y = x) /\
  ((x < -1)%Q -> y = (-1)%Q) /\
  ((1 < x)%Q -> y = 1%Q).

(** ** The arithmetic mean, as the specification words it *)

Definition sum_of (samples : list Z) : Z := foldr Z.add 0 samples.

Definition arithmetic_mean (samples : list Z) : Q :=
  (inject_Z (sum_of samples) / inject_Z (Z.of_nat (length samples)))%Q.

(** The [user] Dictionary of an [authenticated] message that carries both
    of its required fields. *)
Definition authenticated_user (message : Dict) : option Dict :=
  match message !! "user" with
  | Some (VDict user) =>
      if dict_has user "id" && dict_has user "username" then Some user else None
  | _ => None
  end.

(** What the handlers of a received message leave alone: the reception
    counters and the socket. *)
Definition same_reception (c c' : ShardConnection.t) : Prop :=
  ShardConnection._messages_received c' = ShardConnection._messages_received c /\
  ShardConnection._bytes_received c' = ShardConnection._bytes_received c /\
  ShardConnection._ws c' = ShardConnection._ws c.

(** The bytes of a list of frames. *)
Definition frames_size `{Engine} (frames : list string) : Z :=
  foldr (fun data n => utf8_size data + n) 0 frames.

(** A connection at rest: Disconnected and not in the reconnecting mode. *)
Definition idle (c : ShardConnection.t) : Prop :=
  ShardConnection._state c = ShardConnection.DISCONNECTED /\
  ShardConnection._is_reconnecting c = false.

(** The two halves of [ShardConnection.poll]: the first statement, which
    polls the socket and reacts to its state, and the three timers that
    follow it. *)
Definition poll_socket `{Engine} (now : Z)
    (transport : ShardConnection.WebSocketPeer -> ShardConnection.WebSocketPeer)
    : ShardConnection.M :=
  fun c =>
    match ShardConnection._ws c with
    | None => (c, [])
    | Some ws =>
        let ws := transport ws in
        (modify (ShardConnection.set_ws (Some ws)) >>
         match ShardConnection.ready_state ws with
         | ShardConnection.STATE_OPEN =>
             when (fun c => ShardConnection.State_eqb (ShardConnection._state c)
                              ShardConnection.CONNECTING)
                  ShardConnection._on_connected >>
             ShardConnection._process_incoming now
         | ShardConnection.STATE_CLOSING => skip
         | ShardConnection.STATE_CLOSED =>
             when (fun c => negb (ShardConnection.State_eqb (ShardConnection._state c)
                                    ShardConnection.DISCONNECTED))
                  ShardConnection._on_disconnected
         | ShardConnection.STATE_CONNECTING => skip
         end) c
    end.

Definition poll_timers `{Engine} (delta : Q) (now : Z) (connect_err : Z)
    : ShardConnection.M :=
  when (fun c => ShardConnection._is_reconnecting c
                 && ShardConnection.State_eqb (ShardConnection._state c)
                      ShardConnection.DISCONNECTED)
       (modify (fun c => ShardConnection.set_reconnect_timer
                           (ShardConnection._reconnect_timer c - delta)%Q c) >>
        when (fun c => Qle_bool (ShardConnection._reconnect_timer c) 0)
             (ShardConnection._attempt_reconnect connect_err)) >>
  when (fun c => ShardConnection.State_eqb (ShardConnection._state c)
                   ShardConnection.AUTHENTICATED)
       (modify (fun c => ShardConnection.set_ping_timer
                           (ShardConnection._ping_timer c + delta)%Q c) >>
        when (fun c => Qle_bool ShardConnection.PING_INTERVAL (ShardConnection._ping_timer c))
             (ShardConnection._send_ping now >> modify (ShardConnection.set_ping_timer 0))) >>
  when (fun c => ShardConnection._in_match c && ShardConnection._is_reconnecting c)
       (modify (fun c => ShardConnection.set_match_reconnect_timer
                           (ShardConnection._match_reconnect_timer c + delta)%Q c) >>
        when (fun c => Qle_bool ShardConnection.MATCH_RECONNECT_TIMEOUT
                         (ShardConnection._match_reconnect_timer c))
             (ShardConnection._log "Match reconnection timeout exceeded" [] >>
              modify (ShardConnection.set_is_reconnecting false) >>
              modify (ShardConnection.set_in_match false) >>
              ShardConnection.emit ShardConnection.reconnection_failed)).

(** ** Players payloads, entry by entry

    The well-formed elements of a players payload, in payload order: the
    peer id, the roster entry made of it, and its [is_self] flag. *)
Definition player_entry `{Engine} (p : variant) : option (Z * ShardLobby.player * variant) :=
  match p with
  | VDict p =>
      if dict_has p "peer_id" && dict_has p "username"
      then Some (to_int (dict_get p "peer_id" VNil),
                 ShardLobby.mkPlayer (to_str (dict_get p "username" VNil))
                                     (dict_get p "is_host" (VBool false)),
                 dict_get p "is_self" (VBool false))
      else None
  | _ => None
  end.

Definition player_entries `{Engine} (players_array : list variant)
    : list (Z * ShardLobby.player * variant) :=
  omap player_entry players_array.

(** The payload as a roster by peer id; of two entries for one peer the
    later one counts. *)
Definition payload_roster `{Engine} (players_array : list variant)
    : gmap Z ShardLobby.player :=
  list_to_map (reverse ((fun e => (e.1.1, e.1.2)) <$> player_entries players_array)).

(** The peer id of the last entry that carries a flag, if any does. *)
Definition last_peer (flag : Z * ShardLobby.player * variant -> bool)
    (entries : list (Z * ShardLobby.player * variant)) (default : Z) : Z :=
  match last (filter (fun e => flag e = true) entries) with
  | Some e => e.1.1
  | None => default
  end.

Definition flagged_host (e : Z * ShardLobby.player * variant) : bool :=
  variant_truthy (ShardLobby.is_host e.1.2).

Definition flagged_self (e : Z * ShardLobby.player * variant) : bool :=
  variant_truthy e.2.

(** Whether a component is handed a connection that is Authenticated. *)
Definition connection_authenticated (connection : option ShardConnection.t) : bool :=
  match connection with
  | Some conn => ShardConnection.is_authenticated conn
  | None => false
  end.

(** The type tags that the lobby and the match claim. *)
Definition lobby_tags : list string :=
  [ShardProtocol.MSG_LOBBY_CREATED; ShardProtocol.MSG_LOBBY_JOINED;
   ShardProtocol.MSG_PLAYER_JOINED; ShardProtocol.MSG_PLAYER_LEFT;
   ShardProtocol.MSG_LOBBY_CLOSED; ShardProtocol.MSG_ERROR].

Definition match_tags : list string :=
  [ShardProtocol.MSG_COUNTDOWN; ShardProtocol.MSG_ROUND_START;
   ShardProtocol.MSG_ROUND_OVER; ShardProtocol.MSG_MATCH_OVER].

(** ** The ground, as the integrator sees it

    The y axis points down and the ground is the line y = 0. *)
Definition above_ground (p : ShardPrediction.t) : Prop :=
  (Vector2.y (ShardPrediction._predicted_position p) <= 0)%Q.

(** The grounded flag tells the truth: a grounded body is on the ground and
    has no vertical speed. *)
Definition grounded_at_rest (p : ShardPrediction.t) : Prop :=
  ShardPrediction._is_grounded p = true ->
  (Vector2.y (ShardPrediction._predicted_position p) == 0)%Q /\
  (Vector2.y (ShardPrediction._predicted_velocity p) == 0)%Q.

(** The own player in the latest snapshot, as [reconcile] and
    [initialize_from_server_state] look it up. *)
Definition own_server_player (state : ShardState.t) (p : ShardPrediction.t) : option variant :=
  ShardPrediction._find_my_player
    (as_Array (dict_get (ShardState.get_latest_state state) "players" (VArray []))) p.

(** The ticks of the buffer are consecutive and end at the tick counter:
    the entry at index [i] of a buffer of [n] entries has the tick
    [_current_tick - n + 1 + i]. *)
Definition ticks_consecutive (s : ShardInput.t) : Prop :=
  forall (i : nat) (e : ShardInput.entry),
    ShardInput._input_buffer s !! i = Some e ->
    ShardInput.tick e =
      ShardInput._current_tick s - Z.of_nat (length (ShardInput._input_buffer s)) + 1
      + Z.of_nat i.

(** The type tags of the game events that the singleton handles itself. *)
Definition event_tags : list string :=
  [ShardProtocol.MSG_PLAYER_DAMAGED; ShardProtocol.MSG_PLAYER_ELIMINATED;
   ShardProtocol.MSG_PLAYER_DISCONNECTED; ShardProtocol.MSG_PLAYER_RECONNECTED;
   ShardProtocol.MSG_PLAYER_TIMEOUT; ShardProtocol.MSG_WEAPON_PICKUP;
   ShardProtocol.MSG_WEAPON_DROPPED; ShardProtocol.MSG_ERROR].

(** Whether [send_input] goes past its two guards. *)
Definition input_accepted (connection : option ShardConnection.t) (is_playing : bool) : bool :=
  is_playing &&
  match connection with
  | Some conn => ShardConnection.is_authenticated conn
  | None => false
  end.

(** Whether [leave_lobby] goes past its guards. *)
Definition leave_accepted (connection : option ShardConnection.t) (l : ShardLobby.t) : bool :=
  match connection with
  | Some conn => ShardConnection.is_authenticated conn
  | None => false
  end && negb (str_is_empty (ShardLobby._lobby_code l)).


(** Whether the receipt times of two snapshots bracket a target time. *)
Definition brackets (target_time : Q) (older newer : Dict) : bool :=
  Qle_bool (inject_Z (ShardState.server_time older)) target_time
  && Qle_bool target_time (inject_Z (ShardState.server_time newer)).

(** Two snapshots that follow one another in the buffer. *)
Definition adjacent (snapshots : list Dict) (a b : Dict) : Prop :=
  exists i : nat, snapshots !! i = Some a /\ snapshots !! S i = Some b.

(** The ticks of a buffer increase from front to back. *)
Fixpoint ticks_increasing (buffer : list ShardInput.entry) : Prop :=
  match buffer with
  | [] => True
  | first :: rest =>
      Forall (fun e => ShardInput.tick first < ShardInput.tick e) rest
      /\ ticks_increasing rest
  end.

(** The invariant of the input handler: the ticks of the buffer increase and
    none is ahead of the tick counter. *)
Definition buffer_ordered (s : ShardInput.t) : Prop :=
  ticks_increasing (ShardInput._input_buffer s) /\
  Forall (fun e => ShardInput.tick e <= ShardInput._current_tick s)
         (ShardInput._input_buffer s).

(** The calls that the orchestrator makes on its input handler. *)
Inductive handler_call :=
  | SendInput (now : Z) (connection : option ShardConnection.t) (input : Dict)
              (is_playing : bool)
  | ClearInputsBeforeTick (tick : Z)
  | ResetInput.

Definition run_handler_call `{Engine} (s : ShardInput.t) (c : handler_call) : ShardInput.t :=
  match c with
  | SendInput now connection input is_playing =>
      handler (ShardInput.send_input now connection input is_playing s)
  | ClearInputsBeforeTick tick => ShardInput.clear_inputs_before_tick tick s
  | ResetInput => fst (ShardInput.reset s)
  end.

(** The prediction state right after the snap to the server state and before
    the replay. *)
Definition snapped (server_pos server_vel : Vector2.t) (p : ShardPrediction.t)
    : ShardPrediction.t :=
  ShardPrediction.set_is_grounded
    (Qle_bool 0 (Vector2.y server_vel) && Qle_bool 0 (Vector2.y server_pos))
    (ShardPrediction.set_predicted_velocity server_vel
       (ShardPrediction.set_predicted_position server_pos p)).

(** The replay: the integrator with the nominal timestep, input after input. *)
Definition replay (inputs : list ShardInput.entry) (p : ShardPrediction.t)
    : ShardPrediction.t :=
  fold_left (fun p entry => ShardPrediction.apply_input (ShardInput.input entry) (1 / 60) p)
            inputs p.

(** ** Sample objects *)

(** An authenticated connection over an open socket. *)
Definition authenticated_connection : ShardConnection.t :=
  ShardConnection.mk
    (Some (ShardConnection.mkPeer ShardConnection.STATE_OPEN 0 [] []))
    ShardConnection.AUTHENTICATED "token" "42" "alice" 0 0 false false 0 false
    "localhost" 9877 true 2 5 false 0 0 0 0 0 0 0 [].

(** A connection that has been opened and not yet authenticated. *)
Definition connected_connection : ShardConnection.t :=
  ShardConnection.set_state ShardConnection.CONNECTED authenticated_connection.

(** An input whose horizontal axis is out of range. *)
Definition sample_input : Dict :=
  <["move_x" := VFloat 2.5]> (<["jump" := VBool true]> (<["aim_angle" := VFloat 0.5]> ∅)).

(** A match in its second round, with a score on the board. *)
Definition match_in_round_two : ShardMatch.t :=
  ShardMatch.mk ShardMatch.PLAYING 2 (<[1 := 1]> (<[2 := 0]> ∅))
    [VDict (<["peer_id" := VInt 1]> ∅)] [] (-1) "" [] false.

Definition score_of (peer_id rounds_won : Z) : variant :=
  VDict (<["peer_id" := VInt peer_id]> (<["rounds_won" := VInt rounds_won]> ∅)).

(** A round-over message whose scores name peer 1 only. *)
Definition round_over_message : Dict :=
  <["type" := VStr "round_over"]> (<["winner_peer_id" := VInt 1]>
  (<["scores" := VArray [score_of 1 2]]> ∅)).

(** A match-over message whose final scores name peer 1 only. *)
Definition match_over_message : Dict :=
  <["type" := VStr "match_over"]> (<["winner_peer_id" := VInt 1]>
  (<["winner_username" := VStr "alice"]> (<["final_scores" := VArray [score_of 1 3]]> ∅))).

(** Messages that carry nothing but their type tag. *)
Definition bare_message (type : string) : Dict := <["type" := VStr type]> ∅.

(** A lobby with code AB12 and two peers, hosted by peer 1, seen from peer 2. *)
Definition lobby_AB12 : ShardLobby.t :=
  ShardLobby.mk "AB12"
    (<[1 := ShardLobby.mkPlayer "alice" (VBool true)]>
     (<[2 := ShardLobby.mkPlayer "bob" (VBool false)]> ∅))
    2 1 false.

(** A connection whose latency ring holds the samples 1 and 2. *)
Definition connection_with_samples : ShardConnection.t :=
  ShardConnection.set_latency_buffer [1; 2] authenticated_connection.

(** A socket that dropped without a close frame, and an authenticated
    connection over it; auto-reconnect is on. *)
Definition socket_closed_1006 : ShardConnection.WebSocketPeer :=
  ShardConnection.mkPeer ShardConnection.STATE_CLOSED 1006 [] [].




(** A connection that has just lost its authenticated session and holds the
    token it was opened with. *)
Definition dropped_connection : ShardConnection.t :=
  ShardConnection.set_state ShardConnection.DISCONNECTED authenticated_connection.

(** Two snapshots received at 1000 ms and 1100 ms: peer 1 is in both, peer 2
    only in the second. *)
Definition player_of (peer_id : Z) (x y vx vy : Q) (health : Z) : variant :=
  VDict (<["peer_id" := VInt peer_id]> (<["x" := VFloat x]> (<["y" := VFloat y]>
        (<["vx" := VFloat vx]> (<["vy" := VFloat vy]> (<["health" := VInt health]> ∅)))))).

Definition snapshot_message (tick : Z) (players : list variant)
    (last_processed : Dict) : Dict :=
  <["type" := VStr "state_snapshot"]> (<["tick" := VInt tick]>
  (<["players" := VArray players]>
  (<["last_processed_input" := VDict last_processed]> ∅))).

Definition message_at_1000 : Dict := snapshot_message 7 [player_of 1 0 0 1 0 100] ∅.

Definition message_at_1100 : Dict :=
  snapshot_message 8 [player_of 1 10 4 3 0 80; player_of 2 5 0 0 0 100] ∅.

Definition two_snapshots : ShardState.t :=
  handle_snapshots [(1000, message_at_1000); (1100, message_at_1100)] ShardState.init.

Definition one_snapshot : ShardState.t :=
  handle_snapshots [(1000, message_at_1000)] ShardState.init.

(** The scenario of the specification: the buffer holds the ticks 10 to 15
    (fifteen accepted inputs, then the ticks up to 9 cleared), the server has
    processed tick 12, and the prediction is 100 units away from the server. *)
Definition fifteen_inputs_then_clear : list handler_call :=
  replicate 15 (SendInput 0 (Some authenticated_connection) sample_input true)
  ++ [ClearInputsBeforeTick 9].

Definition handler_10_to_15 : ShardInput.t :=
  fold_left (run_handler_call (H := reference_engine)) fifteen_inputs_then_clear
            ShardInput.init.

Definition server_message : Dict :=
  snapshot_message 30 [player_of 1 100 0 0 0 100] (<["1" := VInt 12]> ∅).

Definition server_state : ShardState.t :=
  handle_snapshots [(2000, server_message)] ShardState.init.

Definition prediction_at_origin : ShardPrediction.t :=
  ShardPrediction.mk true Vector2.ZERO Vector2.ZERO 1 true 0 false.

(** An [authenticated] message for the user alice. *)
Definition sample_user : Dict := <["id" := VStr "42"]> (<["username" := VStr "alice"]> ∅).

Definition authenticated_message : Dict :=
  <["type" := VStr "authenticated"]> (<["user" := VDict sample_user]> ∅).

(** A connection that lost its session during a match 59 seconds ago and
    will make its next attempt in 10 seconds. *)
Definition reconnecting_in_match : ShardConnection.t :=
  ShardConnection.set_match_reconnect_timer 59
    (ShardConnection.set_in_match true
       (ShardConnection.set_reconnect_timer 10
          (ShardConnection.set_is_reconnecting true
             (ShardConnection.set_ws (Some socket_closed_1006) dropped_connection)))).

(** An engine whose JSON parser reads the frame [welcome] as the
    [authenticated] message for alice, and a socket that has just opened with
    that frame pending. *)
Definition scripted_engine : Engine := {|
  to_float := to_float (Engine := reference_engine);
  to_bool := to_bool (Engine := reference_engine);
  to_int := to_int (Engine := reference_engine);
  to_str := to_str (Engine := reference_engine);
  distance_to := distance_to (Engine := reference_engine);
  json_stringify := json_stringify (Engine := reference_engine);
  json_parse := fun s =>
    if bool_decide (s = "welcome") then Some (VDict authenticated_message)
    else json_parse (Engine := reference_engine) s;
  utf8_size := utf8_size (Engine := reference_engine)
|}.

Definition socket_with_welcome : ShardConnection.WebSocketPeer :=
  ShardConnection.mkPeer ShardConnection.STATE_OPEN 0 ["welcome"] [].

(** A [lobby_created] message for the lobby AB12 with two players; the
    second element of the payload lacks a peer id. *)
Definition roster_player (peer_id : Z) (username : string) (is_host is_self : bool)
    : variant :=
  VDict (<["peer_id" := VInt peer_id]> (<["username" := VStr username]>
        (<["is_host" := VBool is_host]> (<["is_self" := VBool is_self]> ∅)))).

Definition lobby_created_message : Dict :=
  <["type" := VStr "lobby_created"]> (<["lobby_code" := VStr "AB12"]>
  (<["players" := VArray [roster_player 1 "alice" true false;
                          VDict (<["username" := VStr "ghost"]> ∅);
                          roster_player 2 "bob" false true]]> ∅)).

(** Peer 3 joins, and leaves again. *)
Definition carol_joined : Dict :=
  <["type" := VStr "player_joined"]> (<["peer_id" := VInt 3]>
  (<["username" := VStr "carol"]> ∅)).

Definition carol_left : Dict :=
  <["type" := VStr "player_left"]> (<["peer_id" := VInt 3]> ∅).

(** The host, peer 1, leaves and peer 2 takes over. *)
Definition host_left : Dict :=
  <["type" := VStr "player_left"]> (<["peer_id" := VInt 1]>
  (<["new_host_peer_id" := VInt 2]> ∅)).

(** Error messages with a lobby code and with another code. *)
Definition error_message (code : string) : Dict :=
  <["type" := VStr "error"]> (<["code" := VStr code]>
  (<["message" := VStr "refused"]> ∅)).

(** A prediction in mid-air, rising. *)
Definition prediction_airborne : ShardPrediction.t :=
  ShardPrediction.mk true (Vector2.mk 0 (-50)) (Vector2.mk 0 (-100)) 1 false 0 false.

(** An input handler at tick 15 that holds the inputs of the ticks 14
    and 15. *)
Definition handler_at_15 : ShardInput.t :=
  ShardInput.mk 15 [ShardInput.mkEntry 14 ∅; ShardInput.mkEntry 15 sample_input] 15 false.

(** A singleton in the second round of a match: the connection is
    authenticated, the lobby is AB12 seen from peer 2, and the prediction is
    at the origin. *)
Definition singleton_in_round_two : ShardMultiplayer.t :=
  ShardMultiplayer.mk authenticated_connection lobby_AB12 match_in_round_two handler_at_15
    one_snapshot (ShardPrediction.mk true Vector2.ZERO Vector2.ZERO 2 true 0 false)
    false 100 true ∅.

(** The same singleton while its connection is down. *)
Definition singleton_offline : ShardMultiplayer.t :=
  ShardMultiplayer.set_connection dropped_connection singleton_in_round_two.

(** A [round_start] message for round 3 that spawns peer 2 at (40, 0). *)
Definition round_start_message : Dict :=
  <["type" := VStr "round_start"]> (<["round" := VInt 3]>
  (<["spawn_positions" :=
       VArray [VDict (<["peer_id" := VInt 1]> (<["x" := VFloat 10]> ∅));
               VDict (<["peer_id" := VInt 2]> (<["x" := VFloat 40]> ∅))]]> ∅)).

(** * Properties *)

(** ** Sequencing *)

Lemma fst_seq {S E : Type} (a b : action S E) (s : S) :
  fst ((a >> b) s) = fst (b (fst (a s))).
Proof. unfold seq. destruct (a s) as [s1 e1]. simpl. destruct (b s1). reflexivity. Qed.

Lemma snd_seq {S E : Type} (a b : action S E) (s : S) :
  snd ((a >> b) s) = snd (a s) ++ snd (b (fst (a s))).
Proof. unfold seq. destruct (a s) as [s1 e1]. simpl. destruct (b s1). reflexivity. Qed.

Lemma fst_modify {S E : Type} (f : S -> S) (s : S) : fst (modify (E := E) f s) = f s.
Proof. reflexivity. Qed.

Lemma snd_modify {S E : Type} (f : S -> S) (s : S) : snd (modify (E := E) f s) = [].
Proof. reflexivity. Qed.

Lemma fst_tell {S E : Type} (e : E) (s : S) : fst (tell e s) = s.
Proof. reflexivity. Qed.

Lemma snd_tell {S E : Type} (e : E) (s : S) : snd (tell e s) = [e].
Proof. reflexivity. Qed.

Lemma fst_skip {S E : Type} (s : S) : fst (skip (E := E) s) = s.
Proof. reflexivity. Qed.

Lemma snd_skip {S E : Type} (s : S) : snd (skip (E := E) s) = [].
Proof. reflexivity. Qed.

Lemma emitted_app {signal : Type} (a b : list (effect signal)) :
  emitted (a ++ b) = emitted a ++ emitted b.
Proof.
  induction a as [|e a IH]; [reflexivity|].
  destruct e; simpl; rewrite IH; reflexivity.
Qed.

Create Rewrite HintDb action.
#[local] Hint Rewrite @fst_seq @snd_seq @fst_modify @snd_modify @fst_tell @snd_tell
  @fst_skip @snd_skip @emitted_app : action.

(** ** Bounded buffers *)

Lemma pop_front_while_over_drop {A : Type} (cap : nat) (a : list A) :
  pop_front_while_over cap a = drop (length a - cap) a.
Proof.
  induction a as [|x a IH]; simpl; [reflexivity|].
  destruct (Nat.ltb_spec cap (S (length a))) as [Hlt|Hge].
  - rewrite IH. replace (S (length a) - cap)%nat with (S (length a - cap)) by lia.
    reflexivity.
  - replace (S (length a) - cap)%nat with 0%nat by lia. reflexivity.
Qed.

Lemma pop_front_while_over_length {A : Type} (cap : nat) (a : list A) :
  (length (pop_front_while_over cap a) <= cap)%nat.
Proof. rewrite pop_front_while_over_drop, length_drop. lia. Qed.

Lemma pop_front_while_over_last {A : Type} (cap : nat) (a : list A) (x : A) :
  (1 <= cap)%nat -> last (pop_front_while_over cap (a ++ [x])) = Some x.
Proof.
  intros Hcap. rewrite pop_front_while_over_drop, length_app. simpl.
  rewrite drop_app_le by lia. apply last_snoc.
Qed.

Lemma handle_snapshot_buffer (now : Z) (message : Dict) (s : ShardState.t) :
  ShardState._snapshots (fst (ShardState.handle_snapshot now message s)) =
  pop_front_while_over ShardState.SNAPSHOT_BUFFER_SIZE
    (ShardState._snapshots s ++ [ShardState.make_snapshot now message]).
Proof. reflexivity. Qed.

Lemma store_input_buffer (tick : Z) (input : Dict) (s : ShardInput.t) :
  ShardInput._input_buffer (fst (ShardInput._store_input tick input s)) =
  pop_front_while_over ShardInput.INPUT_BUFFER_SIZE
    (ShardInput._input_buffer s ++ [ShardInput.mkEntry tick input]).
Proof. reflexivity. Qed.

(** Trimming after every append keeps the same elements as trimming once at
    the end. *)
Lemma drop_snoc_window {A : Type} (cap : nat) (old : list A) (x : A) :
  drop (length (drop (length old - cap) old ++ [x]) - cap) (drop (length old - cap) old ++ [x])
  = drop (length (old ++ [x]) - cap) (old ++ [x]).
Proof.
  rewrite <- (drop_app_le old [x] (length old - cap)) by lia.
  rewrite drop_drop. f_equal.
  rewrite length_drop, !length_app. simpl. lia.
Qed.

Lemma handle_snapshots_snoc (messages : list (Z * Dict)) (m : Z * Dict) (s : ShardState.t) :
  handle_snapshots (messages ++ [m]) s =
  fst (ShardState.handle_snapshot (fst m) (snd m) (handle_snapshots messages s)).
Proof. unfold handle_snapshots. rewrite fold_left_app. reflexivity. Qed.

Lemma store_inputs_snoc (inputs : list ShardInput.entry) (e : ShardInput.entry)
    (s : ShardInput.t) :
  store_inputs (inputs ++ [e]) s =
  fst (ShardInput._store_input (ShardInput.tick e) (ShardInput.input e)
         (store_inputs inputs s)).
Proof. unfold store_inputs. rewrite fold_left_app. reflexivity. Qed.

Lemma handle_snapshots_window (messages : list (Z * Dict)) :
  ShardState._snapshots (handle_snapshots messages ShardState.init) =
  drop (length messages - ShardState.SNAPSHOT_BUFFER_SIZE)
       (map (fun m => ShardState.make_snapshot (fst m) (snd m)) messages).
Proof.
  induction messages as [|m messages IH] using rev_ind; [reflexivity|].
  rewrite handle_snapshots_snoc, handle_snapshot_buffer, pop_front_while_over_drop, IH.
  rewrite map_app. cbn [map].
  rewrite <- (length_map (fun m => ShardState.make_snapshot (fst m) (snd m)) messages).
  rewrite drop_snoc_window, !length_app, length_map. reflexivity.
Qed.

Lemma store_inputs_window (inputs : list ShardInput.entry) :
  ShardInput._input_buffer (store_inputs inputs ShardInput.init) =
  drop (length inputs - ShardInput.INPUT_BUFFER_SIZE) inputs.
Proof.
  induction inputs as [|e inputs IH] using rev_ind; [reflexivity|].
  rewrite store_inputs_snoc, store_input_buffer, pop_front_while_over_drop, IH.
  destruct e as [tick input]. cbn [ShardInput.tick ShardInput.input].
  apply drop_snoc_window.
Qed.

Lemma stored_entries_app (a b : list input_call) :
  stored_entries (a ++ b) = stored_entries a ++ stored_entries b.
Proof.
  induction a as [|c a IH]; [reflexivity|].
  destruct c; simpl; rewrite IH; reflexivity.
Qed.

Lemma run_input_calls_window (calls : list input_call) :
  ShardInput._input_buffer (fold_left run_input_call calls ShardInput.init) =
  drop (length (stored_entries calls) - ShardInput.INPUT_BUFFER_SIZE) (stored_entries calls).
Proof.
  induction calls as [|c calls IH] using rev_ind; [reflexivity|].
  rewrite fold_left_app, stored_entries_app. cbn [fold_left].
  destruct c as [e| | |]; cbn [run_input_call stored_entries];
    rewrite ?app_nil_r; try exact IH.
  rewrite store_input_buffer, pop_front_while_over_drop, IH.
  destruct e as [tick input]. cbn [ShardInput.tick ShardInput.input].
  apply drop_snoc_window.
Qed.

(** C5.  Snapshot buffer: after any sequence of appends that ends with a
    given snapshot, from any state, the buffer holds at most 3 entries and
    its last element is that snapshot; from the initial state it is exactly
    the window of the 3 most recent snapshots.  Input buffer: after any
    sequence of stores, from any state, the buffer holds at most 60 entries
    and ends with the entry stored last; from the initial state, and with
    queries interleaved at will, it is exactly the window of the 60 most
    recent entries in insertion order, so what is evicted is always the
    oldest entry. *)
Theorem C5_buffers_bounded_fifo :
  (forall (messages : list (Z * Dict)) (now : Z) (message : Dict) (s : ShardState.t),
      let s' := handle_snapshots (messages ++ [(now, message)]) s in
      (length (ShardState._snapshots s') <= 3)%nat /\
      last (ShardState._snapshots s') = Some (ShardState.make_snapshot now message)) /\
  (forall messages : list (Z * Dict),
      let all := map (fun m => ShardState.make_snapshot (fst m) (snd m)) messages in
      let s' := handle_snapshots messages ShardState.init in
      (length (ShardState._snapshots s') <= 3)%nat /\
      ShardState._snapshots s' = drop (length all - 3) all) /\
  (forall (inputs : list ShardInput.entry) (e : ShardInput.entry) (s : ShardInput.t),
      let s' := store_inputs (inputs ++ [e]) s in
      (length (ShardInput._input_buffer s') <= 60)%nat /\
      last (ShardInput._input_buffer s') = Some e) /\
  (forall calls : list input_call,
      let s' := fold_left run_input_call calls ShardInput.init in
      (length (ShardInput._input_buffer s') <= 60)%nat /\
      ShardInput._input_buffer s' =
        drop (length (stored_entries calls) - 60) (stored_entries calls)).
Proof.
  repeat split.
  - rewrite handle_snapshots_snoc, handle_snapshot_buffer.
    apply (pop_front_while_over_length 3).
  - rewrite handle_snapshots_snoc, handle_snapshot_buffer.
    apply pop_front_while_over_last. unfold ShardState.SNAPSHOT_BUFFER_SIZE. lia.
  - rewrite handle_snapshots_window, length_drop, length_map.
    unfold ShardState.SNAPSHOT_BUFFER_SIZE. lia.
  - rewrite handle_snapshots_window, length_map. reflexivity.
  - rewrite store_inputs_snoc, store_input_buffer.
    apply (pop_front_while_over_length 60).
  - rewrite store_inputs_snoc, store_input_buffer. destruct e as [tick input].
    apply pop_front_while_over_last. unfold ShardInput.INPUT_BUFFER_SIZE. lia.
  - rewrite run_input_calls_window, length_drop.
    unfold ShardInput.INPUT_BUFFER_SIZE. lia.
  - apply run_input_calls_window.
Qed.

(** ** Input sending *)

Lemma Qltb_false_le (a b : Q) : Qltb a b = false -> (b <= a)%Q.
Proof.
  unfold Qltb. intros Hf. apply negb_false_iff in Hf. apply Qle_bool_iff. exact Hf.
Qed.

Lemma Qltb_true_lt (a b : Q) : Qltb a b = true -> (a < b)%Q.
Proof.
  unfold Qltb. intros Ht. apply negb_true_iff in Ht.
  apply Qnot_le_lt. intros Hle. apply Qle_bool_iff in Hle. congruence.
Qed.

Lemma clampf_bounds (x lo hi : Q) : (lo <= hi)%Q -> (lo <= clampf x lo hi <= hi)%Q.
Proof.
  intros Hlohi. unfold clampf.
  destruct (Qltb x lo) eqn:Hlo; [split; [apply Qle_refl|exact Hlohi]|].
  destruct (Qltb hi x) eqn:Hhi; [split; [exact Hlohi|apply Qle_refl]|].
  split; [apply Qltb_false_le, Hlo|apply Qltb_false_le, Hhi].
Qed.

Lemma clampf_clamped (x : Q) : clamped_to_unit x (clampf x (-1) 1).
Proof.
  unfold clamped_to_unit. split; [apply clampf_bounds; discriminate|].
  unfold clampf.
  destruct (Qltb x (-1)) eqn:Hlo; [apply Qltb_true_lt in Hlo|apply Qltb_false_le in Hlo];
    (destruct (Qltb 1 x) eqn:Hhi; [apply Qltb_true_lt in Hhi|apply Qltb_false_le in Hhi]);
    repeat split; intros; try reflexivity; exfalso; lra.
Qed.

(** The validated record: its seven fields, by name. *)
Lemma validate_input_fields `{Engine} (input : Dict) :
  let v := ShardInput._validate_input input in
  v !! "move_x" = Some (VFloat (clampf (to_float (dict_get input "move_x" (VFloat 0))) (-1) 1)) /\
  v !! "move_y" = Some (VFloat (clampf (to_float (dict_get input "move_y" (VFloat 0))) (-1) 1)) /\
  v !! "jump" = Some (VBool (to_bool (dict_get input "jump" (VBool false)))) /\
  v !! "pickup" = Some (VBool (to_bool (dict_get input "pickup" (VBool false)))) /\
  v !! "use_weapon" = Some (VBool (to_bool (dict_get input "use_weapon" (VBool false)))) /\
  v !! "drop_weapon" = Some (VBool (to_bool (dict_get input "drop_weapon" (VBool false)))) /\
  v !! "aim_angle" = Some (VFloat (to_float (dict_get input "aim_angle" (VFloat 0)))) /\
  dom v = ({[ "move_x"; "move_y"; "jump"; "pickup"; "use_weapon"; "drop_weapon";
              "aim_angle" ]} : gset string).
Proof.
  cbv zeta. unfold ShardInput._validate_input.
  repeat match goal with |- _ /\ _ => split end.
  1-7: simplify_map_eq; reflexivity.
  rewrite !dom_insert_L, dom_empty_L. set_solver.
Qed.

Lemma send_message_socket `{Engine} (message : Dict) (conn : ShardConnection.t)
    (ws : ShardConnection.WebSocketPeer) :
  ShardConnection.is_connected conn = true ->
  ShardConnection._ws conn = Some ws ->
  ShardConnection._ws (fst (ShardConnection.send_message message conn)) =
  Some (ShardConnection.send_text (json_stringify message) ws).
Proof.
  unfold ShardConnection.is_connected, ShardConnection.send_message. intros Hst Hws.
  destruct (Z.ltb_spec (ShardConnection.State_value (ShardConnection._state conn))
                       (ShardConnection.State_value ShardConnection.CONNECTED)) as [Hlt|_].
  - apply Z.leb_le in Hst. lia.
  - rewrite Hws. reflexivity.
Qed.

Lemma is_authenticated_connected (conn : ShardConnection.t) :
  ShardConnection.is_authenticated conn = true -> ShardConnection.is_connected conn = true.
Proof.
  unfold ShardConnection.is_authenticated, ShardConnection.is_connected,
    ShardConnection.State_eqb.
  intros Ha. apply Z.eqb_eq in Ha. rewrite Ha. reflexivity.
Qed.

(** C6, as amended.  A call that is not accepted (match not Playing,
    connection null or not Authenticated) leaves the input handler and the
    connection as they were, sends nothing and emits no signal.  An accepted
    call increments the tick counter by one; the validated record has
    exactly seven fields, each made of the input's field of the same name:
    the two movement axes are the input's axes as floats (0 when absent)
    clamped to [-1,1], the four booleans jump, pickup, use_weapon and
    drop_weapon are the input's values coerced by [bool()] (false when
    absent), and the angle is the input's as a float (0 when absent), not
    clamped; the message carrying the new tick and the record is handed to
    the connection (and written to its socket), and the record is stored as
    the last entry of the buffer, under the new tick. *)
Theorem C6_send_input `{Engine} (now : Z) (connection : option ShardConnection.t)
    (input : Dict) (is_playing : bool) (s : ShardInput.t) :
  let r := ShardInput.send_input now connection input is_playing s in
  let tick := ShardInput._current_tick s + 1 in
  let validated := ShardInput._validate_input input in
  let message : Dict :=
    <["type" := VStr "player_input"]> (<["timestamp" := VInt now]>
    (<["tick" := VInt tick]> (<["input" := VDict validated]> ∅))) in
  (input_accepted connection is_playing = false ->
     handler r = s /\ handler_connection r = connection /\
     connection_effects r = [] /\ emitted (effects r) = []) /\
  (input_accepted connection is_playing = true ->
     exists conn, connection = Some conn /\
       ShardInput._current_tick (handler r) = tick /\
       (exists mx my,
          validated =
            <["move_x" := VFloat mx]> (<["move_y" := VFloat my]>
            (<["jump" := VBool (to_bool (dict_get input "jump" (VBool false)))]>
            (<["pickup" := VBool (to_bool (dict_get input "pickup" (VBool false)))]>
            (<["use_weapon" := VBool (to_bool (dict_get input "use_weapon" (VBool false)))]>
            (<["drop_weapon" := VBool (to_bool (dict_get input "drop_weapon" (VBool false)))]>
            (<["aim_angle" := VFloat (to_float (dict_get input "aim_angle" (VFloat 0)))]>
             ∅)))))) /\
          clamped_to_unit (to_float (dict_get input "move_x" (VFloat 0))) mx /\
          clamped_to_unit (to_float (dict_get input "move_y" (VFloat 0))) my) /\
       handler_connection r = Some (fst (ShardConnection.send_message message conn)) /\
       connection_effects r = snd (ShardConnection.send_message message conn) /\
       (forall ws, ShardConnection._ws conn = Some ws ->
          exists conn', handler_connection r = Some conn' /\
            ShardConnection._ws conn' =
              Some (ShardConnection.send_text (json_stringify message) ws)) /\
       ShardInput._input_buffer (handler r) =
         pop_front_while_over 60
           (ShardInput._input_buffer s ++ [ShardInput.mkEntry tick validated]) /\
       last (ShardInput._input_buffer (handler r)) = Some (ShardInput.mkEntry tick validated) /\
       ShardInput._inputs_sent (handler r) = ShardInput._inputs_sent s + 1 /\
       emitted (effects r) = [ShardInput.input_sent tick validated]).
Proof.
  cbv zeta. unfold input_accepted, ShardInput.send_input. split.
  - intros Hrej. destruct is_playing; simpl in *.
    + destruct connection as [conn|]; simpl.
      * rewrite Hrej. simpl. unfold ShardInput._log.
        destruct (ShardInput._debug_logging s); repeat split; reflexivity.
      * unfold ShardInput._log.
        destruct (ShardInput._debug_logging s); repeat split; reflexivity.
    + unfold ShardInput._log.
      destruct (ShardInput._debug_logging s); repeat split; reflexivity.
  - intros Hacc. apply andb_true_iff in Hacc as [Hplay Hauth]. subst is_playing.
    destruct connection as [conn|]; [|discriminate].
    exists conn. rewrite Hauth. simpl.
    change ShardProtocol.MSG_PLAYER_INPUT with "player_input".
    destruct (ShardConnection.send_message _ conn) as [conn' ce] eqn:Hsend.
    simpl. split; [reflexivity|]. split; [reflexivity|]. split.
    { do 2 eexists. split; [reflexivity|]. split; apply clampf_clamped. }
    split; [reflexivity|]. split; [reflexivity|]. split.
    { intros ws Hws. exists conn'. split; [reflexivity|].
      change conn' with (fst (conn', ce)). rewrite <- Hsend.
      apply send_message_socket; [apply is_authenticated_connected, Hauth|exact Hws]. }
    split; [reflexivity|]. split.
    { apply pop_front_while_over_last. unfold ShardInput.INPUT_BUFFER_SIZE. lia. }
    split; [reflexivity|].
    unfold ShardInput._log. simpl. destruct (ShardInput._debug_logging s); reflexivity.
Qed.

Lemma C6_send_input_witness :
  (let r := ShardInput.send_input (H := reference_engine) 1000
              (Some authenticated_connection) sample_input true ShardInput.init in
   ShardInput._current_tick (handler r) = 1 /\
   emitted (effects r) =
     [ShardInput.input_sent 1 (ShardInput._validate_input (H := reference_engine)
                                                          sample_input)]) /\
  (let r := ShardInput.send_input (H := reference_engine) 1000
              (Some connected_connection) sample_input true ShardInput.init in
   handler r = ShardInput.init /\ connection_effects r = []).
Proof.
  split.
  - destruct (C6_send_input (H := reference_engine) 1000 (Some authenticated_connection)
                sample_input true ShardInput.init) as [_ Hacc].
    destruct (Hacc eq_refl) as (conn & _ & Htick & _ & _ & _ & _ & _ & _ & _ & Hemit).
    split; [exact Htick|exact Hemit].
  - destruct (C6_send_input (H := reference_engine) 1000 (Some connected_connection)
                sample_input true ShardInput.init) as [Hrej _].
    destruct (Hrej eq_refl) as (Hs & _ & Hce & _).
    split; [exact Hs|exact Hce].
Defined.

(** C6, as stated, at the empty input: the validated record would hold three
    booleans; it holds four. *)
Lemma C6_three_booleans_refuted :
  bool_field_count (ShardInput._validate_input (H := reference_engine) ∅) = 4%nat /\
  bool_field_count (ShardInput._validate_input (H := reference_engine) ∅) <> 3%nat.
Proof. split; [vm_compute; reflexivity|vm_compute; discriminate]. Qed.

(** ** Match lifecycle *)

Lemma fold_parse_score `{Engine} (scores_array : list variant) (scores : gmap Z Z) :
  fold_left ShardMatch._parse_score scores_array scores =
  merge_scores (payload_scores scores_array) scores.
Proof.
  unfold merge_scores, payload_scores. revert scores.
  induction scores_array as [|s rest IH]; intros scores.
  - simpl. rewrite (left_id_L ∅ (∪)). reflexivity.
  - cbn [fold_left]. rewrite IH. unfold score_entries. cbn [omap list_omap].
    unfold ShardMatch._parse_score.
    destruct s as [| | | | | |d]; try reflexivity.
    destruct (dict_has d "peer_id"); cbn [negb]; [|reflexivity].
    rewrite reverse_cons, list_to_map_app. cbn [list_to_map foldr].
    rewrite <- (assoc_L (∪)). f_equal.
    rewrite insert_empty, <- insert_union_singleton_l. reflexivity.
Qed.

Lemma parse_scores_array `{Engine} (scores_array : list variant) (m : ShardMatch.t) :
  ShardMatch._parse_scores (VArray scores_array) m =
  (ShardMatch.set_scores
     (merge_scores (payload_scores scores_array) (ShardMatch._scores m)) m, []).
Proof.
  unfold ShardMatch._parse_scores, modify. rewrite fold_parse_score. reflexivity.
Qed.

Lemma handle_round_over_scores `{Engine} (message : Dict) (scores_array : list variant)
    (m : ShardMatch.t) :
  message !! "scores" = Some (VArray scores_array) ->
  ShardMatch._scores (fst (ShardMatch._handle_round_over message m)) =
  merge_scores (payload_scores scores_array) (ShardMatch._scores m).
Proof.
  intros Hs. unfold ShardMatch._handle_round_over, dict_has, dict_get. rewrite Hs.
  autorewrite with action. rewrite parse_scores_array. reflexivity.
Qed.

Lemma handle_match_over_scores `{Engine} (message : Dict) (scores_array : list variant)
    (m : ShardMatch.t) :
  message !! "final_scores" = Some (VArray scores_array) ->
  ShardMatch._scores (fst (ShardMatch._handle_match_over message m)) =
  payload_scores scores_array.
Proof.
  intros Hs. unfold ShardMatch._handle_match_over, dict_has, dict_get. rewrite Hs.
  cbn [is_Array andb as_Array]. unfold ShardMatch._parse_final_scores.
  autorewrite with action. rewrite parse_scores_array.
  unfold merge_scores. cbn. rewrite (right_id_L ∅ (∪)). reflexivity.
Qed.

(** C8.  A round-over message carrying a scores array merges it into the
    score map by peer id: peers absent from the payload keep their entry,
    peers in the payload take the payload's entry.  A match-over message
    carrying a final-scores array replaces the score map by the payload.
    [reset] returns to Lobby and clears round, scores, spawn lists and the
    final-winner fields; [return_to_lobby] returns to Lobby and clears round
    and spawn lists, keeping the score map. *)
Theorem C8_scores_and_resets `{Engine} (message : Dict) (scores_array : list variant)
    (m : ShardMatch.t) :
  (message !! "scores" = Some (VArray scores_array) ->
     let m' := fst (ShardMatch._handle_round_over message m) in
     ShardMatch._scores m' =
       merge_scores (payload_scores scores_array) (ShardMatch._scores m) /\
     (forall peer : Z, payload_scores scores_array !! peer = None ->
        ShardMatch._scores m' !! peer = ShardMatch._scores m !! peer) /\
     (forall peer rounds_won : Z, payload_scores scores_array !! peer = Some rounds_won ->
        ShardMatch._scores m' !! peer = Some rounds_won)) /\
  (message !! "final_scores" = Some (VArray scores_array) ->
     let m' := fst (ShardMatch._handle_match_over message m) in
     ShardMatch._scores m' = payload_scores scores_array /\
     (forall peer : Z, payload_scores scores_array !! peer = None ->
        ShardMatch._scores m' !! peer = None)) /\
  fst (ShardMatch.reset m) =
    ShardMatch.mk ShardMatch.LOBBY 0 ∅ [] [] (-1) "" [] (ShardMatch._debug_logging m) /\
  (let m' := fst (ShardMatch.return_to_lobby m) in
   ShardMatch._state m' = ShardMatch.LOBBY /\
   ShardMatch._current_round m' = 0 /\
   ShardMatch._spawn_positions m' = [] /\
   ShardMatch._weapon_spawns m' = [] /\
   ShardMatch._scores m' = ShardMatch._scores m).
Proof.
  split; [|split; [|split]].
  - intros Hs. cbv zeta. rewrite (handle_round_over_scores _ _ _ Hs). unfold merge_scores.
    split; [reflexivity|]. split.
    + intros peer Hnone. rewrite lookup_union_r by exact Hnone. reflexivity.
    + intros peer w Hsome. apply lookup_union_Some_l. exact Hsome.
  - intros Hs. cbv zeta. rewrite (handle_match_over_scores _ _ _ Hs).
    split; [reflexivity|]. intros peer Hnone. exact Hnone.
  - reflexivity.
  - repeat split; reflexivity.
Qed.

Lemma C8_scores_and_resets_witness :
  (let m' := fst (ShardMatch._handle_round_over (H := reference_engine)
                    round_over_message match_in_round_two) in
   ShardMatch._scores m' !! 1 = Some 2 /\ ShardMatch._scores m' !! 2 = Some 0) /\
  (let m' := fst (ShardMatch._handle_match_over (H := reference_engine)
                    match_over_message match_in_round_two) in
   ShardMatch._scores m' !! 1 = Some 3 /\ ShardMatch._scores m' !! 2 = None).
Proof.
  split.
  - destruct (C8_scores_and_resets (H := reference_engine) round_over_message
                [score_of 1 2] match_in_round_two) as [Hround _].
    destruct (Hround ltac:(vm_compute; reflexivity)) as (_ & Hkeep & Htake).
    split.
    + apply Htake. vm_compute. reflexivity.
    + rewrite Hkeep; vm_compute; reflexivity.
  - destruct (C8_scores_and_resets (H := reference_engine) match_over_message
                [score_of 1 3] match_in_round_two) as (_ & Hfinal & _).
    destruct (Hfinal ltac:(vm_compute; reflexivity)) as (Heq & Hgone).
    split.
    + rewrite Heq. vm_compute. reflexivity.
    + apply Hgone. vm_compute. reflexivity.
Defined.

Lemma handle_countdown_missing `{Engine} (message : Dict) (m : ShardMatch.t) :
  dict_has message "seconds" = false ->
  ShardMatch._handle_countdown message m =
  (m, if ShardMatch._debug_logging m
      then [Print "ShardMatch" "countdown message missing seconds field" []] else []).
Proof. intros Hmiss. unfold ShardMatch._handle_countdown. rewrite Hmiss. reflexivity. Qed.

Lemma handle_round_start_missing `{Engine} (message : Dict) (m : ShardMatch.t) :
  dict_has message "round" = false ->
  ShardMatch._handle_round_start message m =
  (m, if ShardMatch._debug_logging m
      then [Print "ShardMatch" "round_start message missing round field" []] else []).
Proof. intros Hmiss. unfold ShardMatch._handle_round_start. rewrite Hmiss. reflexivity. Qed.

Lemma handle_round_over_state `{Engine} (message : Dict) (m : ShardMatch.t) :
  ShardMatch._state (fst (ShardMatch._handle_round_over message m)) = ShardMatch.ROUND_OVER.
Proof.
  unfold ShardMatch._handle_round_over, ShardMatch._parse_scores.
  destruct (dict_has message "scores"), (dict_get message "scores" VNil); reflexivity.
Qed.

Lemma handle_match_over_state `{Engine} (message : Dict) (m : ShardMatch.t) :
  ShardMatch._state (fst (ShardMatch._handle_match_over message m)) = ShardMatch.MATCH_OVER.
Proof.
  unfold ShardMatch._handle_match_over, ShardMatch._parse_final_scores,
    ShardMatch._parse_scores.
  destruct (dict_has message "winner_peer_id"), (dict_has message "winner_username"),
    (dict_has message "final_scores"), (dict_get message "final_scores" VNil);
    reflexivity.
Qed.

(** [_parse_scores] writes to the score map only. *)
Lemma parse_scores_frame `{Engine} (scores_array : variant) (m : ShardMatch.t) :
  let r := ShardMatch._parse_scores scores_array m in
  ShardMatch._state (fst r) = ShardMatch._state m /\
  ShardMatch._current_round (fst r) = ShardMatch._current_round m /\
  ShardMatch._spawn_positions (fst r) = ShardMatch._spawn_positions m /\
  ShardMatch._weapon_spawns (fst r) = ShardMatch._weapon_spawns m /\
  ShardMatch._final_winner_peer_id (fst r) = ShardMatch._final_winner_peer_id m /\
  ShardMatch._final_winner_username (fst r) = ShardMatch._final_winner_username m /\
  ShardMatch._final_scores (fst r) = ShardMatch._final_scores m /\
  ShardMatch._debug_logging (fst r) = ShardMatch._debug_logging m /\
  emitted (snd r) = [].
Proof.
  cbv zeta. unfold ShardMatch._parse_scores, ShardMatch._log.
  destruct scores_array; destruct m as [? ? ? ? ? ? ? ? debug]; destruct debug;
    (split; [reflexivity|]); (split; [reflexivity|]); (split; [reflexivity|]);
    (split; [reflexivity|]); (split; [reflexivity|]); (split; [reflexivity|]);
    (split; [reflexivity|]); (split; reflexivity).
Qed.

Lemma match_log_quiet (format : string) (args : list variant) (m : ShardMatch.t) :
  fst (ShardMatch._log format args m) = m /\
  emitted (snd (ShardMatch._log format args m)) = [].
Proof. unfold ShardMatch._log. destruct (ShardMatch._debug_logging m); split; reflexivity. Qed.

(** What [_handle_round_over] does to the match, field by field. *)
Lemma handle_round_over_fields `{Engine} (message : Dict) (m : ShardMatch.t) :
  let r := ShardMatch._handle_round_over message m in
  ShardMatch._state (fst r) = ShardMatch.ROUND_OVER /\
  ShardMatch._current_round (fst r) = ShardMatch._current_round m /\
  ShardMatch._spawn_positions (fst r) = ShardMatch._spawn_positions m /\
  ShardMatch._weapon_spawns (fst r) = ShardMatch._weapon_spawns m /\
  ShardMatch._final_winner_peer_id (fst r) = ShardMatch._final_winner_peer_id m /\
  ShardMatch._final_winner_username (fst r) = ShardMatch._final_winner_username m /\
  ShardMatch._final_scores (fst r) = ShardMatch._final_scores m /\
  (message !! "scores" = None -> ShardMatch._scores (fst r) = ShardMatch._scores m) /\
  emitted (snd r) =
    [ShardMatch.round_ended
       (match message !! "winner_peer_id" with Some winner => to_int winner | None => -1 end)
       (ShardMatch._scores (fst r))].
Proof.
  cbv zeta. unfold ShardMatch._handle_round_over.
  rewrite !fst_seq, !snd_seq, !emitted_app, fst_modify, snd_modify.
  set (m1 := ShardMatch.set_state ShardMatch.ROUND_OVER m).
  set (parse := if dict_has message "scores"
                then ShardMatch._parse_scores (dict_get message "scores" VNil) else skip).
  assert (Hparse :
    ShardMatch._state (fst (parse m1)) = ShardMatch.ROUND_OVER /\
    ShardMatch._current_round (fst (parse m1)) = ShardMatch._current_round m /\
    ShardMatch._spawn_positions (fst (parse m1)) = ShardMatch._spawn_positions m /\
    ShardMatch._weapon_spawns (fst (parse m1)) = ShardMatch._weapon_spawns m /\
    ShardMatch._final_winner_peer_id (fst (parse m1)) = ShardMatch._final_winner_peer_id m /\
    ShardMatch._final_winner_username (fst (parse m1)) = ShardMatch._final_winner_username m /\
    ShardMatch._final_scores (fst (parse m1)) = ShardMatch._final_scores m /\
    (message !! "scores" = None -> ShardMatch._scores (fst (parse m1)) = ShardMatch._scores m) /\
    emitted (snd (parse m1)) = []).
  { unfold parse, dict_has. destruct (message !! "scores") as [scores|] eqn:Hscores.
    - destruct (parse_scores_frame (dict_get message "scores" VNil) m1)
        as (H1 & H2 & H3 & H4 & H5 & H6 & H7 & _ & H9).
      cbv zeta in H1, H2, H3, H4, H5, H6, H7, H9.
      rewrite H1, H2, H3, H4, H5, H6, H7, H9. unfold m1. destruct m.
      repeat match goal with |- _ /\ _ => split end; try reflexivity.
      intros Hnone. discriminate Hnone.
    - unfold m1. destruct m.
      repeat match goal with |- _ /\ _ => split end; reflexivity. }
  destruct Hparse as (H1 & H2 & H3 & H4 & H5 & H6 & H7 & H8 & H9).
  rewrite (proj1 (match_log_quiet _ _ _)), (proj2 (match_log_quiet _ _ _)), H9.
  unfold ShardMatch.emit_signal. rewrite fst_tell, snd_tell. cbn [app emitted].
  unfold dict_has, dict_get.
  repeat match goal with |- _ /\ _ => split end; try assumption.
  destruct (message !! "winner_peer_id"); reflexivity.
Qed.

Lemma parse_final_scores_frame `{Engine} (scores_array : variant) (m : ShardMatch.t) :
  let r := ShardMatch._parse_final_scores scores_array m in
  ShardMatch._state (fst r) = ShardMatch._state m /\
  ShardMatch._current_round (fst r) = ShardMatch._current_round m /\
  ShardMatch._spawn_positions (fst r) = ShardMatch._spawn_positions m /\
  ShardMatch._weapon_spawns (fst r) = ShardMatch._weapon_spawns m /\
  ShardMatch._final_winner_peer_id (fst r) = ShardMatch._final_winner_peer_id m /\
  ShardMatch._final_winner_username (fst r) = ShardMatch._final_winner_username m /\
  ShardMatch._final_scores (fst r) = ShardMatch._final_scores m /\
  ShardMatch._debug_logging (fst r) = ShardMatch._debug_logging m /\
  emitted (snd r) = [].
Proof.
  cbv zeta. unfold ShardMatch._parse_final_scores.
  rewrite fst_seq, snd_seq, emitted_app, fst_modify, snd_modify.
  destruct (parse_scores_frame scores_array (ShardMatch.set_scores ∅ m))
    as (H1 & H2 & H3 & H4 & H5 & H6 & H7 & H8 & H9).
  cbv zeta in H1, H2, H3, H4, H5, H6, H7, H8, H9.
  rewrite H1, H2, H3, H4, H5, H6, H7, H8, H9. destruct m.
  repeat match goal with |- _ /\ _ => split end; reflexivity.
Qed.

(** [_handle_match_over] in two steps: the winner fields and the state are
    written first, then the final scores are read. *)
Lemma handle_match_over_run `{Engine} (message : Dict) (m : ShardMatch.t) :
  let m1 :=
    ShardMatch.set_final_scores []
      (ShardMatch.set_final_winner_username
         (if dict_has message "winner_username"
          then to_str (dict_get message "winner_username" VNil) else "")
         (ShardMatch.set_final_winner_peer_id
            (if dict_has message "winner_peer_id"
             then to_int (dict_get message "winner_peer_id" VNil) else -1)
            (ShardMatch.set_state ShardMatch.MATCH_OVER m))) in
  let final : ShardMatch.M :=
    if dict_has message "final_scores" && is_Array (dict_get message "final_scores" VNil)
    then modify (ShardMatch.set_final_scores
                   (as_Array (dict_get message "final_scores" VNil))) >>
         ShardMatch._parse_final_scores (dict_get message "final_scores" VNil)
    else skip in
  fst (ShardMatch._handle_match_over message m) = fst (final m1) /\
  emitted (snd (ShardMatch._handle_match_over message m)) =
    emitted (snd (final m1)) ++
    [ShardMatch.match_ended (ShardMatch._final_winner_peer_id (fst (final m1)))
       (ShardMatch._final_winner_username (fst (final m1)))
       (ShardMatch._final_scores (fst (final m1)))].
Proof.
  cbv zeta. destruct m. unfold ShardMatch._handle_match_over, ShardMatch.emit_signal.
  repeat progress
    (rewrite ?fst_seq, ?snd_seq, ?emitted_app, ?fst_tell, ?snd_tell,
       ?(proj1 (match_log_quiet _ _ _)), ?(proj2 (match_log_quiet _ _ _)); cbv beta).
  destruct (dict_has message "winner_peer_id"), (dict_has message "winner_username");
    rewrite ?fst_modify, ?snd_modify, ?fst_skip, ?snd_skip; cbn [emitted app];
    split; reflexivity.
Qed.

(** What [_handle_match_over] does to the match, field by field. *)
Lemma handle_match_over_fields `{Engine} (message : Dict) (m : ShardMatch.t) :
  let r := ShardMatch._handle_match_over message m in
  ShardMatch._state (fst r) = ShardMatch.MATCH_OVER /\
  ShardMatch._current_round (fst r) = ShardMatch._current_round m /\
  ShardMatch._spawn_positions (fst r) = ShardMatch._spawn_positions m /\
  ShardMatch._weapon_spawns (fst r) = ShardMatch._weapon_spawns m /\
  ShardMatch._final_winner_peer_id (fst r) =
    match message !! "winner_peer_id" with Some winner => to_int winner | None => -1 end /\
  ShardMatch._final_winner_username (fst r) =
    match message !! "winner_username" with Some name => to_str name | None => "" end /\
  (message !! "final_scores" = None ->
     ShardMatch._final_scores (fst r) = [] /\
     ShardMatch._scores (fst r) = ShardMatch._scores m) /\
  emitted (snd r) =
    [ShardMatch.match_ended (ShardMatch._final_winner_peer_id (fst r))
       (ShardMatch._final_winner_username (fst r)) (ShardMatch._final_scores (fst r))].
Proof.
  cbv zeta. destruct (handle_match_over_run message m) as [Hfst Hemit].
  cbv zeta in Hfst, Hemit. rewrite Hfst, Hemit. clear Hfst Hemit.
  assert (Hwinner :
    (if dict_has message "winner_peer_id"
     then to_int (dict_get message "winner_peer_id" VNil) else -1)
    = match message !! "winner_peer_id" with Some winner => to_int winner | None => -1 end)
    by (unfold dict_has, dict_get; destruct (message !! "winner_peer_id"); reflexivity).
  assert (Hname :
    (if dict_has message "winner_username"
     then to_str (dict_get message "winner_username" VNil) else "")
    = match message !! "winner_username" with Some name => to_str name | None => "" end)
    by (unfold dict_has, dict_get; destruct (message !! "winner_username"); reflexivity).
  rewrite Hwinner, Hname. clear Hwinner Hname.
  set (winner := match message !! "winner_peer_id" with
                 | Some winner => to_int winner | None => -1 end).
  set (name := match message !! "winner_username" with
               | Some name => to_str name | None => "" end).
  set (m1 := ShardMatch.set_final_scores []
               (ShardMatch.set_final_winner_username name
                  (ShardMatch.set_final_winner_peer_id winner
                     (ShardMatch.set_state ShardMatch.MATCH_OVER m)))).
  unfold dict_has.
  destruct (message !! "final_scores") as [scores|] eqn:Hscores; cbn [andb].
  - unfold dict_get. rewrite Hscores. destruct (is_Array scores).
    + rewrite fst_seq, snd_seq, emitted_app, fst_modify, snd_modify.
      match goal with
      | |- context [ShardMatch._parse_final_scores ?v ?m2] =>
          destruct (parse_final_scores_frame v m2)
            as (H1 & H2 & H3 & H4 & H5 & H6 & _ & _ & H9)
      end.
      cbv zeta in H1, H2, H3, H4, H5, H6, H9.
      rewrite H1, H2, H3, H4, H5, H6, H9. unfold m1. destruct m.
      repeat match goal with |- _ /\ _ => split end; try reflexivity.
      intros Hnone. discriminate Hnone.
    + unfold m1. destruct m.
      repeat match goal with |- _ /\ _ => split end; try reflexivity.
      intros Hnone. discriminate Hnone.
  - unfold m1. destruct m.
    repeat match goal with |- _ /\ _ => split end; try reflexivity.
    intros _. split; reflexivity.
Qed.

(** C7, as amended.  A countdown message without [seconds] and a round-start
    message without [round] are claimed, reported to the debug log (printed
    when debug logging is on) and otherwise ignored: the match object is left
    as it was and no signal is emitted.  Round-over and match-over messages
    have no required field; each one is applied whatever it carries, an
    absent field taking its default.  A round-over message makes the state
    RoundOver and leaves the round, the spawn lists and the final winner
    fields as they were; without [scores] the score map is kept, and the one
    signal, [round_ended], carries the winner of the message, or -1 without
    one, and the score map.  A match-over message makes the state MatchOver
    and leaves the round and the spawn lists as they were; the final winner
    is the message's, or -1 without one, the winner's name is the message's,
    or empty without one, and without [final_scores] the final scores are
    empty and the score map is kept; the one signal, [match_ended], carries
    the three final fields. *)
Theorem C7_missing_fields `{Engine} (message : Dict) (m : ShardMatch.t) :
  (message !! "type" = Some (VStr "countdown") -> message !! "seconds" = None ->
     ShardMatch.handle_message message m =
     (m, if ShardMatch._debug_logging m
         then [Print "ShardMatch" "countdown message missing seconds field" []] else [],
      true)) /\
  (message !! "type" = Some (VStr "round_start") -> message !! "round" = None ->
     ShardMatch.handle_message message m =
     (m, if ShardMatch._debug_logging m
         then [Print "ShardMatch" "round_start message missing round field" []] else [],
      true)) /\
  ShardMatch._state (fst (ShardMatch._handle_round_over message m)) = ShardMatch.ROUND_OVER /\
  ShardMatch._state (fst (ShardMatch._handle_match_over message m)) = ShardMatch.MATCH_OVER /\
  (message !! "type" = Some (VStr "round_over") ->
     let r := ShardMatch.handle_message message m in
     let m' := fst (fst r) in
     snd r = true /\
     ShardMatch._state m' = ShardMatch.ROUND_OVER /\
     ShardMatch._current_round m' = ShardMatch._current_round m /\
     ShardMatch._spawn_positions m' = ShardMatch._spawn_positions m /\
     ShardMatch._weapon_spawns m' = ShardMatch._weapon_spawns m /\
     ShardMatch._final_winner_peer_id m' = ShardMatch._final_winner_peer_id m /\
     ShardMatch._final_winner_username m' = ShardMatch._final_winner_username m /\
     ShardMatch._final_scores m' = ShardMatch._final_scores m /\
     (message !! "scores" = None -> ShardMatch._scores m' = ShardMatch._scores m) /\
     (message !! "winner_peer_id" = None ->
        emitted (snd (fst r)) = [ShardMatch.round_ended (-1) (ShardMatch._scores m')]) /\
     (forall winner, message !! "winner_peer_id" = Some winner ->
        emitted (snd (fst r)) =
          [ShardMatch.round_ended (to_int winner) (ShardMatch._scores m')])) /\
  (message !! "type" = Some (VStr "match_over") ->
     let r := ShardMatch.handle_message message m in
     let m' := fst (fst r) in
     snd r = true /\
     ShardMatch._state m' = ShardMatch.MATCH_OVER /\
     ShardMatch._current_round m' = ShardMatch._current_round m /\
     ShardMatch._spawn_positions m' = ShardMatch._spawn_positions m /\
     ShardMatch._weapon_spawns m' = ShardMatch._weapon_spawns m /\
     (message !! "winner_peer_id" = None -> ShardMatch._final_winner_peer_id m' = -1) /\
     (forall winner, message !! "winner_peer_id" = Some winner ->
        ShardMatch._final_winner_peer_id m' = to_int winner) /\
     (message !! "winner_username" = None -> ShardMatch._final_winner_username m' = "") /\
     (forall name, message !! "winner_username" = Some name ->
        ShardMatch._final_winner_username m' = to_str name) /\
     (message !! "final_scores" = None ->
        ShardMatch._final_scores m' = [] /\
        ShardMatch._scores m' = ShardMatch._scores m) /\
     emitted (snd (fst r)) =
       [ShardMatch.match_ended (ShardMatch._final_winner_peer_id m')
          (ShardMatch._final_winner_username m') (ShardMatch._final_scores m')]).
Proof.
  split; [|split; [|split; [|split; [|split]]]].
  - intros Hty Hmiss. unfold ShardMatch.handle_message. rewrite Hty. cbn.
    rewrite handle_countdown_missing; [reflexivity|].
    unfold dict_has. rewrite Hmiss. reflexivity.
  - intros Hty Hmiss. unfold ShardMatch.handle_message. rewrite Hty. cbn.
    rewrite handle_round_start_missing; [reflexivity|].
    unfold dict_has. rewrite Hmiss. reflexivity.
  - apply handle_round_over_state.
  - apply handle_match_over_state.
  - intros Hty. cbv zeta. unfold ShardMatch.handle_message. rewrite Hty.
    change (variant_eq_str (VStr "round_over") ShardProtocol.MSG_COUNTDOWN) with false.
    change (variant_eq_str (VStr "round_over") ShardProtocol.MSG_ROUND_START) with false.
    change (variant_eq_str (VStr "round_over") ShardProtocol.MSG_ROUND_OVER) with true.
    cbv iota. cbn [fst snd].
    destruct (handle_round_over_fields message m)
      as (Hstate & Hround & Hspawn & Hweapon & Hpeer & Hname & Hfinal & Hscores & Hemit).
    cbv zeta in Hstate, Hround, Hspawn, Hweapon, Hpeer, Hname, Hfinal, Hscores, Hemit.
    repeat match goal with |- _ /\ _ => split end; try assumption; try reflexivity.
    + intros Hnone. rewrite Hemit, Hnone. reflexivity.
    + intros winner Hsome. rewrite Hemit, Hsome. reflexivity.
  - intros Hty. cbv zeta. unfold ShardMatch.handle_message. rewrite Hty.
    change (variant_eq_str (VStr "match_over") ShardProtocol.MSG_COUNTDOWN) with false.
    change (variant_eq_str (VStr "match_over") ShardProtocol.MSG_ROUND_START) with false.
    change (variant_eq_str (VStr "match_over") ShardProtocol.MSG_ROUND_OVER) with false.
    change (variant_eq_str (VStr "match_over") ShardProtocol.MSG_MATCH_OVER) with true.
    cbv iota. cbn [fst snd].
    destruct (handle_match_over_fields message m)
      as (Hstate & Hround & Hspawn & Hweapon & Hpeer & Hname & Hfinal & Hemit).
    cbv zeta in Hstate, Hround, Hspawn, Hweapon, Hpeer, Hname, Hfinal, Hemit.
    repeat match goal with |- _ /\ _ => split end; try assumption; try reflexivity.
    + intros Hnone. rewrite Hpeer, Hnone. reflexivity.
    + intros winner Hsome. rewrite Hpeer, Hsome. reflexivity.
    + intros Hnone. rewrite Hname, Hnone. reflexivity.
    + intros name Hsome. rewrite Hname, Hsome. reflexivity.
Qed.

Lemma C7_missing_fields_witness :
  ShardMatch.handle_message (H := reference_engine) (bare_message "countdown")
    match_in_round_two = (match_in_round_two, [], true) /\
  ShardMatch.handle_message (H := reference_engine) (bare_message "round_start")
    match_in_round_two = (match_in_round_two, [], true).
Proof.
  split.
  - apply (proj1 (C7_missing_fields (H := reference_engine) (bare_message "countdown")
                    match_in_round_two)); vm_compute; reflexivity.
  - apply (proj1 (proj2 (C7_missing_fields (H := reference_engine)
                           (bare_message "round_start") match_in_round_two)));
      vm_compute; reflexivity.
Defined.

(** C7, as stated, at a match-over message that carries nothing but its tag:
    the message would be ignored; the state enum changes from Playing to
    MatchOver and the round-over message alike moves it to RoundOver. *)
Lemma C7_match_over_not_ignored :
  ShardMatch._state match_in_round_two = ShardMatch.PLAYING /\
  ShardMatch._state (fst (fst (ShardMatch.handle_message (H := reference_engine)
                                 (bare_message "match_over") match_in_round_two)))
    = ShardMatch.MATCH_OVER /\
  ShardMatch._state (fst (fst (ShardMatch.handle_message (H := reference_engine)
                                 (bare_message "round_over") match_in_round_two)))
    = ShardMatch.ROUND_OVER /\
  fst (fst (ShardMatch.handle_message (H := reference_engine)
              (bare_message "match_over") match_in_round_two)) <> match_in_round_two.
Proof.
  repeat split; try (vm_compute; reflexivity).
  intros Heq. apply (f_equal ShardMatch._state) in Heq. vm_compute in Heq. discriminate.
Qed.

(** ** Leaving a lobby *)

(** C10.  A [leave_lobby] call made with an Authenticated connection while
    the lobby code is not empty hands the leave message to the connection
    and, in the same call, empties the lobby code and the roster, resets the
    host peer id and emits [lobby_left]; nothing in the result depends on a
    later message of the server.  Otherwise the call leaves the lobby object
    and the connection as they were and sends nothing. *)
Theorem C10_leave_lobby `{Engine} (now : Z) (connection : option ShardConnection.t)
    (l : ShardLobby.t) :
  let r := ShardLobby.leave_lobby now connection l in
  let message : Dict := <["type" := VStr "leave_lobby"]> (<["timestamp" := VInt now]> ∅) in
  (leave_accepted connection l = true ->
     exists conn, connection = Some conn /\
       handler r = ShardLobby.mk "" ∅ (ShardLobby._my_peer_id l) (-1)
                     (ShardLobby._debug_logging l) /\
       emitted (effects r) = [ShardLobby.lobby_left] /\
       handler_connection r = Some (fst (ShardConnection.send_message message conn)) /\
       connection_effects r = snd (ShardConnection.send_message message conn) /\
       (forall ws, ShardConnection._ws conn = Some ws ->
          exists conn', handler_connection r = Some conn' /\
            ShardConnection._ws conn' =
              Some (ShardConnection.send_text (json_stringify message) ws))) /\
  (leave_accepted connection l = false ->
     handler r = l /\ handler_connection r = connection /\
     connection_effects r = [] /\ emitted (effects r) = []).
Proof.
  cbv zeta. unfold leave_accepted, ShardLobby.leave_lobby. split.
  - intros Hacc. apply andb_true_iff in Hacc as [Hauth Hin].
    destruct connection as [conn|]; [|discriminate].
    exists conn. rewrite Hauth. apply negb_true_iff in Hin. rewrite Hin. cbn [negb].
    change ShardProtocol.MSG_LEAVE_LOBBY with "leave_lobby".
    destruct (ShardConnection.send_message _ conn) as [conn' ce] eqn:Hsend.
    unfold ShardLobby._log, ShardLobby._clear_state, ShardLobby.emit_signal.
    destruct l as [code players me host debug]. cbn.
    split; [reflexivity|]. split; [reflexivity|].
    split; [destruct debug; reflexivity|]. split; [reflexivity|]. split; [reflexivity|].
    intros ws Hws. exists conn'. split; [reflexivity|].
    change conn' with (fst (conn', ce)). rewrite <- Hsend.
    apply send_message_socket; [apply is_authenticated_connected, Hauth|exact Hws].
  - intros Hrej. unfold ShardLobby._log.
    destruct connection as [conn|]; cbn in *.
    + destruct (ShardConnection.is_authenticated conn); cbn in *.
      * apply negb_false_iff in Hrej. rewrite Hrej.
        destruct (ShardLobby._debug_logging l); repeat split; reflexivity.
      * destruct (ShardLobby._debug_logging l); repeat split; reflexivity.
    + destruct (ShardLobby._debug_logging l); repeat split; reflexivity.
Qed.

Lemma C10_leave_lobby_witness :
  (let r := ShardLobby.leave_lobby (H := reference_engine) 5000
              (Some authenticated_connection) lobby_AB12 in
   handler r = ShardLobby.mk "" ∅ 2 (-1) false /\
   emitted (effects r) = [ShardLobby.lobby_left]) /\
  (let r := ShardLobby.leave_lobby (H := reference_engine) 5000
              (Some connected_connection) lobby_AB12 in
   handler r = lobby_AB12 /\ handler_connection r = Some connected_connection).
Proof.
  split.
  - destruct (C10_leave_lobby (H := reference_engine) 5000 (Some authenticated_connection)
                lobby_AB12) as [Hacc _].
    destruct (Hacc eq_refl) as (conn & _ & Hl & Hemit & _).
    split; [exact Hl|exact Hemit].
  - destruct (C10_leave_lobby (H := reference_engine) 5000 (Some connected_connection)
                lobby_AB12) as [_ Hrej].
    destruct (Hrej eq_refl) as (Hl & Hc & _).
    split; [exact Hl|exact Hc].
Defined.

(** ** Latency *)

Lemma fold_left_add_sum (samples : list Z) (acc : Z) :
  fold_left (fun sum latency => sum + latency) samples acc = acc + sum_of samples.
Proof.
  revert acc. induction samples as [|x samples IH]; intros acc; simpl; [lia|].
  rewrite IH. lia.
Qed.

Lemma sum_of_nonneg (samples : list Z) :
  Forall (fun x => 0 <= x) samples -> 0 <= sum_of samples.
Proof. induction 1; simpl; lia. Qed.

Lemma get_average_latency_quot (c : ShardConnection.t) :
  ShardConnection._latency_buffer c <> [] ->
  ShardConnection.get_average_latency c =
  Z.quot (sum_of (ShardConnection._latency_buffer c))
         (Z.of_nat (length (ShardConnection._latency_buffer c))).
Proof.
  unfold ShardConnection.get_average_latency. intros Hne.
  destruct (ShardConnection._latency_buffer c) as [|x rest]; [contradiction|].
  rewrite fold_left_add_sum. reflexivity.
Qed.

(** Truncated division brackets the exact quotient. *)
Lemma quot_brackets_mean (sum n : Z) :
  0 <= sum -> 0 < n ->
  (inject_Z (Z.quot sum n) <= inject_Z sum / inject_Z n
   /\ inject_Z sum / inject_Z n < inject_Z (Z.quot sum n) + 1)%Q.
Proof.
  intros Hsum Hn. rewrite Z.quot_div_nonneg by lia.
  assert (Hq : (inject_Z 0 < inject_Z n)%Q) by (rewrite <- Zlt_Qlt; exact Hn).
  pose proof (Z.mul_div_le sum n Hn) as Hlo.
  pose proof (Z.mul_succ_div_gt sum n Hn) as Hhi.
  split.
  - apply Qle_shift_div_l; [exact Hq|].
    rewrite <- inject_Z_mult, <- Zle_Qle. lia.
  - apply Qlt_shift_div_r; [exact Hq|].
    change 1%Q with (inject_Z 1). rewrite <- inject_Z_plus, <- inject_Z_mult, <- Zlt_Qlt. lia.
Qed.

Lemma handle_pong_buffer (now : Z) (message : Dict) (c : ShardConnection.t) :
  let rtt := now - ShardConnection._ping_sent_time c in
  let appended := ShardConnection._latency_buffer c ++ [rtt] in
  ShardConnection._latency_buffer (fst (ShardConnection._handle_pong now message c)) =
    (if (5 <? length appended)%nat then tail appended else appended) /\
  ShardConnection._current_latency (fst (ShardConnection._handle_pong now message c)) = rtt /\
  emitted (snd (ShardConnection._handle_pong now message c)) =
    [ShardConnection.latency_updated rtt].
Proof.
  cbv zeta. unfold ShardConnection._handle_pong, ShardConnection.emit, when,
    ShardConnection._log, ShardConnection.LATENCY_BUFFER_SIZE.
  autorewrite with action. destruct c. cbn -[Nat.ltb length app tail].
  match goal with |- context [Nat.ltb 5 ?n] => destruct (Nat.ltb 5 n) end;
    match goal with |- context [if ?b then [Print _ _ _] else []] => destruct b end;
    repeat split; reflexivity.
Qed.

(** C9, as amended.  The ring keeps the 5 most recent round-trip samples: a
    pong appends its sample and, from a ring of at most 5, drops the oldest
    one when that makes 6.  The average-latency accessor returns 0 on an empty
    ring; on a non-empty ring it returns the sum of the samples divided by
    their number with integer division, that is the arithmetic mean truncated
    toward zero: for non-negative samples, the integer [a] with
    [a <= mean < a + 1]. *)
Theorem C9_average_latency (now : Z) (message : Dict) (c : ShardConnection.t) :
  let samples := ShardConnection._latency_buffer c in
  (samples = [] -> ShardConnection.get_average_latency c = 0) /\
  (samples <> [] ->
     ShardConnection.get_average_latency c =
       Z.quot (sum_of samples) (Z.of_nat (length samples)) /\
     (Forall (fun x => 0 <= x) samples ->
        (inject_Z (ShardConnection.get_average_latency c) <= arithmetic_mean samples
         /\ arithmetic_mean samples < inject_Z (ShardConnection.get_average_latency c) + 1)%Q)) /\
  ((length samples <= 5)%nat ->
     let rtt := now - ShardConnection._ping_sent_time c in
     let c' := fst (ShardConnection._handle_pong now message c) in
     ShardConnection._latency_buffer c' =
       drop (length (samples ++ [rtt]) - 5) (samples ++ [rtt]) /\
     (length (ShardConnection._latency_buffer c') <= 5)%nat /\
     last (ShardConnection._latency_buffer c') = Some rtt).
Proof.
  cbv zeta. split; [|split].
  - intros Hempty. unfold ShardConnection.get_average_latency. rewrite Hempty. reflexivity.
  - intros Hne. split; [apply get_average_latency_quot, Hne|].
    intros Hpos. rewrite get_average_latency_quot by exact Hne.
    apply quot_brackets_mean; [apply sum_of_nonneg, Hpos|].
    destruct (ShardConnection._latency_buffer c); [contradiction|]. simpl. lia.
  - intros Hlen. destruct (handle_pong_buffer now message c) as (Hbuf & _ & _).
    cbv zeta in Hbuf. rewrite Hbuf.
    set (appended := ShardConnection._latency_buffer c
                     ++ [now - ShardConnection._ping_sent_time c]).
    assert (Happ : length appended = S (length (ShardConnection._latency_buffer c)))
      by (unfold appended; rewrite length_app; simpl; lia).
    destruct (Nat.ltb_spec 5 (length appended)) as [Hover|Hfits].
    + replace (length appended - 5)%nat with 1%nat by lia.
      assert (Hsix : length (ShardConnection._latency_buffer c) = 5%nat) by lia.
      split; [destruct appended; reflexivity|]. split.
      * destruct appended; simpl in *; lia.
      * unfold appended.
        destruct (ShardConnection._latency_buffer c) as [|x rest]; [discriminate|].
        cbn [app tail]. apply last_snoc.
    + replace (length appended - 5)%nat with 0%nat by lia. rewrite drop_0.
      split; [reflexivity|]. split; [lia|]. apply last_snoc.
Qed.

Lemma C9_average_latency_witness :
  ShardConnection.get_average_latency connection_with_samples = 1 /\
  (1 <= arithmetic_mean [1%Z; 2%Z] < 2)%Q /\
  ShardConnection._latency_buffer
    (fst (ShardConnection._handle_pong 40 ∅ connection_with_samples)) = [1; 2; 40].
Proof.
  destruct (C9_average_latency 40 ∅ connection_with_samples) as (_ & Hmean & Hring).
  destruct (Hmean ltac:(discriminate)) as [Hquot Hbracket].
  split; [exact Hquot|]. split.
  - apply Hbracket. repeat constructor; discriminate.
  - destruct (Hring ltac:(simpl; lia)) as [Hbuf _]. exact Hbuf.
Defined.

(** C9, as stated, on the ring [1, 2]: the accessor would return the
    arithmetic mean 3/2; it returns 1. *)
Lemma C9_mean_refuted :
  ShardConnection.get_average_latency connection_with_samples = 1 /\
  ~ (inject_Z (ShardConnection.get_average_latency connection_with_samples)
     == arithmetic_mean (ShardConnection._latency_buffer connection_with_samples))%Q.
Proof. split; [reflexivity|]. intros Heq. vm_compute in Heq. discriminate. Qed.

(** Reduction of the member accesses and assignments of a connection. *)
Ltac connection_cbn :=
  cbn [fst snd app emitted negb andb orb Z.eqb Z.ltb Z.leb Z.compare Pos.eqb Pos.compare
       Pos.compare_cont ShardConnection.State_eqb ShardConnection.State_value
       ShardConnection.close_code ShardConnection.ready_state ShardConnection._ws
       ShardConnection._state ShardConnection._token ShardConnection._user_id
       ShardConnection._username ShardConnection._reconnect_attempts
       ShardConnection._reconnect_timer ShardConnection._is_reconnecting
       ShardConnection._was_authenticated ShardConnection._match_reconnect_timer
       ShardConnection._in_match ShardConnection.server_host ShardConnection.server_port
       ShardConnection.auto_reconnect ShardConnection.reconnect_delay
       ShardConnection.max_reconnect_attempts ShardConnection.debug_logging
       ShardConnection._messages_sent ShardConnection._messages_received
       ShardConnection._bytes_sent ShardConnection._bytes_received
       ShardConnection._ping_timer ShardConnection._ping_sent_time
       ShardConnection._current_latency ShardConnection._latency_buffer
       ShardConnection.set_ws ShardConnection.set_state ShardConnection.set_token
       ShardConnection.set_user_id ShardConnection.set_username
       ShardConnection.set_reconnect_attempts ShardConnection.set_reconnect_timer
       ShardConnection.set_is_reconnecting ShardConnection.set_was_authenticated
       ShardConnection.set_match_reconnect_timer ShardConnection.set_in_match
       ShardConnection.set_debug_logging ShardConnection.set_messages_sent
       ShardConnection.set_messages_received ShardConnection.set_bytes_sent
       ShardConnection.set_bytes_received ShardConnection.set_ping_timer
       ShardConnection.set_ping_sent_time ShardConnection.set_current_latency
       ShardConnection.set_latency_buffer].

Ltac connection_cbn_in H :=
  cbn [fst snd app emitted negb andb orb Z.eqb Z.ltb Z.leb Z.compare Pos.eqb Pos.compare
       Pos.compare_cont ShardConnection.State_eqb ShardConnection.State_value
       ShardConnection.close_code ShardConnection.ready_state ShardConnection._ws
       ShardConnection._state ShardConnection._token ShardConnection._user_id
       ShardConnection._username ShardConnection._reconnect_attempts
       ShardConnection._reconnect_timer ShardConnection._is_reconnecting
       ShardConnection._was_authenticated ShardConnection._match_reconnect_timer
       ShardConnection._in_match ShardConnection.server_host ShardConnection.server_port
       ShardConnection.auto_reconnect ShardConnection.reconnect_delay
       ShardConnection.max_reconnect_attempts ShardConnection.debug_logging
       ShardConnection._messages_sent ShardConnection._messages_received
       ShardConnection._bytes_sent ShardConnection._bytes_received
       ShardConnection._ping_timer ShardConnection._ping_sent_time
       ShardConnection._current_latency ShardConnection._latency_buffer
       ShardConnection.set_ws ShardConnection.set_state ShardConnection.set_token
       ShardConnection.set_user_id ShardConnection.set_username
       ShardConnection.set_reconnect_attempts ShardConnection.set_reconnect_timer
       ShardConnection.set_is_reconnecting ShardConnection.set_was_authenticated
       ShardConnection.set_match_reconnect_timer ShardConnection.set_in_match
       ShardConnection.set_debug_logging ShardConnection.set_messages_sent
       ShardConnection.set_messages_received ShardConnection.set_bytes_sent
       ShardConnection.set_bytes_received ShardConnection.set_ping_timer
       ShardConnection.set_ping_sent_time ShardConnection.set_current_latency
       ShardConnection.set_latency_buffer] in H.

(** ** Connection closure *)

Lemma on_disconnected_invalid_session (c : ShardConnection.t)
    (ws : ShardConnection.WebSocketPeer) :
  ShardConnection._ws c = Some ws ->
  ShardConnection.close_code ws = ShardProtocol.CLOSE_INVALID_SESSION ->
  fst (ShardConnection._on_disconnected c) =
    ShardConnection.set_username ""
      (ShardConnection.set_user_id ""
         (ShardConnection.set_state ShardConnection.DISCONNECTED c)) /\
  emitted (snd (ShardConnection._on_disconnected c)) =
    [ShardConnection.authentication_failed "Invalid or expired session"].
Proof.
  intros Hws Hcode. unfold ShardConnection._on_disconnected. rewrite Hws, Hcode.
  cbn [Z.eqb ShardProtocol.CLOSE_INVALID_SESSION Pos.eqb].
  unfold ShardConnection._clear_user_info, ShardConnection.emit, ShardConnection._log.
  autorewrite with action. cbn.
  destruct (ShardConnection.debug_logging c); split; reflexivity.
Qed.

(** The same closure seen from [poll], on a connection that is not in the
    middle of a reconnection: the call ends Disconnected and not reconnecting,
    with the closed socket still in place and one signal emitted. *)
Lemma poll_invalid_session `{Engine} (delta : Q) (now : Z)
    (transport : ShardConnection.WebSocketPeer -> ShardConnection.WebSocketPeer)
    (connect_err : Z) (c : ShardConnection.t) (ws : ShardConnection.WebSocketPeer) :
  ShardConnection._ws c = Some ws ->
  ShardConnection.ready_state (transport ws) = ShardConnection.STATE_CLOSED ->
  ShardConnection.close_code (transport ws) = ShardProtocol.CLOSE_INVALID_SESSION ->
  ShardConnection._state c <> ShardConnection.DISCONNECTED ->
  ShardConnection._is_reconnecting c = false ->
  let r := ShardConnection.poll delta now transport connect_err c in
  emitted (snd r) = [ShardConnection.authentication_failed "Invalid or expired session"] /\
  ShardConnection._state (fst r) = ShardConnection.DISCONNECTED /\
  ShardConnection._is_reconnecting (fst r) = false /\
  ShardConnection._reconnect_attempts (fst r) = ShardConnection._reconnect_attempts c /\
  ShardConnection._ws (fst r) = Some (transport ws).
Proof.
  intros Hws Hready Hcode Hstate Hrec. cbv zeta.
  unfold ShardConnection.poll. rewrite fst_seq, snd_seq. rewrite Hws, Hready.
  set (closed := ShardConnection.set_ws (Some (transport ws)) c).
  assert (Hclosed : fst ((modify (ShardConnection.set_ws (Some (transport ws))) >>
                          when (fun c => negb (ShardConnection.State_eqb
                                                 (ShardConnection._state c)
                                                 ShardConnection.DISCONNECTED))
                               ShardConnection._on_disconnected) c)
                    = fst (ShardConnection._on_disconnected closed)
                    /\ snd ((modify (ShardConnection.set_ws (Some (transport ws))) >>
                          when (fun c => negb (ShardConnection.State_eqb
                                                 (ShardConnection._state c)
                                                 ShardConnection.DISCONNECTED))
                               ShardConnection._on_disconnected) c)
                    = snd (ShardConnection._on_disconnected closed)).
  { rewrite fst_seq, snd_seq. unfold when. cbn [modify fst snd app].
    fold closed.
    assert (Hopen : negb (ShardConnection.State_eqb (ShardConnection._state closed)
                            ShardConnection.DISCONNECTED) = true)
      by (unfold closed; destruct c; connection_cbn; connection_cbn_in Hstate;
          destruct _state; [contradiction|reflexivity..]).
    rewrite Hopen. split; reflexivity. }
  destruct Hclosed as [Hfst Hsnd]. rewrite Hfst, Hsnd.
  destruct (on_disconnected_invalid_session closed (transport ws) eq_refl Hcode)
    as [Hafter Hemit].
  rewrite Hafter, emitted_app, Hemit.
  unfold when, closed. destruct c. connection_cbn_in Hrec. subst.
  autorewrite with action. connection_cbn. rewrite !andb_false_r. connection_cbn.
  repeat split; reflexivity.
Qed.



(** ** Reconnection *)

Lemma minf_Qmin (a b : Q) : (minf a b == Qmin a b)%Q.
Proof.
  unfold minf. destruct (Q.min_spec a b) as [[Hlt Hmin]|[Hle Hmin]]; rewrite Hmin.
  - destruct (Qltb b a) eqn:Hba; [|reflexivity].
    apply Qltb_true_lt in Hba. exfalso. exact (Qlt_irrefl a (Qlt_trans _ _ _ Hlt Hba)).
  - destruct (Qltb b a) eqn:Hba; [reflexivity|].
    apply Qltb_false_le in Hba. apply Qle_antisym; assumption.
Qed.

Lemma pow2_inject (n : Z) : 0 <= n -> (pow2 n == inject_Z (2 ^ n))%Q.
Proof. intros Hn. unfold pow2. rewrite Zpower_Qpower by exact Hn. reflexivity. Qed.









Lemma start_reconnection_state (c : ShardConnection.t) :
  str_is_empty (ShardConnection._token c) = false ->
  let c' := fst (ShardConnection._start_reconnection c) in
  ShardConnection._is_reconnecting c' = true /\
  ShardConnection._reconnect_attempts c' = 0 /\
  ShardConnection._match_reconnect_timer c' = 0%Q /\
  ShardConnection._reconnect_timer c' = minf (ShardConnection.reconnect_delay c * pow2 0) 30 /\
  ShardConnection.max_reconnect_attempts c' = ShardConnection.max_reconnect_attempts c /\
  ShardConnection.reconnect_delay c' = ShardConnection.reconnect_delay c /\
  emitted (snd (ShardConnection._start_reconnection c)) = [].
Proof.
  intros Htoken. cbv zeta. unfold ShardConnection._start_reconnection. rewrite Htoken.
  unfold ShardConnection._schedule_reconnect, ShardConnection._log.
  autorewrite with action. destruct c. cbn.
  destruct debug_logging; repeat split; reflexivity.
Qed.




(** ** Interpolation *)

Lemma clampf_id (x lo hi : Q) : (lo <= x)%Q -> (x <= hi)%Q -> clampf x lo hi = x.
Proof.
  intros Hlo Hhi. unfold clampf, Qltb.
  apply Qle_bool_iff in Hlo. apply Qle_bool_iff in Hhi. rewrite Hlo, Hhi. reflexivity.
Qed.

Lemma lerpf_blend (a b t : Q) : (lerpf a b t == (1 - t) * a + t * b)%Q.
Proof. unfold lerpf. ring. Qed.

Lemma interpolate_players_loop_map (older_players newer_players : list variant) (t : Q)
    (result : list variant) :
  ShardState._interpolate_players_loop older_players newer_players t result =
  result ++ map (fun new_player => ShardState._interpolate_player older_players new_player t)
                newer_players.
Proof.
  revert result. induction newer_players as [|p rest IH]; intros result; simpl.
  - rewrite app_nil_r. reflexivity.
  - rewrite IH, <- app_assoc. reflexivity.
Qed.

(** What the search returns is the first adjacent pair that brackets. *)
Lemma find_bracket_first (snapshots : list Dict) (target_time : Q) (older newer : Dict) :
  ShardState.find_bracket snapshots target_time = Some (older, newer) ->
  brackets target_time older newer = true /\
  exists before after,
    snapshots = before ++ older :: newer :: after /\
    forall i a b, (before ++ [older]) !! i = Some a -> (before ++ [older]) !! S i = Some b ->
                  brackets target_time a b = false.
Proof.
  revert older newer. induction snapshots as [|s0 rest IH]; intros older newer Hfind;
    [discriminate|].
  destruct rest as [|s1 rest']; [discriminate|].
  cbn [ShardState.find_bracket] in Hfind. fold (brackets target_time s0 s1) in Hfind.
  destruct (brackets target_time s0 s1) eqn:Hb.
  - inversion Hfind; subst. split; [exact Hb|]. exists [], rest'. split; [reflexivity|].
    intros i a b _ Hb'. destruct i; discriminate.
  - destruct (IH older newer Hfind) as (Hbr & before & after & Heq & Hfirst).
    split; [exact Hbr|]. exists (s0 :: before), after. split.
    + cbn [app]. rewrite Heq. reflexivity.
    + intros i a b Ha Hb'. destruct i as [|i].
      * cbn in Ha. inversion Ha; subst a.
        destruct before as [|s1' before']; cbn in Heq, Hb'; inversion Heq; subst;
          inversion Hb'; subst; exact Hb.
      * cbn in Ha, Hb'. exact (Hfirst i a b Ha Hb').
Qed.

Lemma find_bracket_none_first (snapshots : list Dict) (target_time : Q) :
  ShardState.find_bracket snapshots target_time = None ->
  forall i a b, snapshots !! i = Some a -> snapshots !! S i = Some b ->
                brackets target_time a b = false.
Proof.
  induction snapshots as [|s0 rest IH]; intros Hfind i a b Ha Hb; [discriminate|].
  destruct rest as [|s1 rest']; [destruct i; discriminate|].
  cbn [ShardState.find_bracket] in Hfind. fold (brackets target_time s0 s1) in Hfind.
  destruct (brackets target_time s0 s1) eqn:Hbr; [discriminate|].
  destruct i as [|i].
  - cbn in Ha, Hb. inversion Ha; inversion Hb; subst. exact Hbr.
  - cbn in Ha, Hb. exact (IH Hfind i a b Ha Hb).
Qed.

Lemma find_bracket_none_iff (snapshots : list Dict) (target_time : Q) :
  ShardState.find_bracket snapshots target_time = None <->
  forall a b, adjacent snapshots a b -> brackets target_time a b = false.
Proof.
  split.
  - intros Hfind a b (i & Ha & Hb). exact (find_bracket_none_first _ _ Hfind i a b Ha Hb).
  - induction snapshots as [|s0 rest IH]; intros Hnone; [reflexivity|].
    destruct rest as [|s1 rest']; [reflexivity|].
    cbn [ShardState.find_bracket]. fold (brackets target_time s0 s1).
    rewrite (Hnone s0 s1) by (exists 0%nat; split; reflexivity).
    apply IH. intros a b (i & Ha & Hb). apply Hnone. exists (S i). split; assumption.
Qed.

(** The interpolation parameter of a bracketing pair. *)
Lemma interpolation_t_bracketed (older newer : Dict) (target_time : Q) :
  brackets target_time older newer = true ->
  let o := inject_Z (ShardState.server_time older) in
  let n := inject_Z (ShardState.server_time newer) in
  let t := ShardState.interpolation_t older newer target_time in
  (0 <= t <= 1)%Q /\
  (ShardState.server_time older < ShardState.server_time newer ->
     (t == (target_time - o) / (n - o))%Q /\
     (t == clampf ((target_time - o) / (n - o)) 0 1)%Q) /\
  (ShardState.server_time older = ShardState.server_time newer -> t = 0%Q).
Proof.
  intros Hbr. apply andb_true_iff in Hbr as [Hlo Hhi].
  apply Qle_bool_iff in Hlo. apply Qle_bool_iff in Hhi.
  cbv zeta. unfold ShardState.interpolation_t.
  set (so := ShardState.server_time older) in *.
  set (sn := ShardState.server_time newer) in *.
  destruct (Z.ltb_spec 0 (sn - so)) as [Hpos|Hnonpos].
  - assert (Hd : (0 < inject_Z (sn - so))%Q)
      by (change 0%Q with (inject_Z 0); rewrite <- Zlt_Qlt; exact Hpos).
    assert (Hsub : (inject_Z (sn - so) == inject_Z sn - inject_Z so)%Q)
      by (unfold Z.sub; rewrite inject_Z_plus, inject_Z_opp; reflexivity).
    assert (Hraw0 : (0 <= (target_time - inject_Z so) / inject_Z (sn - so))%Q).
    { apply Qle_shift_div_l; [exact Hd|]. rewrite Qmult_0_l.
      apply (Qplus_le_l _ _ (inject_Z so)). ring_simplify. exact Hlo. }
    assert (Hraw1 : ((target_time - inject_Z so) / inject_Z (sn - so) <= 1)%Q).
    { apply Qle_shift_div_r; [exact Hd|]. rewrite Qmult_1_l, Hsub.
      apply (Qplus_le_l _ _ (inject_Z so)). ring_simplify. exact Hhi. }
    rewrite (clampf_id _ 0 1 Hraw0 Hraw1).
    split; [split; assumption|]. split.
    + intros _. assert (Heq : ((target_time - inject_Z so) / inject_Z (sn - so)
                               == (target_time - inject_Z so) / (inject_Z sn - inject_Z so))%Q)
        by (rewrite Hsub; reflexivity).
      split; [exact Heq|].
      rewrite clampf_id; [exact Heq| |]; rewrite <- Heq; assumption.
    + intros Heq. lia.
  - split; [split; discriminate|]. split; [intros Hlt; lia|reflexivity].
Qed.

Lemma interpolate_player_matched (older_players : list variant) (new_player old_player : variant)
    (t : Q) :
  let np := as_Dict new_player in
  let op := as_Dict old_player in
  ShardState._find_player_by_peer_id older_players
    (variant_int (dict_get np "peer_id" (VInt (-1)))) = Some old_player ->
  exists (d : Dict) (x y : Q),
    ShardState._interpolate_player older_players new_player t = VDict d /\
    d !! "x" = Some (VFloat x) /\
    (x == (1 - t) * variant_num (dict_get op "x" (VFloat 0))
          + t * variant_num (dict_get np "x" (VFloat 0)))%Q /\
    d !! "y" = Some (VFloat y) /\
    (y == (1 - t) * variant_num (dict_get op "y" (VFloat 0))
          + t * variant_num (dict_get np "y" (VFloat 0)))%Q /\
    d !! "vx" = Some (dict_get np "vx" (VFloat 0)) /\
    d !! "vy" = Some (dict_get np "vy" (VFloat 0)) /\
    d !! "health" = Some (dict_get np "health" (VInt 100)) /\
    d !! "weapon" = Some (dict_get np "weapon" VNil) /\
    d !! "weapon_cooldown" = Some (dict_get np "weapon_cooldown" (VFloat 0)) /\
    d !! "state" = Some (dict_get np "state" (VStr "alive")).
Proof.
  cbv zeta. intros Hfind. unfold ShardState._interpolate_player. rewrite Hfind.
  eexists _, _, _. split; [reflexivity|].
  split; [simplify_map_eq; reflexivity|]. split; [apply lerpf_blend|].
  split; [simplify_map_eq; reflexivity|]. split; [apply lerpf_blend|].
  repeat split; simplify_map_eq; reflexivity.
Qed.

Lemma interpolate_player_unmatched (older_players : list variant) (new_player : variant)
    (t : Q) :
  ShardState._find_player_by_peer_id older_players
    (variant_int (dict_get (as_Dict new_player) "peer_id" (VInt (-1)))) = None ->
  ShardState._interpolate_player older_players new_player t = new_player.
Proof. intros Hfind. unfold ShardState._interpolate_player. rewrite Hfind. reflexivity. Qed.

(** C3.  With fewer than two snapshots, or with no adjacent pair whose
    receipt times bracket [target = render_time - interpolation_delay], the
    call returns what [get_latest_state] returns: the last snapshot of the
    buffer as it is (the empty Dictionary when there is none).  Otherwise,
    with [(older, newer)] the first bracketing pair: the parameter [t] lies in
    [0,1] and is [clamp((target - older.server_time) / (newer.server_time -
    older.server_time), 0, 1)] (it is 0 when the two receipt times are equal);
    the players of the result are those of [newer], in order, each one
    replaced as follows.  A player matched by peer id in [older] has
    [x] and [y] blended linearly with weight [t], and [vx], [vy], [health],
    [weapon], [weapon_cooldown] and [state] as read from [newer]; a player
    without a match is the player of [newer] itself. *)
Theorem C3_interpolated_state (render_time : Q) (s : ShardState.t) :
  let target := (render_time - inject_Z (ShardState._interpolation_delay s))%Q in
  let result := fst (ShardState.get_interpolated_state render_time s) in
  ((length (ShardState._snapshots s) < 2)%nat ->
     result = ShardState.get_latest_state s /\
     (forall latest, last (ShardState._snapshots s) = Some latest -> result = latest)) /\
  ((forall a b, adjacent (ShardState._snapshots s) a b -> brackets target a b = false) ->
     result = ShardState.get_latest_state s /\
     (forall latest, last (ShardState._snapshots s) = Some latest -> result = latest)) /\
  ((exists a b, adjacent (ShardState._snapshots s) a b /\ brackets target a b = true) ->
     exists older newer,
       ShardState.find_bracket (ShardState._snapshots s) target = Some (older, newer)) /\
  (forall older newer : Dict,
     ShardState.find_bracket (ShardState._snapshots s) target = Some (older, newer) ->
     let o := inject_Z (ShardState.server_time older) in
     let n := inject_Z (ShardState.server_time newer) in
     let t := ShardState.interpolation_t older newer target in
     let older_players := as_Array (dict_get older "players" VNil) in
     let newer_players := as_Array (dict_get newer "players" VNil) in
     (exists before after,
        ShardState._snapshots s = before ++ older :: newer :: after /\
        forall a b, adjacent (before ++ [older]) a b -> brackets target a b = false) /\
     (o <= target <= n)%Q /\
     (0 <= t <= 1)%Q /\
     (ShardState.server_time older < ShardState.server_time newer ->
        (t == clampf ((target - o) / (n - o)) 0 1)%Q) /\
     (ShardState.server_time older = ShardState.server_time newer -> t = 0%Q) /\
     result !! "players" =
       Some (VArray (map (fun new_player =>
                            ShardState._interpolate_player older_players new_player t)
                         newer_players)) /\
     forall new_player : variant,
       let np := as_Dict new_player in
       let found := ShardState._find_player_by_peer_id older_players
                      (variant_int (dict_get np "peer_id" (VInt (-1)))) in
       (forall old_player, found = Some old_player ->
          let op := as_Dict old_player in
          exists (d : Dict) (x y : Q),
            ShardState._interpolate_player older_players new_player t = VDict d /\
            d !! "x" = Some (VFloat x) /\
            (x == (1 - t) * variant_num (dict_get op "x" (VFloat 0))
                  + t * variant_num (dict_get np "x" (VFloat 0)))%Q /\
            d !! "y" = Some (VFloat y) /\
            (y == (1 - t) * variant_num (dict_get op "y" (VFloat 0))
                  + t * variant_num (dict_get np "y" (VFloat 0)))%Q /\
            d !! "vx" = Some (dict_get np "vx" (VFloat 0)) /\
            d !! "vy" = Some (dict_get np "vy" (VFloat 0)) /\
            d !! "health" = Some (dict_get np "health" (VInt 100)) /\
            d !! "weapon" = Some (dict_get np "weapon" VNil) /\
            d !! "weapon_cooldown" = Some (dict_get np "weapon_cooldown" (VFloat 0)) /\
            d !! "state" = Some (dict_get np "state" (VStr "alive"))) /\
       (found = None ->
          ShardState._interpolate_player older_players new_player t = new_player)).
Proof.
  cbv zeta. unfold ShardState.get_interpolated_state. split; [|split; [|split]].
  - intros Hfew. apply Nat.ltb_lt in Hfew. rewrite Hfew. cbn [fst].
    split; [reflexivity|]. intros latest Hlast.
    unfold ShardState.get_latest_state. rewrite Hlast. reflexivity.
  - intros Hnone. apply find_bracket_none_iff in Hnone. rewrite Hnone.
    assert (Hres : (if (length (ShardState._snapshots s) <? 2)%nat
                    then (ShardState.get_latest_state s, [])
                    else (ShardState.get_latest_state s,
                          snd (ShardState._log
                                 "No bracketing snapshots for time %d, returning latest"
                                 [VInt (int_of_float
                                          (render_time
                                           - inject_Z (ShardState._interpolation_delay s)))]
                                 s))).1
                   = ShardState.get_latest_state s)
      by (destruct (length (ShardState._snapshots s) <? 2)%nat; reflexivity).
    rewrite Hres. split; [reflexivity|]. intros latest Hlast.
    unfold ShardState.get_latest_state. rewrite Hlast. reflexivity.
  - intros (a & b & Hadj & Hbr).
    destruct (ShardState.find_bracket (ShardState._snapshots s) _) as [[older newer]|]
      eqn:Hfind; [exists older, newer; reflexivity|].
    rewrite (proj1 (find_bracket_none_iff _ _) Hfind a b Hadj) in Hbr. discriminate.
  - intros older newer Hfind. rewrite Hfind.
    destruct (find_bracket_first _ _ _ _ Hfind) as (Hbr & before & after & Hsnaps & Hfirst).
    destruct (interpolation_t_bracketed older newer _ Hbr) as (Hrange & Hlt & Heq).
    assert (Hlen : (length (ShardState._snapshots s) <? 2)%nat = false).
    { apply Nat.ltb_ge. rewrite Hsnaps, length_app. simpl. lia. }
    rewrite Hlen. cbn [fst].
    split.
    { exists before, after. split; [exact Hsnaps|].
      intros a b (i & Ha & Hb). exact (Hfirst i a b Ha Hb). }
    split.
    { apply andb_true_iff in Hbr as [Hlo Hhi].
      split; apply Qle_bool_iff; assumption. }
    split; [exact Hrange|].
    split; [intros Hst; apply (Hlt Hst)|].
    split; [exact Heq|].
    split.
    { unfold ShardState._interpolate_players. rewrite interpolate_players_loop_map.
      simplify_map_eq. reflexivity. }
    intros new_player. split.
    + intros old_player Hfound. apply interpolate_player_matched. exact Hfound.
    + apply interpolate_player_unmatched.
Qed.

Lemma C3_interpolated_state_witness :
  (let older := ShardState.make_snapshot 1000 message_at_1000 in
   let newer := ShardState.make_snapshot 1100 message_at_1100 in
   let t := ShardState.interpolation_t older newer 1050 in
   let older_players := as_Array (dict_get older "players" VNil) in
   (t == 1 # 2)%Q /\
   (exists (d : Dict) (x y : Q),
      ShardState._interpolate_player older_players (player_of 1 10 4 3 0 80) t = VDict d /\
      d !! "x" = Some (VFloat x) /\ (x == 5)%Q /\
      d !! "y" = Some (VFloat y) /\ (y == 2)%Q /\
      d !! "vx" = Some (VFloat 3) /\ d !! "health" = Some (VInt 80)) /\
   ShardState._interpolate_player older_players (player_of 2 5 0 0 0 100) t
     = player_of 2 5 0 0 0 100) /\
  fst (ShardState.get_interpolated_state 1150 one_snapshot) =
    ShardState.make_snapshot 1000 message_at_1000 /\
  fst (ShardState.get_interpolated_state 5000 two_snapshots) =
    ShardState.make_snapshot 1100 message_at_1100.
Proof.
  assert (Hbracket :
    ShardState.find_bracket (ShardState._snapshots two_snapshots)
      (1150 - inject_Z (ShardState._interpolation_delay two_snapshots))
    = Some (ShardState.make_snapshot 1000 message_at_1000,
            ShardState.make_snapshot 1100 message_at_1100))
    by reflexivity.
  assert (Htimes :
    ShardState.server_time (ShardState.make_snapshot 1000 message_at_1000)
    < ShardState.server_time (ShardState.make_snapshot 1100 message_at_1100))
    by reflexivity.
  assert (Hfound :
    ShardState._find_player_by_peer_id
      (as_Array (dict_get (ShardState.make_snapshot 1000 message_at_1000) "players" VNil))
      (variant_int (dict_get (as_Dict (player_of 1 10 4 3 0 80)) "peer_id" (VInt (-1))))
    = Some (player_of 1 0 0 1 0 100))
    by reflexivity.
  assert (Hmissing :
    ShardState._find_player_by_peer_id
      (as_Array (dict_get (ShardState.make_snapshot 1000 message_at_1000) "players" VNil))
      (variant_int (dict_get (as_Dict (player_of 2 5 0 0 0 100)) "peer_id" (VInt (-1))))
    = None)
    by reflexivity.
  assert (Hone : (length (ShardState._snapshots one_snapshot) < 2)%nat)
    by (vm_compute; lia).
  assert (Hlast : last (ShardState._snapshots one_snapshot)
                  = Some (ShardState.make_snapshot 1000 message_at_1000))
    by reflexivity.
  assert (Hlast2 : last (ShardState._snapshots two_snapshots)
                   = Some (ShardState.make_snapshot 1100 message_at_1100))
    by reflexivity.
  assert (Hbeyond : forall a b, adjacent (ShardState._snapshots two_snapshots) a b ->
                      brackets (5000 - inject_Z (ShardState._interpolation_delay two_snapshots))
                               a b = false).
  { intros a b (i & Ha & Hb). destruct i as [|[|i]]; [|discriminate..].
    injection Ha as <-. injection Hb as <-. reflexivity. }
  split; [|split].
  - destruct (C3_interpolated_state 1150 two_snapshots) as (_ & _ & _ & Hpair).
    destruct (Hpair _ _ Hbracket) as (_ & _ & _ & Ht & _ & _ & Hplayer).
    split; [|split].
    + rewrite (Ht Htimes). vm_compute. reflexivity.
    + destruct (Hplayer (player_of 1 10 4 3 0 80)) as [Hmatched _].
      destruct (Hmatched _ Hfound)
        as (d & x & y & Hd & Hx & Hxv & Hy & Hyv & Hvx & _ & Hhealth & _).
      exists d, x, y. split; [exact Hd|]. split; [exact Hx|].
      split; [rewrite Hxv; vm_compute; reflexivity|]. split; [exact Hy|].
      split; [rewrite Hyv; vm_compute; reflexivity|].
      split; [rewrite Hvx; vm_compute; reflexivity
             |rewrite Hhealth; vm_compute; reflexivity].
    + destruct (Hplayer (player_of 2 5 0 0 0 100)) as [_ Hunmatched].
      exact (Hunmatched Hmissing).
  - destruct (C3_interpolated_state 1150 one_snapshot) as (Hfew & _).
    destruct (Hfew Hone) as [_ Hlatest].
    exact (Hlatest _ Hlast).
  - destruct (C3_interpolated_state 5000 two_snapshots) as (_ & Hnone & _).
    destruct (Hnone Hbeyond) as [_ Hlatest].
    exact (Hlatest _ Hlast2).
Defined.

(** ** Reconciliation *)

Lemma get_inputs_after_tick_filter (tick : Z) (s : ShardInput.t) :
  ShardInput.get_inputs_after_tick tick s =
  filter (fun e => tick < ShardInput.tick e) (ShardInput._input_buffer s).
Proof.
  unfold ShardInput.get_inputs_after_tick.
  assert (Hgen : forall buffer result,
             fold_left (fun result entry => if tick <? ShardInput.tick entry
                                            then result ++ [entry] else result)
                       buffer result
             = result ++ filter (fun e => tick < ShardInput.tick e) buffer).
  { induction buffer as [|e buffer IH]; intros result; cbn [fold_left].
    - rewrite filter_nil, app_nil_r. reflexivity.
    - rewrite IH. destruct (Z.ltb_spec tick (ShardInput.tick e)) as [Hlt|Hge].
      + rewrite filter_cons_True by exact Hlt. rewrite <- app_assoc. reflexivity.
      + rewrite filter_cons_False by lia. reflexivity. }
  rewrite Hgen. reflexivity.
Qed.

Lemma filter_all {A : Type} (P : A -> Prop) `{forall x, Decision (P x)} (l : list A) :
  Forall P l -> filter P l = l.
Proof.
  induction 1 as [|x l Hx _ IH]; [reflexivity|].
  rewrite filter_cons_True by exact Hx. rewrite IH. reflexivity.
Qed.

(** On a buffer whose ticks increase, popping the front while its tick is at
    most [tick] removes every entry whose tick is at most [tick]. *)
Lemma pop_front_while_tick_le_filter (tick : Z) (buffer : list ShardInput.entry) :
  ticks_increasing buffer ->
  ShardInput.pop_front_while_tick_le tick buffer =
  filter (fun e => tick < ShardInput.tick e) buffer.
Proof.
  induction buffer as [|first rest IH]; intros Hinc; [reflexivity|].
  destruct Hinc as [Hfirst Hrest]. cbn [ShardInput.pop_front_while_tick_le].
  destruct (Z.leb_spec (ShardInput.tick first) tick) as [Hle|Hgt].
  - rewrite filter_cons_False by lia. apply IH, Hrest.
  - rewrite filter_cons_True by lia. f_equal. symmetry. apply filter_all.
    eapply Forall_impl; [exact Hfirst|]. intros e He. simpl in He. lia.
Qed.

Lemma ticks_increasing_snoc (buffer : list ShardInput.entry) (e : ShardInput.entry) :
  ticks_increasing buffer ->
  Forall (fun e' => ShardInput.tick e' < ShardInput.tick e) buffer ->
  ticks_increasing (buffer ++ [e]).
Proof.
  induction buffer as [|first rest IH]; intros Hinc Hlt.
  - split; constructor.
  - destruct Hinc as [Hfirst Hrest]. apply Forall_cons in Hlt as [Hf Hr]. split.
    + apply Forall_app. split; [exact Hfirst|]. constructor; [exact Hf|constructor].
    + apply IH; assumption.
Qed.

Lemma ticks_increasing_drop (n : nat) (buffer : list ShardInput.entry) :
  ticks_increasing buffer -> ticks_increasing (drop n buffer).
Proof.
  revert buffer. induction n as [|n IH]; intros buffer Hinc; [rewrite drop_0; exact Hinc|].
  destruct buffer as [|first rest]; [exact I|]. apply IH, Hinc.
Qed.

Lemma ticks_increasing_pop (tick : Z) (buffer : list ShardInput.entry) :
  ticks_increasing buffer -> ticks_increasing (ShardInput.pop_front_while_tick_le tick buffer).
Proof.
  induction buffer as [|first rest IH]; intros Hinc; [exact I|].
  cbn [ShardInput.pop_front_while_tick_le].
  destruct (ShardInput.tick first <=? tick); [apply IH, Hinc|exact Hinc].
Qed.

Lemma send_input_handler `{Engine} (now : Z) (connection : option ShardConnection.t)
    (input : Dict) (is_playing : bool) (s : ShardInput.t) :
  let r := ShardInput.send_input now connection input is_playing s in
  (input_accepted connection is_playing = false -> handler r = s) /\
  (input_accepted connection is_playing = true ->
     ShardInput._current_tick (handler r) = ShardInput._current_tick s + 1 /\
     ShardInput._input_buffer (handler r) =
       pop_front_while_over ShardInput.INPUT_BUFFER_SIZE
         (ShardInput._input_buffer s
          ++ [ShardInput.mkEntry (ShardInput._current_tick s + 1)
                                 (ShardInput._validate_input input)])).
Proof.
  cbv zeta. unfold input_accepted, ShardInput.send_input. split.
  - intros Hrej. destruct is_playing; [|reflexivity].
    destruct connection as [conn|]; [|reflexivity].
    cbn in Hrej. rewrite Hrej. reflexivity.
  - intros Hacc. apply andb_true_iff in Hacc as [Hplay Hauth]. subst is_playing.
    destruct connection as [conn|]; [|discriminate].
    rewrite Hauth. cbn [negb].
    destruct (ShardConnection.send_message _ conn) as [conn' ce].
    split; reflexivity.
Qed.

Lemma Forall_pop_front_while_tick_le (P : ShardInput.entry -> Prop) (tick : Z)
    (buffer : list ShardInput.entry) :
  Forall P buffer -> Forall P (ShardInput.pop_front_while_tick_le tick buffer).
Proof.
  induction 1 as [|first rest Hfirst Hrest IH]; [constructor|].
  cbn [ShardInput.pop_front_while_tick_le].
  destruct (ShardInput.tick first <=? tick); [exact IH|constructor; assumption].
Qed.

(** Every call of the orchestrator keeps the buffer ordered. *)
Lemma run_handler_call_ordered `{Engine} (s : ShardInput.t) (c : handler_call) :
  buffer_ordered s -> buffer_ordered (run_handler_call s c).
Proof.
  intros [Hinc Hbound]. destruct c as [now connection input is_playing|tick|];
    cbn [run_handler_call].
  - destruct (send_input_handler now connection input is_playing s) as [Hrej Hacc].
    destruct (input_accepted connection is_playing).
    + destruct (Hacc eq_refl) as [Htick Hbuf]. unfold buffer_ordered.
      rewrite Htick, Hbuf, pop_front_while_over_drop. split.
      * apply ticks_increasing_drop, ticks_increasing_snoc; [exact Hinc|].
        eapply Forall_impl; [exact Hbound|]. intros e He. simpl in *. lia.
      * apply Forall_drop, Forall_app. split.
        -- eapply Forall_impl; [exact Hbound|]. intros e He. simpl in *. lia.
        -- constructor; [simpl; lia|constructor].
    + rewrite (Hrej eq_refl). split; assumption.
  - split.
    + apply ticks_increasing_pop, Hinc.
    + apply Forall_pop_front_while_tick_le, Hbound.
  - split; [exact I|constructor].
Qed.

Lemma run_handler_calls_ordered `{Engine} (calls : list handler_call) :
  buffer_ordered (fold_left run_handler_call calls ShardInput.init).
Proof.
  induction calls as [|c calls IH] using rev_ind.
  - split; [exact I|constructor].
  - rewrite fold_left_app. cbn [fold_left]. apply run_handler_call_ordered, IH.
Qed.

Lemma apply_input_corrections (input : Dict) (delta : Q) (p : ShardPrediction.t) :
  ShardPrediction._prediction_corrections (ShardPrediction.apply_input input delta p) =
  ShardPrediction._prediction_corrections p.
Proof.
  unfold ShardPrediction.apply_input.
  destruct (ShardPrediction._enabled p); cbn [negb]; [|reflexivity].
  repeat match goal with
         | |- context [if ?b then _ else _] => destruct b
         end; reflexivity.
Qed.

Lemma replay_corrections (inputs : list ShardInput.entry) (p : ShardPrediction.t) :
  ShardPrediction._prediction_corrections (replay inputs p) =
  ShardPrediction._prediction_corrections p.
Proof.
  revert p. induction inputs as [|e inputs IH]; intros p; [reflexivity|].
  unfold replay in *. cbn [fold_left]. rewrite IH. apply apply_input_corrections.
Qed.

Lemma pop_front_while_tick_le_split (tick : Z) (buffer : list ShardInput.entry) :
  exists evicted,
    buffer = evicted ++ ShardInput.pop_front_while_tick_le tick buffer /\
    Forall (fun e => ShardInput.tick e <= tick) evicted.
Proof.
  induction buffer as [|first rest IH].
  - exists []. split; [reflexivity|constructor].
  - cbn [ShardInput.pop_front_while_tick_le].
    destruct (Z.leb_spec (ShardInput.tick first) tick) as [Hle|Hgt].
    + destruct IH as (evicted & Heq & Hall). exists (first :: evicted). split.
      * cbn [app]. rewrite <- Heq. reflexivity.
      * constructor; assumption.
    + exists []. split; [reflexivity|constructor].
Qed.

Lemma find_my_player_nonempty (latest : Dict) (p : ShardPrediction.t) (server_player : variant) :
  ShardPrediction._find_my_player (as_Array (dict_get latest "players" (VArray []))) p
    = Some server_player ->
  latest <> ∅.
Proof. intros Hfind Hempty. subst latest. discriminate. Qed.

(** C1.  Take a [reconcile] call with prediction enabled, a self peer id set
    and the self player in the latest snapshot; let [last_processed] be the
    server's last-processed tick for self.

    Eviction, whether or not a correction fires: the input buffer loses its
    leading entries with tick at most [last_processed] and nothing else; its
    ticks increase from front to back in every state that the orchestrator's
    calls produce, and then what remains is exactly the entries with tick
    greater than [last_processed].

    Correction, when the distance between the predicted and the server
    position exceeds the threshold 5: the predicted state is the server
    position and velocity, on which every buffered input with tick greater
    than [last_processed] is replayed in buffer order through the integrator
    with the timestep 1/60; the correction counter is incremented by one and
    one signal is emitted, [prediction_corrected], with the server position,
    the predicted position before the call and the distance.  Below the
    threshold the prediction is left as it was and nothing is emitted. *)
Theorem C1_reconcile `{Engine} (state : ShardState.t) (input_handler : ShardInput.t)
    (p : ShardPrediction.t) (latest : Dict) (server_player : variant)
    (calls : list handler_call) :
  ShardPrediction._enabled p = true ->
  0 <= ShardPrediction._my_peer_id p ->
  last (ShardState._snapshots state) = Some latest ->
  ShardPrediction._find_my_player (as_Array (dict_get latest "players" (VArray []))) p
    = Some server_player ->
  let sp := as_Dict server_player in
  let server_pos := Vector2.mk (variant_num (dict_get sp "x" (VFloat 0)))
                               (variant_num (dict_get sp "y" (VFloat 0))) in
  let server_vel := Vector2.mk (variant_num (dict_get sp "vx" (VFloat 0)))
                               (variant_num (dict_get sp "vy" (VFloat 0))) in
  let last_processed :=
    ShardState.get_last_processed_tick (ShardPrediction._my_peer_id p) state in
  let diff := distance_to (ShardPrediction._predicted_position p) server_pos in
  let buffer := ShardInput._input_buffer input_handler in
  let unprocessed := filter (fun e => last_processed < ShardInput.tick e) buffer in
  let p' := fst (fst (ShardPrediction.reconcile state input_handler p)) in
  let input_handler' := snd (fst (ShardPrediction.reconcile state input_handler p)) in
  let effs := snd (ShardPrediction.reconcile state input_handler p) in
  (input_handler' = ShardInput.clear_inputs_before_tick last_processed input_handler /\
   (exists evicted, buffer = evicted ++ ShardInput._input_buffer input_handler' /\
      Forall (fun e => ShardInput.tick e <= last_processed) evicted) /\
   (ticks_increasing buffer -> ShardInput._input_buffer input_handler' = unprocessed) /\
   ticks_increasing
     (ShardInput._input_buffer (fold_left run_handler_call calls ShardInput.init))) /\
  ((ShardPrediction.CORRECTION_THRESHOLD < diff)%Q ->
     let replayed := replay unprocessed (snapped server_pos server_vel p) in
     ShardPrediction._predicted_position p' = ShardPrediction._predicted_position replayed /\
     ShardPrediction._predicted_velocity p' = ShardPrediction._predicted_velocity replayed /\
     ShardPrediction._is_grounded p' = ShardPrediction._is_grounded replayed /\
     ShardPrediction._prediction_corrections p' =
       ShardPrediction._prediction_corrections p + 1 /\
     emitted effs =
       [ShardPrediction.prediction_corrected server_pos
          (ShardPrediction._predicted_position p) diff]) /\
  ((diff <= ShardPrediction.CORRECTION_THRESHOLD)%Q -> p' = p /\ effs = []).
Proof.
  intros Henabled Hpeer Hlast Hfind. cbv zeta.
  assert (Hlatest : ShardState.get_latest_state state = latest)
    by (unfold ShardState.get_latest_state; rewrite Hlast; reflexivity).
  assert (Hne : bool_decide (latest = ∅) = false)
    by (apply bool_decide_eq_false, (find_my_player_nonempty _ _ _ Hfind)).
  assert (Hguard : negb (ShardPrediction._enabled p) || (ShardPrediction._my_peer_id p <? 0)
                   = false).
  { rewrite Henabled. cbn [negb orb]. apply Z.ltb_ge. exact Hpeer. }
  unfold ShardPrediction.reconcile. rewrite Hguard, Hlatest, Hne, Hfind.
  set (last_processed := ShardState.get_last_processed_tick _ state).
  set (server_pos := Vector2.mk _ _).
  set (diff := distance_to _ server_pos).
  assert (Hevict :
    let ih' := ShardInput.clear_inputs_before_tick last_processed input_handler in
    (exists evicted,
       ShardInput._input_buffer input_handler = evicted ++ ShardInput._input_buffer ih' /\
       Forall (fun e => ShardInput.tick e <= last_processed) evicted) /\
    (ticks_increasing (ShardInput._input_buffer input_handler) ->
     ShardInput._input_buffer ih' =
       filter (fun e => last_processed < ShardInput.tick e)
              (ShardInput._input_buffer input_handler)) /\
    ticks_increasing
      (ShardInput._input_buffer (fold_left run_handler_call calls ShardInput.init))).
  { cbv zeta. split; [apply pop_front_while_tick_le_split|]. split.
    - apply pop_front_while_tick_le_filter.
    - apply run_handler_calls_ordered. }
  destruct (Qltb ShardPrediction.CORRECTION_THRESHOLD diff) eqn:Hdiff.
  - unfold ShardPrediction._log. cbn [fst snd].
    rewrite get_inputs_after_tick_filter.
    split; [split; [reflexivity|exact Hevict]|]. split.
    + intros _. split; [reflexivity|]. split; [reflexivity|]. split; [reflexivity|].
      split.
      * cbn [ShardPrediction._prediction_corrections ShardPrediction.set_prediction_corrections].
        fold (replay (filter (fun e => last_processed < ShardInput.tick e)
                             (ShardInput._input_buffer input_handler))).
        rewrite replay_corrections. reflexivity.
      * cbn [ShardPrediction._debug_logging ShardPrediction.set_is_grounded
               ShardPrediction.set_predicted_velocity
               ShardPrediction.set_predicted_position].
        destruct (ShardPrediction._debug_logging p); reflexivity.
    + intros Hle. apply Qltb_true_lt in Hdiff. exfalso.
      exact (Qlt_irrefl _ (Qlt_le_trans _ _ _ Hdiff Hle)).
  - cbn [fst snd]. split; [split; [reflexivity|exact Hevict]|]. split.
    + intros Hlt. apply Qltb_false_le in Hdiff. exfalso.
      exact (Qlt_irrefl _ (Qlt_le_trans _ _ _ Hlt Hdiff)).
    + intros _. split; reflexivity.
Qed.

Lemma C1_reconcile_witness :
  let r := ShardPrediction.reconcile (H := reference_engine) server_state handler_10_to_15
             prediction_at_origin in
  map ShardInput.tick (ShardInput._input_buffer handler_10_to_15) = [10; 11; 12; 13; 14; 15] /\
  map ShardInput.tick (ShardInput._input_buffer (snd (fst r))) = [13; 14; 15] /\
  ShardPrediction._prediction_corrections (fst (fst r)) = 1 /\
  emitted (snd r) =
    [ShardPrediction.prediction_corrected (Vector2.mk 100 0) Vector2.ZERO (100000 # 1000)].
Proof.
  cbv zeta.
  assert (Hlast : last (ShardState._snapshots server_state)
                  = Some (ShardState.make_snapshot 2000 server_message))
    by reflexivity.
  assert (Hself :
    ShardPrediction._find_my_player
      (as_Array (dict_get (ShardState.make_snapshot 2000 server_message) "players"
                          (VArray [])))
      prediction_at_origin
    = Some (player_of 1 100 0 0 0 100))
    by reflexivity.
  destruct (C1_reconcile (H := reference_engine) server_state handler_10_to_15
              prediction_at_origin _ _ fifteen_inputs_then_clear
              eq_refl ltac:(simpl; lia) Hlast Hself)
    as ((_ & _ & Hbuffer & Hordered) & Hcorrect & _).
  split; [vm_compute; reflexivity|].
  destruct (Hcorrect ltac:(vm_compute; reflexivity)) as (_ & _ & _ & Hcount & Hemit).
  split; [|split].
  - rewrite (Hbuffer Hordered). vm_compute. reflexivity.
  - exact Hcount.
  - rewrite Hemit. vm_compute. reflexivity.
Defined.

(** * Further properties of the runtime *)

(** ** Connection lifecycle *)

Lemma connect_to_server_busy (connect_err : Z) (token : string) (c : ShardConnection.t) :
  ShardConnection._state c <> ShardConnection.DISCONNECTED ->
  fst (ShardConnection.connect_to_server connect_err token c) = c /\
  emitted (snd (ShardConnection.connect_to_server connect_err token c)) = [].
Proof.
  intros Hstate. unfold ShardConnection.connect_to_server.
  assert (Hbusy : negb (ShardConnection.State_eqb (ShardConnection._state c)
                          ShardConnection.DISCONNECTED) = true)
    by (destruct (ShardConnection._state c); [contradiction|reflexivity..]).
  rewrite Hbusy. unfold ShardConnection._log.
  destruct (ShardConnection.debug_logging c); split; reflexivity.
Qed.

Lemma connect_to_server_idle (connect_err : Z) (token : string) (c : ShardConnection.t) :
  ShardConnection._state c = ShardConnection.DISCONNECTED ->
  let opened :=
    ShardConnection.set_ws
      (Some (ShardConnection.connect_to_url connect_err ShardConnection.WebSocketPeer_new))
      (ShardConnection.set_is_reconnecting false
         (ShardConnection.set_state ShardConnection.CONNECTING
            (ShardConnection.set_token token c))) in
  fst (ShardConnection.connect_to_server connect_err token c) =
    (if connect_err =? ShardConnection.OK then opened
     else ShardConnection.set_state ShardConnection.DISCONNECTED opened) /\
  emitted (snd (ShardConnection.connect_to_server connect_err token c)) =
    (if connect_err =? ShardConnection.OK then []
     else [ShardConnection.disconnected "Failed to initiate connection"]).
Proof.
  intros Hstate. cbv zeta. unfold ShardConnection.connect_to_server. rewrite Hstate.
  cbn [ShardConnection.State_eqb ShardConnection.State_value Z.eqb negb].
  unfold ShardConnection._log, ShardConnection.emit.
  destruct c. connection_cbn_in Hstate. subst.
  destruct (connect_err =? ShardConnection.OK); cbn [negb];
    autorewrite with action; connection_cbn; destruct debug_logging; split; reflexivity.
Qed.

(** X1.  [connect_to_server] acts only on a Disconnected connection: in any
    other state it changes nothing and emits nothing.  From Disconnected it
    stores the token, leaves the reconnecting mode and opens a fresh socket;
    when the socket accepts the request the state is Connecting and nothing
    is emitted, and when it refuses, the state is Disconnected again and one
    signal is emitted, [disconnected], while the token stays stored. *)
Theorem connect_to_server_outcomes (connect_err : Z) (token : string)
    (c : ShardConnection.t) :
  let r := ShardConnection.connect_to_server connect_err token c in
  (ShardConnection._state c <> ShardConnection.DISCONNECTED ->
     fst r = c /\ emitted (snd r) = []) /\
  (ShardConnection._state c = ShardConnection.DISCONNECTED ->
     ShardConnection._token (fst r) = token /\
     ShardConnection._is_reconnecting (fst r) = false /\
     (connect_err = ShardConnection.OK ->
        ShardConnection._state (fst r) = ShardConnection.CONNECTING /\
        ShardConnection._ws (fst r) =
          Some (ShardConnection.mkPeer ShardConnection.STATE_CONNECTING 0 [] []) /\
        emitted (snd r) = []) /\
     (connect_err <> ShardConnection.OK ->
        ShardConnection._state (fst r) = ShardConnection.DISCONNECTED /\
        emitted (snd r) = [ShardConnection.disconnected "Failed to initiate connection"])).
Proof.
  cbv zeta. split; [apply connect_to_server_busy|].
  intros Hstate. destruct (connect_to_server_idle connect_err token c Hstate) as [Hfst Hsnd].
  rewrite Hfst, Hsnd. unfold ShardConnection.connect_to_url.
  destruct (Z.eqb_spec connect_err ShardConnection.OK) as [Heq|Hne].
  - split; [reflexivity|]. split; [reflexivity|]. split.
    + intros _. split; [reflexivity|]. split; reflexivity.
    + intros Hne. contradiction.
  - split; [reflexivity|]. split; [reflexivity|]. split.
    + intros Heq. contradiction.
    + intros _. split; reflexivity.
Qed.

Lemma connect_to_server_outcomes_witness :
  ShardConnection._state (fst (ShardConnection.connect_to_server 0 "token" ShardConnection.init))
    = ShardConnection.CONNECTING /\
  emitted (snd (ShardConnection.connect_to_server 1 "token" ShardConnection.init))
    = [ShardConnection.disconnected "Failed to initiate connection"] /\
  fst (ShardConnection.connect_to_server 0 "other" authenticated_connection)
    = authenticated_connection.
Proof.
  split; [|split].
  - apply (proj2 (connect_to_server_outcomes 0 "token" ShardConnection.init) eq_refl).
    reflexivity.
  - apply (proj2 (connect_to_server_outcomes 1 "token" ShardConnection.init) eq_refl).
    discriminate.
  - apply (proj1 (connect_to_server_outcomes 0 "other" authenticated_connection)).
    discriminate.
Defined.

Lemma handle_authenticated_user `{Engine} (message user : Dict) (c : ShardConnection.t) :
  message !! "user" = Some (VDict user) ->
  dict_has user "id" = true -> dict_has user "username" = true ->
  let user_id := to_str (dict_get user "id" VNil) in
  let username := to_str (dict_get user "username" VNil) in
  let c1 := ShardConnection.set_state ShardConnection.AUTHENTICATED
              (ShardConnection.set_username username
                 (ShardConnection.set_user_id user_id c)) in
  fst (ShardConnection._handle_authenticated message c) =
    (if ShardConnection._is_reconnecting c
     then ShardConnection.set_match_reconnect_timer 0
            (ShardConnection.set_reconnect_attempts 0
               (ShardConnection.set_is_reconnecting false c1))
     else c1) /\
  emitted (snd (ShardConnection._handle_authenticated message c)) =
    [if ShardConnection._is_reconnecting c then ShardConnection.reconnected
     else ShardConnection.authenticated user_id username].
Proof.
  intros Huser Hid Hname. cbv zeta. unfold ShardConnection._handle_authenticated.
  rewrite Huser, Hid, Hname. cbn [negb orb].
  unfold ShardConnection._log, ShardConnection.emit.
  destruct c. autorewrite with action. connection_cbn.
  destruct _is_reconnecting, debug_logging; autorewrite with action; connection_cbn;
    split; reflexivity.
Qed.

Lemma handle_authenticated_malformed `{Engine} (message : Dict) (c : ShardConnection.t) :
  authenticated_user message = None ->
  fst (ShardConnection._handle_authenticated message c) = c /\
  emitted (snd (ShardConnection._handle_authenticated message c)) = [].
Proof.
  unfold authenticated_user, ShardConnection._handle_authenticated, ShardConnection._log.
  destruct (message !! "user") as [[]|]; intros Hnone;
    try (destruct (ShardConnection.debug_logging c); split; reflexivity).
  destruct (dict_has d "id"), (dict_has d "username"); try discriminate;
    cbn [negb orb]; destruct (ShardConnection.debug_logging c); split; reflexivity.
Qed.

Lemma authenticated_user_Some (message user : Dict) :
  authenticated_user message = Some user ->
  message !! "user" = Some (VDict user) /\
  dict_has user "id" = true /\ dict_has user "username" = true.
Proof.
  unfold authenticated_user. destruct (message !! "user") as [[]|]; try discriminate.
  destruct (dict_has d "id") eqn:Hid, (dict_has d "username") eqn:Hname; try discriminate.
  intros [= <-]. rewrite Hid, Hname. repeat split.
Qed.

(** X2.  An [authenticated] message without a [user] Dictionary carrying
    [id] and [username] is ignored: the connection is left as it was and no
    signal is emitted.  A well-formed one stores the user id and name, makes
    the state Authenticated and ends the reconnecting mode; exactly one
    signal is emitted: [reconnected] when the connection was reconnecting
    (the attempt counter and the match timer are then reset), and
    [authenticated] with the user id and name otherwise. *)
Theorem handle_authenticated_outcomes `{Engine} (message : Dict) (c : ShardConnection.t) :
  let r := ShardConnection._handle_authenticated message c in
  (authenticated_user message = None -> fst r = c /\ emitted (snd r) = []) /\
  (forall user : Dict, authenticated_user message = Some user ->
     let user_id := to_str (dict_get user "id" VNil) in
     let username := to_str (dict_get user "username" VNil) in
     ShardConnection._state (fst r) = ShardConnection.AUTHENTICATED /\
     ShardConnection._user_id (fst r) = user_id /\
     ShardConnection._username (fst r) = username /\
     ShardConnection._is_reconnecting (fst r) = false /\
     (ShardConnection._is_reconnecting c = true ->
        ShardConnection._reconnect_attempts (fst r) = 0 /\
        ShardConnection._match_reconnect_timer (fst r) = 0%Q /\
        emitted (snd r) = [ShardConnection.reconnected]) /\
     (ShardConnection._is_reconnecting c = false ->
        ShardConnection._reconnect_attempts (fst r) = ShardConnection._reconnect_attempts c /\
        emitted (snd r) = [ShardConnection.authenticated user_id username])).
Proof.
  cbv zeta. split; [apply handle_authenticated_malformed|].
  intros user Huser. apply authenticated_user_Some in Huser as (Huser & Hid & Hname).
  destruct (handle_authenticated_user message user c Huser Hid Hname) as [Hfst Hsnd].
  rewrite Hfst, Hsnd. destruct c. connection_cbn.
  destruct _is_reconnecting; connection_cbn.
  - split; [reflexivity|]. split; [reflexivity|]. split; [reflexivity|]. split; [reflexivity|].
    split; [intros _; split; [reflexivity|split; reflexivity]|discriminate].
  - split; [reflexivity|]. split; [reflexivity|]. split; [reflexivity|]. split; [reflexivity|].
    split; [discriminate|intros _; split; reflexivity].
Qed.


Lemma handle_authenticated_reception `{Engine} (message : Dict) (c : ShardConnection.t) :
  same_reception c (fst (ShardConnection._handle_authenticated message c)).
Proof.
  unfold same_reception, ShardConnection._handle_authenticated, ShardConnection._log,
    ShardConnection.emit.
  destruct (message !! "user") as [[]|]; try (split; [|split]; reflexivity).
  destruct (dict_has d "id"), (dict_has d "username"); cbn [negb orb];
    try (split; [|split]; reflexivity).
  destruct c. autorewrite with action. connection_cbn.
  destruct _is_reconnecting; autorewrite with action; connection_cbn;
    (split; [|split]; reflexivity).
Qed.

Lemma handle_pong_reception (now : Z) (message : Dict) (c : ShardConnection.t) :
  same_reception c (fst (ShardConnection._handle_pong now message c)).
Proof.
  unfold same_reception, ShardConnection._handle_pong, ShardConnection._log,
    ShardConnection.emit, when.
  destruct c. autorewrite with action. connection_cbn.
  match goal with
  | |- context [Nat.ltb ?a ?b] => destruct (Nat.ltb a b)
  end; autorewrite with action; connection_cbn; (split; [|split]; reflexivity).
Qed.

Lemma process_packet_reception `{Engine} (now : Z) (data : string) (c : ShardConnection.t) :
  let c' := fst (ShardConnection._process_packet now data c) in
  ShardConnection._messages_received c' = ShardConnection._messages_received c + 1 /\
  ShardConnection._bytes_received c' = ShardConnection._bytes_received c + utf8_size data /\
  ShardConnection._ws c' = ShardConnection._ws c.
Proof.
  cbv zeta. unfold ShardConnection._process_packet.
  rewrite !fst_seq, !fst_modify.
  set (c1 := ShardConnection.set_bytes_received _ _).
  assert (Hc1 : ShardConnection._messages_received c1
                  = ShardConnection._messages_received c + 1 /\
                ShardConnection._bytes_received c1
                  = ShardConnection._bytes_received c + utf8_size data /\
                ShardConnection._ws c1 = ShardConnection._ws c)
    by (unfold c1; destruct c; split; [|split]; reflexivity).
  assert (Hlog : forall format args, fst (ShardConnection._log format args c1) = c1)
    by reflexivity.
  rewrite Hlog.
  assert (Hrest : same_reception c1
            (fst (match json_parse data with
                  | Some (VDict message) =>
                      match message !! "type" with
                      | Some ty =>
                          if variant_eq_str ty ShardProtocol.MSG_AUTHENTICATED
                          then ShardConnection._handle_authenticated message
                          else if variant_eq_str ty ShardProtocol.MSG_PONG
                               then ShardConnection._handle_pong now message
                               else ShardConnection.emit
                                      (ShardConnection.message_received message)
                      | None => ShardConnection._log "Message missing 'type' field" []
                      end
                  | Some _ =>
                      ShardConnection._log "Invalid message format - expected Dictionary" []
                  | None => ShardConnection._log "Failed to parse JSON: %s" []
                  end c1))).
  { destruct (json_parse data) as [[]|]; try (split; [|split]; reflexivity).
    destruct (d !! "type") as [ty|]; [|split; [|split]; reflexivity].
    destruct (variant_eq_str ty ShardProtocol.MSG_AUTHENTICATED);
      [apply handle_authenticated_reception|].
    destruct (variant_eq_str ty ShardProtocol.MSG_PONG);
      [apply handle_pong_reception|].
    split; [|split]; reflexivity. }
  destruct Hrest as (H1 & H2 & H3), Hc1 as (H4 & H5 & H6).
  rewrite H1, H2, H3. auto.
Qed.


(** X3.  Reception is counted per frame, before the frame is looked at:
    processing the pending frames raises the received-message counter by
    their number and the received-byte counter by their sizes, whether a
    frame parses or not and whichever handler takes it; the handlers leave
    the socket alone. *)
Theorem process_packets_counts `{Engine} (now : Z) (pending : list string)
    (c : ShardConnection.t) :
  let c' := fst (ShardConnection._process_packets now pending c) in
  ShardConnection._messages_received c' =
    ShardConnection._messages_received c + Z.of_nat (length pending) /\
  ShardConnection._bytes_received c' =
    ShardConnection._bytes_received c + frames_size pending /\
  ShardConnection._ws c' = ShardConnection._ws c.
Proof.
  cbv zeta. revert c. induction pending as [|data rest IH]; intros c.
  - cbn [ShardConnection._process_packets length frames_size foldr Z.of_nat].
    rewrite fst_skip, !Z.add_0_r. auto.
  - cbn [ShardConnection._process_packets]. rewrite fst_seq.
    destruct (IH (fst (ShardConnection._process_packet now data c))) as (H1 & H2 & H3).
    destruct (process_packet_reception now data c) as (H4 & H5 & H6).
    rewrite H1, H2, H3, H4, H5, H6.
    cbn [frames_size foldr length]. fold (frames_size rest).
    split; [lia|]. split; [lia|reflexivity].
Qed.

Lemma handle_authenticated_outcomes_witness :
  let r := ShardConnection._handle_authenticated (H := reference_engine)
             authenticated_message connected_connection in
  ShardConnection._state (fst r) = ShardConnection.AUTHENTICATED /\
  emitted (snd r) = [ShardConnection.authenticated "42" "alice"].
Proof.
  destruct (proj2 (handle_authenticated_outcomes (H := reference_engine)
                     authenticated_message connected_connection)
                  sample_user eq_refl) as (Hstate & _ & _ & _ & _ & Hplain).
  split; [exact Hstate|]. exact (proj2 (Hplain eq_refl)).
Defined.

Lemma send_message_state `{Engine} (message : Dict) (c : ShardConnection.t) :
  exists (ws : option ShardConnection.WebSocketPeer) (sent bytes : Z),
    fst (ShardConnection.send_message message c) =
      ShardConnection.set_bytes_sent bytes
        (ShardConnection.set_messages_sent sent (ShardConnection.set_ws ws c)) /\
    emitted (snd (ShardConnection.send_message message c)) = [].
Proof.
  unfold ShardConnection.send_message, ShardConnection._log.
  destruct (ShardConnection.State_value (ShardConnection._state c) <?
            ShardConnection.State_value ShardConnection.CONNECTED).
  - exists (ShardConnection._ws c), (ShardConnection._messages_sent c),
      (ShardConnection._bytes_sent c).
    destruct c, debug_logging; split; reflexivity.
  - destruct (ShardConnection._ws c) as [ws|] eqn:Hws.
    + eexists _, _, _. rewrite !fst_seq, !snd_seq, !fst_modify, !snd_modify.
      split; [reflexivity|].
      cbn [fst snd app]. destruct (ShardConnection.debug_logging _); reflexivity.
    + exists None, (ShardConnection._messages_sent c), (ShardConnection._bytes_sent c).
      destruct c. connection_cbn_in Hws. subst. split; reflexivity.
Qed.

Lemma send_ping_state `{Engine} (now : Z) (c : ShardConnection.t) :
  exists (ws : option ShardConnection.WebSocketPeer) (sent bytes : Z),
    fst (ShardConnection._send_ping now c) =
      ShardConnection.set_bytes_sent bytes
        (ShardConnection.set_messages_sent sent
           (ShardConnection.set_ws ws (ShardConnection.set_ping_sent_time now c))) /\
    emitted (snd (ShardConnection._send_ping now c)) = [].
Proof.
  unfold ShardConnection._send_ping.
  rewrite !fst_seq, !snd_seq, !fst_modify, !snd_modify, !emitted_app.
  match goal with
  | |- context [ShardConnection.send_message ?m ?c0] =>
      destruct (send_message_state m c0) as (ws & sent & bytes & Hfst & Hsnd)
  end.
  exists ws, sent, bytes. rewrite Hsnd, Hfst. unfold ShardConnection._log.
  cbn [fst snd app emitted]. split; [reflexivity|].
  destruct (ShardConnection.debug_logging _); reflexivity.
Qed.

Lemma send_ping_sent_time `{Engine} (now : Z) (c : ShardConnection.t) :
  ShardConnection._ping_sent_time (fst (ShardConnection._send_ping now c)) = now /\
  ShardConnection._latency_buffer (fst (ShardConnection._send_ping now c))
    = ShardConnection._latency_buffer c /\
  emitted (snd (ShardConnection._send_ping now c)) = [].
Proof.
  destruct (send_ping_state now c) as (ws & sent & bytes & Hfst & Hsnd).
  rewrite Hfst, Hsnd. destruct c. repeat split; reflexivity.
Qed.

Lemma last_tail_snoc {A : Type} (l : list A) (x : A) :
  (1 < length (l ++ [x]))%nat -> last (tail (l ++ [x])) = Some x.
Proof.
  destruct l as [|y l]; cbn [app length tail]; [lia|]. intros _. apply last_snoc.
Qed.

(** X4.  The latency sample is the round trip of the ping: when a ping is
    sent at time [t0] and the next pong is handled at time [t1], the current
    latency is [t1 - t0], that value is the newest sample of the ring, and
    the only signal emitted is [latency_updated (t1 - t0)]; the content of
    the pong message is not read. *)
Theorem ping_pong_round_trip `{Engine} (t0 t1 : Z) (pong : Dict) (c : ShardConnection.t) :
  let pinged := ShardConnection._send_ping t0 c in
  let r := ShardConnection._handle_pong t1 pong (fst pinged) in
  emitted (snd pinged) = [] /\
  ShardConnection.get_latency (fst r) = t1 - t0 /\
  last (ShardConnection._latency_buffer (fst r)) = Some (t1 - t0) /\
  emitted (snd r) = [ShardConnection.latency_updated (t1 - t0)].
Proof.
  cbv zeta. destruct (send_ping_sent_time t0 c) as (Htime & Hbuffer & Hemit).
  destruct (handle_pong_buffer t1 pong (fst (ShardConnection._send_ping t0 c)))
    as (Hring & Hlatency & Hsignal).
  cbv zeta in Hring, Hlatency, Hsignal. rewrite Htime in Hring, Hlatency, Hsignal.
  split; [exact Hemit|]. split; [exact Hlatency|]. split; [|exact Hsignal].
  rewrite Hring.
  destruct (Nat.ltb_spec 5 (length (ShardConnection._latency_buffer
                                      (fst (ShardConnection._send_ping t0 c)) ++ [t1 - t0])))
    as [Hlong|Hshort].
  - apply last_tail_snoc. lia.
  - apply last_snoc.
Qed.

(** X5.  [disconnect_from_server] leaves nothing of the session behind: the
    state is Disconnected, the reconnecting mode, the attempt counter, the
    match flag, the user info and the latency samples are cleared, the socket
    is asked to close and no signal is emitted.  The token stays stored. *)
Theorem disconnect_from_server_clears
    (closing : ShardConnection.WebSocketPeer -> ShardConnection.WebSocketPeer)
    (c : ShardConnection.t) :
  let r := ShardConnection.disconnect_from_server closing c in
  idle (fst r) /\
  emitted (snd r) = [] /\
  ShardConnection._reconnect_attempts (fst r) = 0 /\
  ShardConnection._in_match (fst r) = false /\
  ShardConnection._was_authenticated (fst r) = false /\
  ShardConnection._user_id (fst r) = "" /\
  ShardConnection._username (fst r) = "" /\
  ShardConnection._latency_buffer (fst r) = [] /\
  ShardConnection.get_average_latency (fst r) = 0 /\
  ShardConnection._current_latency (fst r) = 0 /\
  ShardConnection._ws (fst r) = closing <$> ShardConnection._ws c /\
  ShardConnection._token (fst r) = ShardConnection._token c.
Proof.
  cbv zeta. unfold ShardConnection.disconnect_from_server, ShardConnection._clear_user_info,
    ShardConnection._log, idle.
  destruct c. destruct _ws, debug_logging;
    repeat (autorewrite with action; connection_cbn);
    repeat (split; try reflexivity).
Qed.

(** X6.  A connection that is Disconnected and not reconnecting stays
    silent: as long as the transport does not report the socket open, a
    [poll] emits nothing, prints nothing, attempts no reconnection and sends
    no ping; the only thing that changes is the socket object, by what the
    transport did to it. *)
Theorem poll_idle `{Engine} (delta : Q) (now : Z)
    (transport : ShardConnection.WebSocketPeer -> ShardConnection.WebSocketPeer)
    (connect_err : Z) (c : ShardConnection.t) :
  idle c ->
  (forall ws, ShardConnection._ws c = Some ws ->
     ShardConnection.ready_state (transport ws) <> ShardConnection.STATE_OPEN) ->
  ShardConnection.poll delta now transport connect_err c =
    (ShardConnection.set_ws (transport <$> ShardConnection._ws c) c, []).
Proof.
  intros [Hstate Hrec] Hclosed. unfold ShardConnection.poll, when.
  destruct c. connection_cbn_in Hstate. connection_cbn_in Hrec. subst.
  destruct _ws as [ws|].
  - specialize (Hclosed ws eq_refl). connection_cbn.
    destruct (ShardConnection.ready_state (transport ws)) eqn:Hready;
      [|contradiction| |];
      unfold seq, modify, skip; connection_cbn; rewrite ?Hready; connection_cbn;
      rewrite ?andb_false_r; reflexivity.
  - unfold seq, modify, skip; connection_cbn. rewrite ?andb_false_r. reflexivity.
Qed.

Lemma poll_idle_witness :
  ShardConnection.poll (H := reference_engine) 1 0 (fun _ => socket_closed_1006) 0
    (fst (ShardConnection.disconnect_from_server (fun ws => ws) authenticated_connection)) =
  (ShardConnection.set_ws (Some socket_closed_1006)
     (fst (ShardConnection.disconnect_from_server (fun ws => ws) authenticated_connection)),
   []).
Proof.
  apply (poll_idle (H := reference_engine) 1 0 (fun _ => socket_closed_1006) 0
           (fst (ShardConnection.disconnect_from_server (fun ws => ws)
                   authenticated_connection))).
  - split; reflexivity.
  - intros ws _. simpl. discriminate.
Defined.

Lemma reconnect_starts (c : ShardConnection.t) :
  ShardConnection._state c = ShardConnection.DISCONNECTED ->
  str_is_empty (ShardConnection._token c) = false ->
  let c0 := ShardConnection.set_reconnect_attempts 0
              (ShardConnection.set_is_reconnecting true c) in
  fst (ShardConnection.reconnect c) = fst (ShardConnection._start_reconnection c0) /\
  snd (ShardConnection.reconnect c) = snd (ShardConnection._start_reconnection c0).
Proof.
  intros Hstate Htoken. cbv zeta. unfold ShardConnection.reconnect. rewrite Hstate, Htoken.
  cbn [ShardConnection.State_eqb ShardConnection.State_value Z.eqb negb].
  autorewrite with action. split; reflexivity.
Qed.

(** X7.  The manual [reconnect] acts only on a Disconnected connection, and
    changes nothing otherwise.  Without a stored token it emits
    [reconnection_failed] and changes nothing.  With a token it enters the
    reconnecting mode with the attempt counter at 0 and the first attempt
    scheduled after [min(reconnect_delay, 30)] seconds, and emits nothing;
    the state stays Disconnected until the attempt is made. *)
Theorem reconnect_outcomes (c : ShardConnection.t) :
  let r := ShardConnection.reconnect c in
  (ShardConnection._state c <> ShardConnection.DISCONNECTED ->
     fst r = c /\ emitted (snd r) = []) /\
  (ShardConnection._state c = ShardConnection.DISCONNECTED ->
   str_is_empty (ShardConnection._token c) = true ->
     fst r = c /\ emitted (snd r) = [ShardConnection.reconnection_failed]) /\
  (ShardConnection._state c = ShardConnection.DISCONNECTED ->
   str_is_empty (ShardConnection._token c) = false ->
     ShardConnection._is_reconnecting (fst r) = true /\
     ShardConnection._reconnect_attempts (fst r) = 0 /\
     (ShardConnection._reconnect_timer (fst r) ==
      Qmin (ShardConnection.reconnect_delay c) 30)%Q /\
     ShardConnection._state (fst r) = ShardConnection.DISCONNECTED /\
     emitted (snd r) = []).
Proof.
  cbv zeta. split; [|split].
  - intros Hstate. unfold ShardConnection.reconnect, ShardConnection._log.
    destruct (ShardConnection._state c); [contradiction|..];
      cbn [ShardConnection.State_eqb ShardConnection.State_value Z.eqb negb];
      destruct (ShardConnection.debug_logging c); split; reflexivity.
  - intros Hstate Htoken. unfold ShardConnection.reconnect, ShardConnection._log,
      ShardConnection.emit.
    rewrite Hstate, Htoken.
    cbn [ShardConnection.State_eqb ShardConnection.State_value Z.eqb negb].
    autorewrite with action. cbn [fst snd app].
    destruct (ShardConnection.debug_logging c); split; reflexivity.
  - intros Hstate Htoken. destruct (reconnect_starts c Hstate Htoken) as [Hfst Hsnd].
    cbv zeta in Hfst, Hsnd. rewrite Hfst, Hsnd.
    set (c0 := ShardConnection.set_reconnect_attempts 0
                 (ShardConnection.set_is_reconnecting true c)).
    assert (Htoken0 : str_is_empty (ShardConnection._token c0) = false)
      by (unfold c0; destruct c; exact Htoken).
    destruct (start_reconnection_state c0 Htoken0)
      as (Hrec & Hn & _ & Htimer & _ & _ & Hemit).
    assert (Hkept : ShardConnection._state (fst (ShardConnection._start_reconnection c0))
                    = ShardConnection.DISCONNECTED).
    { unfold ShardConnection._start_reconnection, ShardConnection._schedule_reconnect,
        ShardConnection._log.
      rewrite Htoken0. unfold c0. destruct c. connection_cbn_in Hstate. subst.
      repeat (autorewrite with action; connection_cbn). reflexivity. }
    rewrite Hrec, Hn, Htimer, Hemit, Hkept, minf_Qmin, (pow2_inject 0) by lia.
    assert (Hdelay : ShardConnection.reconnect_delay c0 = ShardConnection.reconnect_delay c)
      by (unfold c0; destruct c; reflexivity).
    rewrite Hdelay. change (inject_Z (2 ^ 0)) with 1%Q. rewrite Qmult_1_r.
    repeat split; reflexivity.
Qed.

Lemma reconnect_outcomes_witness :
  ShardConnection._is_reconnecting (fst (ShardConnection.reconnect dropped_connection)) = true /\
  emitted (snd (ShardConnection.reconnect ShardConnection.init))
    = [ShardConnection.reconnection_failed] /\
  fst (ShardConnection.reconnect authenticated_connection) = authenticated_connection.
Proof.
  split; [|split].
  - apply (proj2 (proj2 (reconnect_outcomes dropped_connection)) eq_refl eq_refl).
  - apply (proj1 (proj2 (reconnect_outcomes ShardConnection.init)) eq_refl eq_refl).
  - apply (proj1 (reconnect_outcomes authenticated_connection)). discriminate.
Defined.

(** X8.  While the connection is reconnecting, Disconnected, and its next
    attempt is not due in this frame, [poll] runs the match timer: in a match
    the timer advances by [delta], and once it reaches 60 seconds the
    reconnection is abandoned (the reconnecting mode and the match flag are
    cleared and [reconnection_failed] is emitted, once); outside a match the
    timer does not advance and nothing is emitted. *)
Theorem poll_match_timeout `{Engine} (delta : Q) (now : Z)
    (transport : ShardConnection.WebSocketPeer -> ShardConnection.WebSocketPeer)
    (connect_err : Z) (c : ShardConnection.t) :
  ShardConnection._is_reconnecting c = true ->
  ShardConnection._state c = ShardConnection.DISCONNECTED ->
  (forall ws, ShardConnection._ws c = Some ws ->
     ShardConnection.ready_state (transport ws) <> ShardConnection.STATE_OPEN) ->
  (0 < ShardConnection._reconnect_timer c - delta)%Q ->
  let r := ShardConnection.poll delta now transport connect_err c in
  let waited := (ShardConnection._match_reconnect_timer c + delta)%Q in
  ShardConnection._reconnect_attempts (fst r) = ShardConnection._reconnect_attempts c /\
  (ShardConnection._in_match c = true -> (60 <= waited)%Q ->
     ShardConnection._is_reconnecting (fst r) = false /\
     ShardConnection._in_match (fst r) = false /\
     emitted (snd r) = [ShardConnection.reconnection_failed]) /\
  (ShardConnection._in_match c = true -> (waited < 60)%Q ->
     ShardConnection._is_reconnecting (fst r) = true /\
     ShardConnection._in_match (fst r) = true /\
     ShardConnection._match_reconnect_timer (fst r) = waited /\
     emitted (snd r) = []) /\
  (ShardConnection._in_match c = false ->
     ShardConnection._is_reconnecting (fst r) = true /\
     ShardConnection._match_reconnect_timer (fst r)
       = ShardConnection._match_reconnect_timer c /\
     emitted (snd r) = []).
Proof.
  intros Hrec Hstate Hclosed Hdue. cbv zeta.
  assert (Hnot_due : Qle_bool (ShardConnection._reconnect_timer c - delta) 0 = false).
  { destruct (Qle_bool _ 0) eqn:Hle; [|reflexivity].
    apply Qle_bool_iff in Hle. exfalso. apply (Qlt_not_le _ _ Hdue Hle). }
  clear Hdue.
  assert (Hwait : forall waited : Q, (waited < 60)%Q -> Qle_bool 60 waited = false).
  { intros waited Hlt. destruct (Qle_bool 60 waited) eqn:Hle; [|reflexivity].
    apply Qle_bool_iff in Hle. exfalso. apply (Qlt_not_le _ _ Hlt Hle). }
  assert (Hsocket :
    forall ws, ShardConnection._ws c = Some ws ->
      ShardConnection.ready_state (transport ws) = ShardConnection.STATE_CONNECTING \/
      ShardConnection.ready_state (transport ws) = ShardConnection.STATE_CLOSING \/
      ShardConnection.ready_state (transport ws) = ShardConnection.STATE_CLOSED).
  { intros ws Hws. specialize (Hclosed ws Hws).
    destruct (ShardConnection.ready_state (transport ws)); auto. contradiction. }
  clear Hclosed.
  unfold ShardConnection.poll, when, ShardConnection.MATCH_RECONNECT_TIMEOUT,
    ShardConnection._log, ShardConnection.emit.
  destruct c. connection_cbn_in Hstate. connection_cbn_in Hrec.
  connection_cbn_in Hnot_due. connection_cbn_in Hsocket. subst.
  assert (Hfirst :
    forall ws, _ws = Some ws ->
      match ShardConnection.ready_state (transport ws) with
      | ShardConnection.STATE_OPEN => False | _ => True end).
  { intros ws Hws. destruct (Hsocket ws Hws) as [->|[->| ->]]; exact I. }
  destruct _ws as [ws|];
    [specialize (Hfirst ws eq_refl); clear Hsocket;
     destruct (ShardConnection.ready_state (transport ws)) eqn:Hready; [|contradiction| |]
    |];
    unfold seq, modify, skip, tell; connection_cbn; rewrite ?Hready; connection_cbn;
    rewrite ?Hnot_due; connection_cbn;
    destruct _in_match; connection_cbn;
    try match goal with
        | |- context [if Qle_bool 60 ?w then _ else _] => destruct (Qle_bool 60 w) eqn:Hq
        end;
    connection_cbn; destruct debug_logging; connection_cbn;
    (split; [reflexivity|]);
    (split; [intros Hm Hlong; try discriminate Hm; apply Qle_bool_iff in Hlong;
             try congruence; repeat split; reflexivity|]);
    (split; [intros Hm Hshort; try discriminate Hm; pose proof (Hwait _ Hshort);
             try congruence; repeat split; reflexivity|]);
    intros Hm; try discriminate Hm; repeat split; reflexivity.
Qed.

Lemma poll_match_timeout_witness :
  let r := ShardConnection.poll (H := reference_engine) 2 0 (fun _ => socket_closed_1006) 0
             reconnecting_in_match in
  ShardConnection._is_reconnecting (fst r) = false /\
  ShardConnection._in_match (fst r) = false /\
  emitted (snd r) = [ShardConnection.reconnection_failed].
Proof.
  assert (Hdue : (0 < ShardConnection._reconnect_timer reconnecting_in_match - 2)%Q)
    by reflexivity.
  assert (Hlong : (60 <= ShardConnection._match_reconnect_timer reconnecting_in_match + 2)%Q)
    by (vm_compute; discriminate).
  apply (proj1 (proj2 (poll_match_timeout (H := reference_engine) 2 0
                         (fun _ => socket_closed_1006) 0 reconnecting_in_match
                         eq_refl eq_refl ltac:(intros ws _; simpl; discriminate) Hdue))
               eq_refl Hlong).
Defined.

Lemma variant_eq_str_refl (s : string) : variant_eq_str (VStr s) s = true.
Proof. unfold variant_eq_str. apply bool_decide_eq_true. reflexivity. Qed.

Lemma process_packet_authenticated `{Engine} (now : Z) (data : string)
    (message user : Dict) (c : ShardConnection.t) :
  json_parse data = Some (VDict message) ->
  message !! "type" = Some (VStr ShardProtocol.MSG_AUTHENTICATED) ->
  let counted :=
    ShardConnection.set_bytes_received (ShardConnection._bytes_received c + utf8_size data)
      (ShardConnection.set_messages_received (ShardConnection._messages_received c + 1) c) in
  fst (ShardConnection._process_packet now data c)
    = fst (ShardConnection._handle_authenticated message counted) /\
  emitted (snd (ShardConnection._process_packet now data c))
    = emitted (snd (ShardConnection._handle_authenticated message counted)).
Proof.
  intros Hparse Htype. cbv zeta. unfold ShardConnection._process_packet.
  rewrite Hparse, Htype, variant_eq_str_refl. unfold ShardConnection._log.
  autorewrite with action. cbn [fst snd].
  destruct c. connection_cbn. destruct debug_logging; split; reflexivity.
Qed.

Lemma poll_blocks `{Engine} (delta : Q) (now : Z)
    (transport : ShardConnection.WebSocketPeer -> ShardConnection.WebSocketPeer)
    (connect_err : Z) :
  ShardConnection.poll delta now transport connect_err =
  (poll_socket now transport >> poll_timers delta now connect_err).
Proof. reflexivity. Qed.

Lemma poll_socket_opened `{Engine} (now : Z)
    (transport : ShardConnection.WebSocketPeer -> ShardConnection.WebSocketPeer)
    (c : ShardConnection.t) (ws : ShardConnection.WebSocketPeer) :
  ShardConnection._ws c = Some ws ->
  ShardConnection._state c = ShardConnection.CONNECTING ->
  ShardConnection.ready_state (transport ws) = ShardConnection.STATE_OPEN ->
  let drained :=
    ShardConnection.set_ws
      (Some (ShardConnection.mkPeer ShardConnection.STATE_OPEN
               (ShardConnection.close_code (transport ws)) []
               (ShardConnection.sent_text (transport ws))))
      (ShardConnection.set_state ShardConnection.CONNECTED c) in
  let pending := ShardConnection.packets (transport ws) in
  fst (poll_socket now transport c)
    = fst (ShardConnection._process_packets now pending drained) /\
  emitted (snd (poll_socket now transport c))
    = ShardConnection.connected
        :: emitted (snd (ShardConnection._process_packets now pending drained)).
Proof.
  intros Hws Hstate Hopen. cbv zeta. unfold poll_socket. rewrite Hws. cbv zeta.
  rewrite Hopen.
  unfold when, ShardConnection._on_connected, ShardConnection._process_incoming,
    ShardConnection._log, ShardConnection.emit.
  destruct (transport ws) as [ready code pending sent].
  cbn [ShardConnection.ready_state] in Hopen. subst ready.
  destruct c. connection_cbn_in Hstate. connection_cbn_in Hws. subst.
  cbn [ShardConnection.packets ShardConnection.sent_text ShardConnection.close_code].
  repeat (autorewrite with action; connection_cbn).
  cbn [ShardConnection.packets ShardConnection.sent_text ShardConnection.close_code].
  destruct debug_logging; connection_cbn; split; reflexivity.
Qed.

Lemma when_true {S E : Type} (cond : S -> bool) (body : action S E) (s : S) :
  cond s = true -> when cond body s = body s.
Proof. intros Hcond. unfold when. rewrite Hcond. reflexivity. Qed.

Lemma when_false {S E : Type} (cond : S -> bool) (body : action S E) (s : S) :
  cond s = false -> when cond body s = (s, []).
Proof. intros Hcond. unfold when. rewrite Hcond. reflexivity. Qed.

Lemma seq_eval {S E : Type} (a b : action S E) (s s1 s2 : S) (e1 e2 : list E) :
  a s = (s1, e1) -> b s1 = (s2, e2) -> (a >> b) s = (s2, e1 ++ e2).
Proof. intros Ha Hb. unfold seq. rewrite Ha, Hb. reflexivity. Qed.

Lemma send_ping_frame `{Engine} (now : Z) (c : ShardConnection.t) :
  let c' := fst (ShardConnection._send_ping now c) in
  ShardConnection._state c' = ShardConnection._state c /\
  ShardConnection._is_reconnecting c' = ShardConnection._is_reconnecting c /\
  ShardConnection._user_id c' = ShardConnection._user_id c /\
  ShardConnection._username c' = ShardConnection._username c /\
  ShardConnection._token c' = ShardConnection._token c /\
  ShardConnection._messages_received c' = ShardConnection._messages_received c /\
  ShardConnection._in_match c' = ShardConnection._in_match c.
Proof.
  cbv zeta. destruct (send_ping_state now c) as (ws & sent & bytes & Hfst & _).
  rewrite Hfst. destruct c. repeat split; reflexivity.
Qed.

Lemma poll_timers_authenticated `{Engine} (delta : Q) (now : Z) (connect_err : Z)
    (c : ShardConnection.t) :
  ShardConnection._state c = ShardConnection.AUTHENTICATED ->
  ShardConnection._is_reconnecting c = false ->
  let r := poll_timers delta now connect_err c in
  emitted (snd r) = [] /\
  ShardConnection._state (fst r) = ShardConnection.AUTHENTICATED /\
  ShardConnection._is_reconnecting (fst r) = false /\
  ShardConnection._user_id (fst r) = ShardConnection._user_id c /\
  ShardConnection._username (fst r) = ShardConnection._username c /\
  ShardConnection._token (fst r) = ShardConnection._token c /\
  ShardConnection._messages_received (fst r) = ShardConnection._messages_received c.
Proof.
  intros Hstate Hrec. cbv zeta.
  set (timed := ShardConnection.set_ping_timer (ShardConnection._ping_timer c + delta) c).
  assert (Htimed : ShardConnection._state timed = ShardConnection._state c /\
                   ShardConnection._is_reconnecting timed = ShardConnection._is_reconnecting c /\
                   ShardConnection._user_id timed = ShardConnection._user_id c /\
                   ShardConnection._username timed = ShardConnection._username c /\
                   ShardConnection._token timed = ShardConnection._token c /\
                   ShardConnection._messages_received timed
                     = ShardConnection._messages_received c)
    by (unfold timed; destruct c; repeat split; reflexivity).
  destruct Htimed as (Hs' & Hr' & Hu' & Hn' & Ht' & Hm').
  destruct (send_ping_frame now timed) as (Hs & Hr & Hu & Hn & Ht & Hm & _).
  destruct (send_ping_sent_time now timed) as (_ & _ & Hquiet).
  set (pinged := ShardConnection.set_ping_timer 0
                   (fst (ShardConnection._send_ping now timed))).
  assert (Hpinged : ShardConnection._state pinged = ShardConnection._state c /\
                    ShardConnection._is_reconnecting pinged
                      = ShardConnection._is_reconnecting c /\
                    ShardConnection._user_id pinged = ShardConnection._user_id c /\
                    ShardConnection._username pinged = ShardConnection._username c /\
                    ShardConnection._token pinged = ShardConnection._token c /\
                    ShardConnection._messages_received pinged
                      = ShardConnection._messages_received c).
  { rewrite <- Hs', <- Hr', <- Hu', <- Hn', <- Ht', <- Hm'.
    rewrite <- Hs, <- Hr, <- Hu, <- Hn, <- Ht, <- Hm.
    unfold pinged. destruct (fst (ShardConnection._send_ping now timed)).
    repeat split; reflexivity. }
  destruct Hpinged as (Hs2 & Hr2 & Hu2 & Hn2 & Ht2 & Hm2).
  destruct (Qle_bool ShardConnection.PING_INTERVAL (ShardConnection._ping_timer timed))
    eqn:Hdue.
  - assert (Hrun : poll_timers delta now connect_err c =
                   (pinged, [] ++ ([] ++ snd (ShardConnection._send_ping now timed) ++ [])
                            ++ [])).
    { unfold poll_timers. eapply seq_eval; [|eapply seq_eval].
      - apply when_false. rewrite Hrec. reflexivity.
      - rewrite when_true by (rewrite Hstate; reflexivity).
        eapply seq_eval; [reflexivity|]. fold timed.
        rewrite when_true by exact Hdue.
        eapply seq_eval; [apply surjective_pairing|reflexivity].
      - apply when_false. rewrite Hr2, Hrec. apply andb_false_r. }
    rewrite Hrun. cbn [fst snd app]. rewrite !app_nil_r, Hquiet.
    rewrite Hs2, Hr2, Hu2, Hn2, Ht2, Hm2, Hstate, Hrec. repeat split; reflexivity.
  - assert (Hrun : poll_timers delta now connect_err c = (timed, [] ++ ([] ++ []) ++ [])).
    { unfold poll_timers. eapply seq_eval; [|eapply seq_eval].
      - apply when_false. rewrite Hrec. reflexivity.
      - rewrite when_true by (rewrite Hstate; reflexivity).
        eapply seq_eval; [reflexivity|]. fold timed.
        apply when_false. exact Hdue.
      - apply when_false. rewrite Hr', Hrec. apply andb_false_r. }
    rewrite Hrun. cbn [fst snd app].
    rewrite Hs', Hr', Hu', Hn', Ht', Hm', Hstate, Hrec. repeat split; reflexivity.
Qed.

(** X9.  The handshake.  After [connect_to_server] on a Disconnected
    connection, the first [poll] that finds the socket open with one frame
    pending, an [authenticated] message with a well-formed [user], makes the
    state Authenticated, stores the user id and name, and emits exactly
    [connected] and then [authenticated]; it does not count as a
    reconnection, and the frame is counted as received. *)
Theorem handshake `{Engine} (token : string) (delta : Q) (now : Z)
    (transport : ShardConnection.WebSocketPeer -> ShardConnection.WebSocketPeer)
    (connect_err : Z) (data : string) (message user : Dict) (c : ShardConnection.t) :
  ShardConnection._state c = ShardConnection.DISCONNECTED ->
  let socket := transport (ShardConnection.mkPeer ShardConnection.STATE_CONNECTING 0 [] []) in
  ShardConnection.ready_state socket = ShardConnection.STATE_OPEN ->
  ShardConnection.packets socket = [data] ->
  json_parse data = Some (VDict message) ->
  message !! "type" = Some (VStr "authenticated") ->
  authenticated_user message = Some user ->
  let c1 := fst (ShardConnection.connect_to_server ShardConnection.OK token c) in
  let r := ShardConnection.poll delta now transport connect_err c1 in
  let user_id := to_str (dict_get user "id" VNil) in
  let username := to_str (dict_get user "username" VNil) in
  ShardConnection._state (fst r) = ShardConnection.AUTHENTICATED /\
  ShardConnection._user_id (fst r) = user_id /\
  ShardConnection._username (fst r) = username /\
  ShardConnection._token (fst r) = token /\
  ShardConnection._is_reconnecting (fst r) = false /\
  ShardConnection._messages_received (fst r) = ShardConnection._messages_received c + 1 /\
  emitted (snd r) =
    [ShardConnection.connected; ShardConnection.authenticated user_id username].
Proof.
  intros Hstate socket Hopen Hpending Hparse Htype Huser. cbv zeta.
  apply authenticated_user_Some in Huser as (Huser & Hid & Hname).
  destruct (connect_to_server_idle ShardConnection.OK token c Hstate) as [Hc1 _].
  cbv zeta in Hc1. rewrite Hc1. clear Hc1.
  change (ShardConnection.OK =? ShardConnection.OK) with true. cbv iota.
  unfold ShardConnection.connect_to_url.
  change (ShardConnection.OK =? ShardConnection.OK) with true. cbv iota.
  set (c1 := ShardConnection.set_ws _ _).
  rewrite poll_blocks, fst_seq, snd_seq, emitted_app.
  destruct (poll_socket_opened now transport c1
              (ShardConnection.mkPeer ShardConnection.STATE_CONNECTING 0 [] []))
    as [Hfst Hsnd]; [unfold c1; destruct c; reflexivity..|exact Hopen|].
  cbv zeta in Hfst, Hsnd. fold socket in Hfst, Hsnd. rewrite Hpending in Hfst, Hsnd.
  cbn [ShardConnection._process_packets] in Hfst, Hsnd.
  rewrite fst_seq, fst_skip in Hfst. rewrite snd_seq, snd_skip, app_nil_r in Hsnd.
  set (drained := ShardConnection.set_ws _ (ShardConnection.set_state _ c1)) in Hfst, Hsnd.
  destruct (process_packet_authenticated now data message user drained Hparse Htype)
    as [Hp1 Hp2].
  cbv zeta in Hp1, Hp2. rewrite Hp1 in Hfst. rewrite Hp2 in Hsnd. clear Hp1 Hp2.
  set (counted := ShardConnection.set_bytes_received _ _) in Hfst, Hsnd.
  destruct (handle_authenticated_user message user counted Huser Hid Hname) as [Ha1 Ha2].
  cbv zeta in Ha1, Ha2.
  assert (Hplain : ShardConnection._is_reconnecting counted = false)
    by (unfold counted, drained, c1; destruct c; reflexivity).
  rewrite Hplain in Ha1, Ha2. rewrite Ha1 in Hfst. rewrite Ha2 in Hsnd. clear Ha1 Ha2.
  rewrite Hfst, Hsnd. clear Hfst Hsnd.
  set (authed := ShardConnection.set_state ShardConnection.AUTHENTICATED _).
  destruct (poll_timers_authenticated delta now connect_err authed)
    as (Hquiet & Hs & Hr & Hu & Hn & Ht & Hm);
    [unfold authed; destruct counted; reflexivity
    |unfold authed; destruct counted eqn:Hcounted; connection_cbn;
     rewrite <- Hplain; reflexivity|].
  rewrite Hquiet, Hs, Hr, Hu, Hn, Ht, Hm.
  unfold authed, counted, drained, c1. destruct c. connection_cbn. repeat split; reflexivity.
Qed.

Lemma handshake_witness :
  let c1 := fst (ShardConnection.connect_to_server ShardConnection.OK "token"
                   ShardConnection.init) in
  let r := ShardConnection.poll (H := scripted_engine) 1 0 (fun _ => socket_with_welcome) 0 c1 in
  ShardConnection._state (fst r) = ShardConnection.AUTHENTICATED /\
  emitted (snd r) = [ShardConnection.connected; ShardConnection.authenticated "42" "alice"].
Proof.
  destruct (handshake (H := scripted_engine) "token" 1 0 (fun _ => socket_with_welcome) 0
              "welcome" authenticated_message sample_user ShardConnection.init
              eq_refl eq_refl eq_refl eq_refl eq_refl eq_refl)
    as (Hstate & _ & _ & _ & _ & _ & Hemit).
  split; [exact Hstate|exact Hemit].
Defined.

(** ** Lobby *)

Lemma last_peer_snoc (flag : Z * ShardLobby.player * variant -> bool)
    (entries : list (Z * ShardLobby.player * variant)) (e : Z * ShardLobby.player * variant)
    (default : Z) :
  last_peer flag (entries ++ [e]) default =
  if flag e then e.1.1 else last_peer flag entries default.
Proof.
  unfold last_peer. rewrite filter_app.
  destruct (flag e) eqn:Hflag.
  - rewrite (filter_cons_True (fun e => flag e = true) e []) by exact Hflag.
    rewrite filter_nil, last_snoc. reflexivity.
  - rewrite (filter_cons_False (fun e => flag e = true) e [])
      by (rewrite Hflag; discriminate).
    rewrite filter_nil, app_nil_r. reflexivity.
Qed.

Lemma parse_player_entry `{Engine} (l : ShardLobby.t) (p : variant) :
  ShardLobby._parse_player l p =
  match player_entry p with
  | Some e =>
      let l1 := ShardLobby.set_players (<[e.1.1 := e.1.2]> (ShardLobby._players l)) l in
      let l2 := if flagged_host e then ShardLobby.set_host_peer_id e.1.1 l1 else l1 in
      if flagged_self e then ShardLobby.set_my_peer_id e.1.1 l2 else l2
  | None => l
  end.
Proof.
  unfold ShardLobby._parse_player, player_entry.
  destruct p as [| | | | | |d]; try reflexivity.
  destruct (dict_has d "peer_id"), (dict_has d "username"); reflexivity.
Qed.

Lemma fold_parse_player `{Engine} (players_array : list variant) (l : ShardLobby.t) :
  let l' := fold_left ShardLobby._parse_player players_array l in
  ShardLobby._players l' = payload_roster players_array ∪ ShardLobby._players l /\
  ShardLobby._host_peer_id l' =
    last_peer flagged_host (player_entries players_array) (ShardLobby._host_peer_id l) /\
  ShardLobby._my_peer_id l' =
    last_peer flagged_self (player_entries players_array) (ShardLobby._my_peer_id l) /\
  ShardLobby._lobby_code l' = ShardLobby._lobby_code l /\
  ShardLobby._debug_logging l' = ShardLobby._debug_logging l.
Proof.
  cbv zeta. induction players_array as [|p rest IH] using rev_ind.
  - unfold payload_roster, player_entries, last_peer. cbn.
    rewrite (left_id_L ∅ (∪)). repeat split; reflexivity.
  - rewrite fold_left_app. cbn [fold_left].
    destruct IH as (Hplayers & Hhost & Hself & Hcode & Hdebug).
    rewrite parse_player_entry.
    unfold payload_roster, player_entries in *. rewrite omap_app. cbn [omap list_omap].
    destruct (player_entry p) as [e|].
    + cbv zeta. rewrite !last_peer_snoc. rewrite fmap_app, reverse_app. cbn [fmap list_fmap].
      cbn [reverse rev_append app list_to_map foldr].
      rewrite <- Hhost, <- Hself, <- Hcode, <- Hdebug.
      rewrite <- insert_union_l, <- Hplayers.
      destruct (fold_left ShardLobby._parse_player rest l).
      destruct (flagged_host e), (flagged_self e); repeat split; reflexivity.
    + rewrite !app_nil_r. repeat split; assumption.
Qed.

Lemma parse_players_array `{Engine} (players_array : list variant) (l : ShardLobby.t) :
  let l' := fst (ShardLobby._parse_players (VArray players_array) l) in
  l' = ShardLobby.mk (ShardLobby._lobby_code l) (payload_roster players_array)
         (last_peer flagged_self (player_entries players_array) (ShardLobby._my_peer_id l))
         (last_peer flagged_host (player_entries players_array) (-1))
         (ShardLobby._debug_logging l) /\
  emitted (snd (ShardLobby._parse_players (VArray players_array) l)) = [].
Proof.
  cbv zeta. unfold ShardLobby._parse_players, ShardLobby._log.
  rewrite !fst_seq, !snd_seq, !fst_modify, !snd_modify.
  cbn [fst snd app].
  destruct (fold_parse_player players_array
              (ShardLobby.set_host_peer_id (-1) (ShardLobby.set_players ∅ l)))
    as (Hplayers & Hhost & Hself & Hcode & Hdebug).
  cbv zeta in *.
  destruct (fold_left ShardLobby._parse_player players_array _) eqn:Hfold.
  cbn [ShardLobby._players ShardLobby._host_peer_id ShardLobby._my_peer_id
       ShardLobby._lobby_code ShardLobby._debug_logging] in *.
  subst. destruct l. cbn. rewrite (right_id_L ∅ (∪)).
  split; [reflexivity|]. destruct _debug_logging; reflexivity.
Qed.

(** X10.  A [lobby_created] or [lobby_joined] message with a code and a
    players array is claimed and replaces the lobby state by the payload:
    the code is the message's, the roster is the payload's well-formed
    entries by peer id (nothing of the old roster survives, and of two
    entries for one peer the later one counts), the host is the last entry
    flagged [is_host], or -1 when none is, and the own peer id is the last
    entry flagged [is_self], or what it was when none is.  One signal is
    emitted, carrying the code and the new roster. *)
Theorem lobby_created_roster `{Engine} (joined : bool) (message : Dict) (code : string)
    (players_array : list variant) (l : ShardLobby.t) :
  message !! "type" = Some (VStr (if joined then "lobby_joined" else "lobby_created")) ->
  message !! "lobby_code" = Some (VStr code) ->
  message !! "players" = Some (VArray players_array) ->
  let r := ShardLobby.handle_message message l in
  let l' := fst (fst r) in
  snd r = true /\
  ShardLobby._lobby_code l' = code /\
  ShardLobby._players l' = payload_roster players_array /\
  ShardLobby._host_peer_id l' = last_peer flagged_host (player_entries players_array) (-1) /\
  ShardLobby._my_peer_id l' =
    last_peer flagged_self (player_entries players_array) (ShardLobby._my_peer_id l) /\
  emitted (snd (fst r)) =
    [if joined then ShardLobby.lobby_joined code (payload_roster players_array)
     else ShardLobby.lobby_created code (payload_roster players_array)].
Proof.
  intros Htype Hcode Hplayers. cbv zeta. unfold ShardLobby.handle_message. rewrite Htype.
  assert (Hhas : dict_has message "lobby_code" = true /\ dict_has message "players" = true
                 /\ dict_get message "lobby_code" VNil = VStr code
                 /\ dict_get message "players" VNil = VArray players_array)
    by (unfold dict_has, dict_get; rewrite Hcode, Hplayers; repeat split).
  destruct Hhas as (Hh1 & Hh2 & Hg1 & Hg2).
  destruct (parse_players_array players_array (ShardLobby.set_lobby_code code l))
    as [Hparsed Hquiet].
  cbv zeta in Hparsed.
  destruct joined.
  - change (variant_eq_str (VStr "lobby_joined") ShardProtocol.MSG_LOBBY_CREATED) with false.
    change (variant_eq_str (VStr "lobby_joined") ShardProtocol.MSG_LOBBY_JOINED) with true.
    cbv iota. cbn [fst snd].
    unfold ShardLobby._handle_lobby_joined, ShardLobby._log, ShardLobby.emit_signal.
    rewrite Hh1, Hh2, Hg1, Hg2. cbn [negb as_String].
    rewrite !fst_seq, !snd_seq, !fst_modify, !snd_modify, !emitted_app.
    rewrite Hparsed, Hquiet. destruct l. cbn.
    destruct _debug_logging; repeat split; reflexivity.
  - change (variant_eq_str (VStr "lobby_created") ShardProtocol.MSG_LOBBY_CREATED) with true.
    cbv iota. cbn [fst snd].
    unfold ShardLobby._handle_lobby_created, ShardLobby._log, ShardLobby.emit_signal.
    rewrite Hh1, Hh2, Hg1, Hg2. cbn [negb as_String].
    rewrite !fst_seq, !snd_seq, !fst_modify, !snd_modify, !emitted_app.
    rewrite Hparsed, Hquiet. destruct l. cbn.
    destruct _debug_logging; repeat split; reflexivity.
Qed.

Lemma lobby_created_roster_witness :
  let r := ShardLobby.handle_message (H := reference_engine) lobby_created_message lobby_AB12 in
  ShardLobby._players (fst (fst r)) =
    <[2 := ShardLobby.mkPlayer "bob" (VBool false)]>
      (<[1 := ShardLobby.mkPlayer "alice" (VBool true)]> ∅) /\
  ShardLobby._host_peer_id (fst (fst r)) = 1 /\
  ShardLobby._my_peer_id (fst (fst r)) = 2.
Proof.
  destruct (lobby_created_roster (H := reference_engine) false lobby_created_message "AB12"
              [roster_player 1 "alice" true false;
               VDict (<["username" := VStr "ghost"]> ∅);
               roster_player 2 "bob" false true]
              lobby_AB12 eq_refl eq_refl eq_refl)
    as (_ & _ & Hplayers & Hhost & Hself & _).
  split; [rewrite Hplayers; reflexivity|].
  split; [rewrite Hhost; reflexivity|rewrite Hself; reflexivity].
Defined.

(** X11.  [create_lobby] and [join_lobby] only ask: neither changes the
    lobby object, whose state changes when the server answers.  Without an
    Authenticated connection nothing is sent and nothing is emitted.
    [join_lobby] with an empty code sends nothing and reports the error
    itself, with one [lobby_error] signal carrying the code
    [invalid_lobby_code]; with a code it hands the join message, code
    included, to the connection and emits nothing. *)
Theorem lobby_requests `{Engine} (now : Z) (connection : option ShardConnection.t)
    (lobby_code : string) (l : ShardLobby.t) :
  let created := ShardLobby.create_lobby now connection l in
  let joined := ShardLobby.join_lobby now connection lobby_code l in
  handler created = l /\ handler joined = l /\ emitted (effects created) = [] /\
  (connection_authenticated connection = false ->
     handler_connection created = connection /\ connection_effects created = [] /\
     handler_connection joined = connection /\ connection_effects joined = [] /\
     emitted (effects joined) = []) /\
  (connection_authenticated connection = true -> str_is_empty lobby_code = true ->
     handler_connection joined = connection /\ connection_effects joined = [] /\
     emitted (effects joined) =
       [ShardLobby.lobby_error "invalid_lobby_code" (VStr "Lobby code cannot be empty")]) /\
  (forall conn, connection = Some conn ->
     ShardConnection.is_authenticated conn = true -> str_is_empty lobby_code = false ->
     let message : Dict :=
       <["type" := VStr "join_lobby"]> (<["timestamp" := VInt now]>
       (<["lobby_code" := VStr lobby_code]> ∅)) in
     handler_connection joined = Some (fst (ShardConnection.send_message message conn)) /\
     connection_effects joined = snd (ShardConnection.send_message message conn) /\
     emitted (effects joined) = []).
Proof.
  cbv zeta. unfold ShardLobby.create_lobby, ShardLobby.join_lobby, ShardLobby._log,
    ShardLobby.emit_signal, connection_authenticated.
  destruct connection as [conn|].
  - destruct (ShardConnection.is_authenticated conn) eqn:Hauth; cbn [negb].
    + destruct (str_is_empty lobby_code) eqn:Hempty.
      * destruct (ShardConnection.send_message _ conn) as [conn1 effs1].
        unfold seq, tell. cbn [handler effects handler_connection connection_effects fst snd].
        destruct (ShardLobby._debug_logging l); cbn [emitted app];
          (split; [reflexivity|]); (split; [reflexivity|]); (split; [reflexivity|]);
          (split; [discriminate|]); (split; [intros _ _; repeat split; reflexivity|]);
          intros conn0 _ _ Hne; discriminate.
      * destruct (ShardConnection.send_message
                    (<["type" := VStr ShardProtocol.MSG_CREATE_LOBBY]> _) conn)
          as [conn1 effs1].
        destruct (ShardConnection.send_message
                    (<["type" := VStr ShardProtocol.MSG_JOIN_LOBBY]> _) conn)
          as [conn2 effs2] eqn:Hsend.
        cbn [handler effects handler_connection connection_effects fst snd].
        destruct (ShardLobby._debug_logging l); cbn [emitted app];
          (split; [reflexivity|]); (split; [reflexivity|]); (split; [reflexivity|]);
          (split; [discriminate|]); (split; [discriminate|]);
          intros conn0 [= <-] _ _;
          change (VStr "join_lobby") with (VStr ShardProtocol.MSG_JOIN_LOBBY);
          rewrite Hsend; repeat split; reflexivity.
    + cbn [handler effects handler_connection connection_effects].
      destruct (ShardLobby._debug_logging l); cbn [emitted snd];
        (split; [reflexivity|]); (split; [reflexivity|]); (split; [reflexivity|]);
        (split; [intros _; repeat split; reflexivity|]); (split; [discriminate|]);
        intros conn0 [= <-] Hauth0; congruence.
  - cbn [handler effects handler_connection connection_effects].
    destruct (ShardLobby._debug_logging l); cbn [emitted snd];
      (split; [reflexivity|]); (split; [reflexivity|]); (split; [reflexivity|]);
      (split; [intros _; repeat split; reflexivity|]); (split; [discriminate|]);
      intros conn0 Hnone; discriminate.
Qed.

Lemma lobby_requests_witness :
  let joined := ShardLobby.join_lobby (H := reference_engine) 0
                  (Some authenticated_connection) "" ShardLobby.init in
  handler_connection joined = Some authenticated_connection /\
  emitted (effects joined) =
    [ShardLobby.lobby_error "invalid_lobby_code" (VStr "Lobby code cannot be empty")].
Proof.
  destruct (lobby_requests (H := reference_engine) 0 (Some authenticated_connection) ""
              ShardLobby.init) as (_ & _ & _ & _ & Hempty & _).
  destruct (Hempty eq_refl eq_refl) as (Hconn & _ & Hemit).
  split; [exact Hconn|exact Hemit].
Defined.

Lemma is_lobby_error_codes (code : string) :
  ShardProtocol.is_lobby_error code = true <->
  code = "invalid_lobby_code" \/ code = "lobby_full" \/ code = "already_in_lobby" \/
  code = "not_host" \/ code = "not_enough_players".
Proof.
  unfold ShardProtocol.is_lobby_error, ShardProtocol.LOBBY_ERROR_CODES.
  rewrite bool_decide_eq_true, !elem_of_cons, elem_of_nil. tauto.
Qed.

(** X12.  The lobby claims an [error] message by its code: the message is
    claimed exactly when it has a code that is one of the five lobby error
    codes, and then one [lobby_error] signal carries the code and the
    message text ([Unknown error] when there is none).  Any other error
    message is left unclaimed, with nothing emitted.  Either way the lobby
    state is not touched. *)
Theorem lobby_error_filter `{Engine} (message : Dict) (l : ShardLobby.t) :
  message !! "type" = Some (VStr "error") ->
  let r := ShardLobby.handle_message message l in
  fst (fst r) = l /\
  (message !! "code" = None -> snd r = false /\ snd (fst r) = []) /\
  (forall code : variant, message !! "code" = Some code ->
     snd r = ShardProtocol.is_lobby_error (to_str code) /\
     emitted (snd (fst r)) =
       (if ShardProtocol.is_lobby_error (to_str code)
        then [ShardLobby.lobby_error (to_str code)
                (dict_get message "message" (VStr "Unknown error"))]
        else [])) /\
  (forall code : string,
     ShardProtocol.is_lobby_error code = true <->
     code = "invalid_lobby_code" \/ code = "lobby_full" \/ code = "already_in_lobby" \/
     code = "not_host" \/ code = "not_enough_players").
Proof.
  intros Htype. cbv zeta. unfold ShardLobby.handle_message. rewrite Htype.
  change (variant_eq_str (VStr "error") ShardProtocol.MSG_LOBBY_CREATED) with false.
  change (variant_eq_str (VStr "error") ShardProtocol.MSG_LOBBY_JOINED) with false.
  change (variant_eq_str (VStr "error") ShardProtocol.MSG_PLAYER_JOINED) with false.
  change (variant_eq_str (VStr "error") ShardProtocol.MSG_PLAYER_LEFT) with false.
  change (variant_eq_str (VStr "error") ShardProtocol.MSG_LOBBY_CLOSED) with false.
  change (variant_eq_str (VStr "error") ShardProtocol.MSG_ERROR) with true.
  cbv iota. unfold ShardLobby._handle_error, ShardLobby._log, ShardLobby.emit_signal,
    dict_has, dict_get.
  destruct (message !! "code") as [code|]; cbn [negb].
  - destruct (ShardProtocol.is_lobby_error (to_str code)) eqn:Herr.
    + cbn [fst snd]. rewrite fst_seq, snd_seq, emitted_app. cbn [fst snd tell].
      split; [reflexivity|]. split; [discriminate|]. split; [|apply is_lobby_error_codes].
      intros code0 [= <-]. rewrite Herr. split; [reflexivity|].
      destruct (ShardLobby._debug_logging l); reflexivity.
    + cbn [fst snd]. split; [reflexivity|]. split; [discriminate|].
      split; [|apply is_lobby_error_codes]. intros code0 [= <-]. rewrite Herr.
      split; reflexivity.
  - cbn [fst snd]. split; [reflexivity|]. split; [intros _; split; reflexivity|].
    split; [discriminate|apply is_lobby_error_codes].
Qed.

Lemma lobby_error_filter_witness :
  snd (ShardLobby.handle_message (H := reference_engine) (error_message "lobby_full")
         lobby_AB12) = true /\
  snd (ShardLobby.handle_message (H := reference_engine) (error_message "rate_limited")
         lobby_AB12) = false.
Proof.
  split.
  - destruct (lobby_error_filter (H := reference_engine) (error_message "lobby_full")
                lobby_AB12 eq_refl) as (_ & _ & Hcode & _).
    destruct (Hcode (VStr "lobby_full") eq_refl) as [Hclaimed _]. exact Hclaimed.
  - destruct (lobby_error_filter (H := reference_engine) (error_message "rate_limited")
                lobby_AB12 eq_refl) as (_ & _ & Hcode & _).
    destruct (Hcode (VStr "rate_limited") eq_refl) as [Hclaimed _]. exact Hclaimed.
Defined.

Lemma handle_player_joined_fields `{Engine} (message : Dict) (l : ShardLobby.t)
    (peer_v name_v : variant) :
  message !! "peer_id" = Some peer_v ->
  message !! "username" = Some name_v ->
  ShardLobby._handle_player_joined message l =
    (ShardLobby.set_players
       (<[to_int peer_v := ShardLobby.mkPlayer (to_str name_v) (VBool false)]>
          (ShardLobby._players l)) l,
     (if ShardLobby._debug_logging l
      then [Print "ShardLobby" "Player joined: %s (peer_id: %d)"
              [VStr (to_str name_v); VInt (to_int peer_v)]]
      else [])
     ++ [Emit (ShardLobby.player_joined (to_int peer_v) (to_str name_v))]).
Proof.
  intros Hpeer Hname. unfold ShardLobby._handle_player_joined, dict_has, dict_get.
  rewrite Hpeer, Hname. cbn [negb orb].
  unfold seq, modify, ShardLobby._log, ShardLobby.emit_signal, tell. destruct l. reflexivity.
Qed.

(** X13.  Joining and leaving undo one another on the roster.  When
    [player_joined] announces a peer that is not in the roster, the peer is
    entered under the announced name, not as host, and [player_joined] is
    emitted; when [player_left] then names that peer, without a name and
    without a new host, the lobby is exactly what it was before the two
    messages, and the [player_left] signal carries the name under which the
    peer was entered and -1 for the new host. *)
Theorem player_joined_then_left `{Engine} (joined left : Dict) (peer_v name_v : variant)
    (l : ShardLobby.t) :
  joined !! "type" = Some (VStr "player_joined") ->
  joined !! "peer_id" = Some peer_v ->
  joined !! "username" = Some name_v ->
  left !! "type" = Some (VStr "player_left") ->
  left !! "peer_id" = Some peer_v ->
  left !! "username" = None ->
  left !! "new_host_peer_id" = None ->
  ShardLobby._players l !! to_int peer_v = None ->
  let r1 := ShardLobby.handle_message joined l in
  let r2 := ShardLobby.handle_message left (fst (fst r1)) in
  snd r1 = true /\ snd r2 = true /\
  ShardLobby._players (fst (fst r1)) !! to_int peer_v =
    Some (ShardLobby.mkPlayer (to_str name_v) (VBool false)) /\
  emitted (snd (fst r1)) = [ShardLobby.player_joined (to_int peer_v) (to_str name_v)] /\
  fst (fst r2) = l /\
  emitted (snd (fst r2)) = [ShardLobby.player_left (to_int peer_v) (to_str name_v) (-1)].
Proof.
  intros Htype1 Hpeer1 Hname1 Htype2 Hpeer2 Hname2 Hhost2 Hfresh. cbv zeta.
  unfold ShardLobby.handle_message. rewrite Htype1, Htype2.
  change (variant_eq_str (VStr "player_joined") ShardProtocol.MSG_LOBBY_CREATED) with false.
  change (variant_eq_str (VStr "player_joined") ShardProtocol.MSG_LOBBY_JOINED) with false.
  change (variant_eq_str (VStr "player_joined") ShardProtocol.MSG_PLAYER_JOINED) with true.
  change (variant_eq_str (VStr "player_left") ShardProtocol.MSG_LOBBY_CREATED) with false.
  change (variant_eq_str (VStr "player_left") ShardProtocol.MSG_LOBBY_JOINED) with false.
  change (variant_eq_str (VStr "player_left") ShardProtocol.MSG_PLAYER_JOINED) with false.
  change (variant_eq_str (VStr "player_left") ShardProtocol.MSG_PLAYER_LEFT) with true.
  cbv iota. cbn [fst snd].
  rewrite (handle_player_joined_fields joined l peer_v name_v Hpeer1 Hname1).
  cbn [fst snd]. rewrite emitted_app.
  unfold ShardLobby._handle_player_left, dict_has, dict_get.
  rewrite Hpeer2, Hname2, Hhost2. cbn [negb].
  unfold seq, modify, skip, ShardLobby._log, ShardLobby.emit_signal, tell.
  destruct l. cbn [ShardLobby._players ShardLobby.set_players ShardLobby._lobby_code
                   ShardLobby._my_peer_id ShardLobby._host_peer_id
                   ShardLobby._debug_logging fst snd] in *.
  rewrite lookup_insert_eq. cbn [ShardLobby.username].
  rewrite (delete_insert_id _ _ _ Hfresh).
  destruct _debug_logging; cbn [emitted app]; repeat split; reflexivity.
Qed.

Lemma player_joined_then_left_witness :
  let r1 := ShardLobby.handle_message (H := reference_engine) carol_joined lobby_AB12 in
  let r2 := ShardLobby.handle_message (H := reference_engine) carol_left (fst (fst r1)) in
  fst (fst r2) = lobby_AB12 /\
  emitted (snd (fst r2)) = [ShardLobby.player_left 3 "carol" (-1)].
Proof.
  destruct (player_joined_then_left (H := reference_engine) carol_joined carol_left
              (VInt 3) (VStr "carol") lobby_AB12
              eq_refl eq_refl eq_refl eq_refl eq_refl eq_refl eq_refl eq_refl)
    as (_ & _ & _ & _ & Hback & Hleft).
  split; [exact Hback|exact Hleft].
Defined.

(** X14.  Host transfer.  A [player_left] message that names a new host
    removes the leaving peer from the roster and records the new host's peer
    id, whether or not that peer is in the roster.  When the new host is in
    the roster, its entry is flagged as host and keeps its name; every other
    remaining entry is left as it was.  The own peer id and the lobby code
    are unchanged, so this client is the host afterwards exactly when its own
    peer id is set and is the new host's. *)
Theorem host_transfer `{Engine} (message : Dict) (peer_v host_v : variant)
    (l : ShardLobby.t) :
  message !! "type" = Some (VStr "player_left") ->
  message !! "peer_id" = Some peer_v ->
  message !! "new_host_peer_id" = Some host_v ->
  let peer := to_int peer_v in
  let new_host := to_int host_v in
  let r := ShardLobby.handle_message message l in
  let l' := fst (fst r) in
  snd r = true /\
  ShardLobby._host_peer_id l' = new_host /\
  ShardLobby._players l' !! peer = None /\
  (forall p, peer <> new_host -> ShardLobby._players l !! new_host = Some p ->
     ShardLobby._players l' !! new_host =
       Some (ShardLobby.mkPlayer (ShardLobby.username p) (VBool true))) /\
  (ShardLobby._players l !! new_host = None -> ShardLobby._players l' !! new_host = None) /\
  (forall q, q <> peer -> q <> new_host ->
     ShardLobby._players l' !! q = ShardLobby._players l !! q) /\
  ShardLobby._my_peer_id l' = ShardLobby._my_peer_id l /\
  ShardLobby._lobby_code l' = ShardLobby._lobby_code l /\
  ShardLobby.is_host' l' =
    (0 <=? ShardLobby._my_peer_id l) && (ShardLobby._my_peer_id l =? new_host) /\
  exists username,
    emitted (snd (fst r)) = [ShardLobby.player_left peer username new_host].
Proof.
  intros Htype Hpeer Hhost. cbv zeta. unfold ShardLobby.handle_message. rewrite Htype.
  change (variant_eq_str (VStr "player_left") ShardProtocol.MSG_LOBBY_CREATED) with false.
  change (variant_eq_str (VStr "player_left") ShardProtocol.MSG_LOBBY_JOINED) with false.
  change (variant_eq_str (VStr "player_left") ShardProtocol.MSG_PLAYER_JOINED) with false.
  change (variant_eq_str (VStr "player_left") ShardProtocol.MSG_PLAYER_LEFT) with true.
  cbv iota. cbn [fst snd].
  unfold ShardLobby._handle_player_left, dict_has, dict_get.
  rewrite Hpeer, Hhost. cbn [negb].
  set (peer := to_int peer_v). set (new_host := to_int host_v).
  unfold seq, modify, skip, ShardLobby._log, ShardLobby.emit_signal, tell,
    ShardLobby.is_host'.
  destruct l as [code players mine host debug].
  cbn [ShardLobby._players ShardLobby.set_players ShardLobby.set_host_peer_id
       ShardLobby._lobby_code ShardLobby._my_peer_id ShardLobby._host_peer_id
       ShardLobby._debug_logging fst snd].
  destruct (delete peer players !! new_host) as [p'|] eqn:Hentry;
    cbn [ShardLobby._players ShardLobby.set_players ShardLobby.set_host_peer_id
         ShardLobby._lobby_code ShardLobby._my_peer_id ShardLobby._host_peer_id
         ShardLobby._debug_logging fst snd].
  - apply lookup_delete_Some in Hentry as [Hne Hentry].
    split; [reflexivity|]. split; [reflexivity|].
    split; [rewrite lookup_insert_ne by (intros Heq; apply Hne; symmetry; exact Heq);
            apply lookup_delete_eq|].
    split; [intros p _ Hp; rewrite lookup_insert_eq; congruence|].
    split; [intros Hnone; congruence|].
    split; [intros q Hq1 Hq2;
            rewrite lookup_insert_ne by (intros Heq; apply Hq2; symmetry; exact Heq);
            apply lookup_delete_ne; intros Heq; apply Hq1; symmetry; exact Heq|].
    split; [reflexivity|]. split; [reflexivity|]. split; [reflexivity|].
    eexists. rewrite !emitted_app.
    destruct debug; cbn [emitted app]; reflexivity.
  - split; [reflexivity|]. split; [reflexivity|].
    split; [apply lookup_delete_eq|].
    split; [intros p Hne Hp; rewrite lookup_delete_ne in Hentry by exact Hne; congruence|].
    split; [intros _; exact Hentry|].
    split; [intros q Hq1 Hq2; apply lookup_delete_ne; intros Heq; apply Hq1; symmetry;
            exact Heq|].
    split; [reflexivity|]. split; [reflexivity|]. split; [reflexivity|].
    eexists. rewrite !emitted_app.
    destruct debug; cbn [emitted app]; reflexivity.
Qed.

Lemma host_transfer_witness :
  let r := ShardLobby.handle_message (H := reference_engine) host_left lobby_AB12 in
  ShardLobby._host_peer_id (fst (fst r)) = 2 /\
  ShardLobby._players (fst (fst r)) !! 2 = Some (ShardLobby.mkPlayer "bob" (VBool true)) /\
  ShardLobby.is_host' (fst (fst r)) = true.
Proof.
  destruct (host_transfer (H := reference_engine) host_left (VInt 1) (VInt 2) lobby_AB12
              eq_refl eq_refl eq_refl)
    as (_ & Hhost & _ & Hentry & _ & _ & _ & _ & Hmine & _).
  split; [exact Hhost|]. split; [|exact Hmine].
  apply (Hentry (ShardLobby.mkPlayer "bob" (VBool false))); [discriminate|reflexivity].
Defined.

Lemma variant_eq_str_true (v : variant) (s : string) :
  variant_eq_str v s = true <-> v = VStr s.
Proof.
  destruct v; cbn [variant_eq_str]; try (split; discriminate).
  rewrite bool_decide_eq_true. split; [intros ->; reflexivity|intros [= ->]; reflexivity].
Qed.

Lemma lobby_handle_message_claimed `{Engine} (message : Dict) (l : ShardLobby.t) :
  snd (ShardLobby.handle_message message l) = true ->
  exists tag, message !! "type" = Some (VStr tag) /\ tag ∈ lobby_tags.
Proof.
  unfold ShardLobby.handle_message, lobby_tags.
  destruct (message !! "type") as [ty|]; [|discriminate].
  repeat match goal with
         | |- context [variant_eq_str ty ?tag] =>
             let E := fresh "Htag" in
             destruct (variant_eq_str ty tag) eqn:E;
             [apply variant_eq_str_true in E; subst ty; intros _; eexists;
              split; [reflexivity|set_solver]|]
         end.
  cbn [snd]. intros Hc. discriminate Hc.
Qed.

Lemma lobby_handle_message_unclaimed `{Engine} (message : Dict) (l : ShardLobby.t) :
  snd (ShardLobby.handle_message message l) = false ->
  ShardLobby.handle_message message l = (l, [], false).
Proof.
  unfold ShardLobby.handle_message.
  destruct (message !! "type") as [ty|]; [|reflexivity].
  repeat match goal with
         | |- context [variant_eq_str ty ?tag] =>
             destruct (variant_eq_str ty tag); [try discriminate|]
         end; try reflexivity.
  unfold ShardLobby._handle_error.
  destruct (negb (dict_has message "code")); [reflexivity|].
  destruct (ShardProtocol.is_lobby_error _); [discriminate|reflexivity].
Qed.

Lemma match_handle_message_claimed `{Engine} (message : Dict) (m : ShardMatch.t) :
  snd (ShardMatch.handle_message message m) = true <->
  exists tag, message !! "type" = Some (VStr tag) /\ tag ∈ match_tags.
Proof.
  unfold ShardMatch.handle_message, match_tags. split.
  - destruct (message !! "type") as [ty|]; [|discriminate].
    repeat match goal with
           | |- context [variant_eq_str ty ?tag] =>
               let E := fresh "Htag" in
               destruct (variant_eq_str ty tag) eqn:E;
               [apply variant_eq_str_true in E; subst ty; intros _; eexists;
                split; [reflexivity|set_solver]|]
           end.
    cbn [snd]. intros Hc. discriminate Hc.
  - intros (tag & -> & Htag).
    rewrite !elem_of_cons, elem_of_nil in Htag.
    destruct Htag as [->|[->|[->|[->|[]]]]]; reflexivity.
Qed.

Lemma match_handle_message_unclaimed `{Engine} (message : Dict) (m : ShardMatch.t) :
  snd (ShardMatch.handle_message message m) = false ->
  ShardMatch.handle_message message m = (m, [], false).
Proof.
  unfold ShardMatch.handle_message.
  destruct (message !! "type") as [ty|]; [|reflexivity].
  repeat match goal with
         | |- context [variant_eq_str ty ?tag] =>
             destruct (variant_eq_str ty tag); [discriminate|]
         end.
  reflexivity.
Qed.

(** X15.  The components claim messages by type tag.  The match claims a
    message exactly when its type is one of [countdown], [round_start],
    [round_over] and [match_over]; the lobby claims only messages whose type
    is one of [lobby_created], [lobby_joined], [player_joined],
    [player_left], [lobby_closed] and [error].  A message that a component
    does not claim leaves it as it was and has no effect, and no message is
    claimed by both. *)
Theorem components_claim_by_tag `{Engine} (message : Dict) (l : ShardLobby.t)
    (m : ShardMatch.t) :
  let in_lobby := ShardLobby.handle_message message l in
  let in_match := ShardMatch.handle_message message m in
  (snd in_lobby = true ->
     exists tag, message !! "type" = Some (VStr tag) /\ tag ∈ lobby_tags) /\
  (snd in_match = true <->
     exists tag, message !! "type" = Some (VStr tag) /\ tag ∈ match_tags) /\
  (snd in_lobby = false -> in_lobby = (l, [], false)) /\
  (snd in_match = false -> in_match = (m, [], false)) /\
  (snd in_lobby = true -> snd in_match = false).
Proof.
  cbv zeta. split; [apply lobby_handle_message_claimed|].
  split; [apply match_handle_message_claimed|].
  split; [apply lobby_handle_message_unclaimed|].
  split; [apply match_handle_message_unclaimed|].
  intros Hlobby. apply lobby_handle_message_claimed in Hlobby as (tag & Htype & Htag).
  destruct (snd (ShardMatch.handle_message message m)) eqn:Hmatch; [|reflexivity].
  apply match_handle_message_claimed in Hmatch as (tag' & Htype' & Htag').
  rewrite Htype in Htype'. injection Htype' as <-.
  unfold lobby_tags in Htag. unfold match_tags in Htag'.
  repeat (apply elem_of_cons in Htag as [->|Htag]);
    try (apply elem_of_nil in Htag; contradiction);
    repeat (apply elem_of_cons in Htag' as [Hc|Htag']);
    try discriminate Hc; apply elem_of_nil in Htag'; contradiction.
Qed.

Lemma components_claim_by_tag_witness :
  snd (ShardLobby.handle_message (H := reference_engine) round_over_message lobby_AB12) = false /\
  snd (ShardMatch.handle_message (H := reference_engine) round_over_message
         match_in_round_two) = true.
Proof.
  destruct (components_claim_by_tag (H := reference_engine) round_over_message lobby_AB12
              match_in_round_two) as (_ & Hmatch & _ & _ & Hboth).
  assert (Hclaimed : snd (ShardMatch.handle_message (H := reference_engine)
                            round_over_message match_in_round_two) = true).
  { apply Hmatch. exists "round_over". split; [reflexivity|].
    unfold match_tags. rewrite !elem_of_cons. right. right. left. reflexivity. }
  split; [|exact Hclaimed].
  destruct (snd (ShardLobby.handle_message (H := reference_engine) round_over_message
                   lobby_AB12)) eqn:Hlobby; [|reflexivity].
  rewrite (Hboth eq_refl) in Hclaimed. discriminate Hclaimed.
Defined.

(** X16.  A [lobby_closed] message is claimed and ends the lobby: the code
    and the roster are emptied and the host is reset to -1, so the client is
    neither in a lobby nor a host afterwards; the own peer id is kept.  One
    signal is emitted, [lobby_closed], with the reason of the message, or
    [Lobby closed] when it gives none. *)
Theorem lobby_closed_clears `{Engine} (message : Dict) (l : ShardLobby.t) :
  message !! "type" = Some (VStr "lobby_closed") ->
  let r := ShardLobby.handle_message message l in
  let l' := fst (fst r) in
  snd r = true /\
  l' = ShardLobby.mk "" ∅ (ShardLobby._my_peer_id l) (-1) (ShardLobby._debug_logging l) /\
  ShardLobby.is_in_lobby l' = false /\
  ShardLobby.is_host' l' = false /\
  ShardLobby.get_player_count l' = 0 /\
  emitted (snd (fst r)) =
    [ShardLobby.lobby_closed (dict_get message "reason" (VStr "Lobby closed"))].
Proof.
  intros Htype. cbv zeta. unfold ShardLobby.handle_message. rewrite Htype.
  change (variant_eq_str (VStr "lobby_closed") ShardProtocol.MSG_LOBBY_CREATED) with false.
  change (variant_eq_str (VStr "lobby_closed") ShardProtocol.MSG_LOBBY_JOINED) with false.
  change (variant_eq_str (VStr "lobby_closed") ShardProtocol.MSG_PLAYER_JOINED) with false.
  change (variant_eq_str (VStr "lobby_closed") ShardProtocol.MSG_PLAYER_LEFT) with false.
  change (variant_eq_str (VStr "lobby_closed") ShardProtocol.MSG_LOBBY_CLOSED) with true.
  cbv iota. cbn [fst snd].
  unfold ShardLobby._handle_lobby_closed, ShardLobby._clear_state, ShardLobby._log,
    ShardLobby.emit_signal, ShardLobby.is_in_lobby, ShardLobby.is_host',
    ShardLobby.get_player_count.
  rewrite !fst_seq, !snd_seq, !fst_modify, !snd_modify, !emitted_app.
  destruct l as [code players mine host debug]. cbn [fst snd tell app emitted
    ShardLobby._lobby_code ShardLobby._players ShardLobby._my_peer_id
    ShardLobby._host_peer_id ShardLobby._debug_logging ShardLobby.set_lobby_code
    ShardLobby.set_players ShardLobby.set_host_peer_id str_is_empty negb].
  split; [reflexivity|]. split; [reflexivity|]. split; [reflexivity|].
  split; [|split; [reflexivity|destruct debug; reflexivity]].
  destruct (Z.leb_spec 0 mine); [|reflexivity].
  cbn [andb]. apply Z.eqb_neq. lia.
Qed.

Lemma lobby_closed_clears_witness :
  let r := ShardLobby.handle_message (H := reference_engine) (bare_message "lobby_closed")
             lobby_AB12 in
  ShardLobby.is_in_lobby (fst (fst r)) = false /\
  emitted (snd (fst r)) = [ShardLobby.lobby_closed (VStr "Lobby closed")].
Proof.
  destruct (lobby_closed_clears (H := reference_engine) (bare_message "lobby_closed")
              lobby_AB12 eq_refl) as (_ & _ & Hout & _ & _ & Hemit).
  split; [exact Hout|exact Hemit].
Defined.

(** ** Prediction *)

Lemma Qle_bool_false (a b : Q) : Qle_bool a b = false -> (b < a)%Q.
Proof.
  intros Hle. apply Qnot_le_lt. intros Hab. apply Qle_bool_iff in Hab. congruence.
Qed.

Ltac prediction_cbn :=
  cbn [negb andb ShardPrediction._enabled ShardPrediction._predicted_position
       ShardPrediction._predicted_velocity ShardPrediction._my_peer_id
       ShardPrediction._is_grounded ShardPrediction._prediction_corrections
       ShardPrediction._debug_logging ShardPrediction.set_enabled_field
       ShardPrediction.set_predicted_velocity ShardPrediction.set_predicted_position
       ShardPrediction.set_my_peer_id_field ShardPrediction.set_is_grounded
       ShardPrediction.set_prediction_corrections
       Vector2.x Vector2.y Vector2.add Vector2.scale fst snd].

(** X17.  The integrator respects the ground.  With a timestep that is not
    negative, a prediction that is on or above the ground (y at most 0) is
    on or above the ground after [apply_input], whatever the input; and when
    the grounded flag tells the truth before the call (grounded means y = 0
    and no vertical speed), it tells the truth after it. *)
Theorem apply_input_ground (input : Dict) (delta : Q) (p : ShardPrediction.t) :
  (0 <= delta)%Q ->
  (above_ground p -> above_ground (ShardPrediction.apply_input input delta p)) /\
  (grounded_at_rest p -> grounded_at_rest (ShardPrediction.apply_input input delta p)).
Proof.
  intros Hdelta. unfold above_ground, grounded_at_rest, ShardPrediction.apply_input.
  destruct p as [enabled [px py] [vx vy] mine grounded corrections debug].
  destruct enabled; prediction_cbn; [|split; intros Hp; exact Hp].
  unfold ShardPrediction.GRAVITY, ShardPrediction.JUMP_VELOCITY.
  destruct (variant_truthy (dict_get input "jump" (VBool false)) && grounded) eqn:Hjump;
    prediction_cbn;
    match goal with
    | |- context [Qle_bool 0 ?y && Qle_bool 0 ?v] =>
        destruct (Qle_bool 0 y) eqn:Hy; destruct (Qle_bool 0 v) eqn:Hv
    end;
    prediction_cbn;
    try apply Qle_bool_iff in Hy; try apply Qle_bool_iff in Hv;
    try apply Qle_bool_false in Hy; try apply Qle_bool_false in Hv;
    (split; [intros Hp|intros Hp Hg]);
    try discriminate Hg;
    try (split; reflexivity);
    try apply Qle_refl;
    try nra.
  all: apply andb_false_iff in Hjump as [Hjump|Hjump]; subst;
    try discriminate Hg; destruct (Hp eq_refl) as [Hpy Hvy]; nra.
Qed.

Lemma apply_input_ground_witness :
  above_ground (ShardPrediction.apply_input sample_input (1 / 60) prediction_at_origin) /\
  grounded_at_rest (ShardPrediction.apply_input sample_input (1 / 60) prediction_at_origin).
Proof.
  assert (Hdelta : (0 <= 1 / 60)%Q) by (vm_compute; discriminate).
  destruct (apply_input_ground sample_input (1 / 60) prediction_at_origin Hdelta)
    as [Habove Hrest].
  split.
  - apply Habove. vm_compute. discriminate.
  - apply Hrest. intros _. split; reflexivity.
Defined.

(** X18.  No jump in mid-air.  While the prediction is not grounded, the
    only field of the input that [apply_input] reads to any effect is
    [move_x]: two inputs with the same [move_x] give the same prediction,
    whatever their [jump] flags; and the horizontal speed after the call is
    [move_x] times the move speed 200. *)
Theorem apply_input_airborne (input1 input2 : Dict) (delta : Q) (p : ShardPrediction.t) :
  ShardPrediction._is_grounded p = false ->
  dict_get input1 "move_x" (VFloat 0) = dict_get input2 "move_x" (VFloat 0) ->
  ShardPrediction.apply_input input1 delta p = ShardPrediction.apply_input input2 delta p /\
  (ShardPrediction._enabled p = true ->
   Vector2.x (ShardPrediction._predicted_velocity (ShardPrediction.apply_input input1 delta p))
   = (variant_num (dict_get input1 "move_x" (VFloat 0)) * 200)%Q).
Proof.
  intros Hair Hmove. unfold ShardPrediction.apply_input. rewrite Hmove.
  destruct p as [enabled [px py] [vx vy] mine grounded corrections debug].
  prediction_cbn. cbn [ShardPrediction._is_grounded] in Hair. subst grounded.
  rewrite !andb_false_r. prediction_cbn.
  split; [reflexivity|]. intros ->. prediction_cbn.
  match goal with
  | |- context [Qle_bool 0 ?y && Qle_bool 0 ?v] => destruct (Qle_bool 0 y && Qle_bool 0 v)
  end; reflexivity.
Qed.

Lemma apply_input_airborne_witness :
  ShardPrediction.apply_input sample_input (1 / 60) prediction_airborne =
  ShardPrediction.apply_input (<["move_x" := VFloat 2.5]> ∅) (1 / 60) prediction_airborne.
Proof.
  apply (apply_input_airborne sample_input (<["move_x" := VFloat 2.5]> ∅) (1 / 60)
           prediction_airborne eq_refl eq_refl).
Defined.

(** X19.  When [reconcile] has nothing to reconcile with (prediction
    disabled, own peer id not set, or the own player absent from the latest
    snapshot, which includes an empty snapshot buffer), it changes neither
    the prediction nor the input buffer (no input is evicted) and emits
    nothing.  A disabled prediction also ignores [apply_input]. *)
Theorem reconcile_idle `{Engine} (state : ShardState.t) (input_handler : ShardInput.t)
    (input : Dict) (delta : Q) (p : ShardPrediction.t) :
  (ShardPrediction._enabled p = false \/ ShardPrediction._my_peer_id p < 0 \/
   own_server_player state p = None ->
     ShardPrediction.reconcile state input_handler p = (p, input_handler, [])) /\
  (ShardState._snapshots state = [] -> own_server_player state p = None) /\
  (ShardPrediction._enabled p = false -> ShardPrediction.apply_input input delta p = p).
Proof.
  split; [|split].
  - unfold ShardPrediction.reconcile, own_server_player.
    intros [Hoff|[Hpeer|Habsent]].
    + rewrite Hoff. reflexivity.
    + apply Z.ltb_lt in Hpeer. rewrite Hpeer, orb_true_r. reflexivity.
    + destruct (negb (ShardPrediction._enabled p) || (ShardPrediction._my_peer_id p <? 0));
        [reflexivity|].
      destruct (bool_decide (ShardState.get_latest_state state = ∅)); [reflexivity|].
      rewrite Habsent. reflexivity.
  - intros Hempty. unfold own_server_player, ShardState.get_latest_state.
    rewrite Hempty. reflexivity.
  - intros Hoff. unfold ShardPrediction.apply_input. rewrite Hoff. reflexivity.
Qed.

Lemma reconcile_idle_witness :
  ShardPrediction.reconcile (H := reference_engine) ShardState.init handler_10_to_15
    prediction_at_origin = (prediction_at_origin, handler_10_to_15, []).
Proof.
  destruct (reconcile_idle (H := reference_engine) ShardState.init handler_10_to_15
              sample_input 1 prediction_at_origin) as (Hidle & Hempty & _).
  apply Hidle. right. right. apply Hempty. reflexivity.
Defined.

(** X20.  [initialize_from_server_state] is the snap of a correction
    without the replay: when the own peer id is set and the own player is in
    the latest snapshot, the predicted position and velocity become the
    server's and the grounded flag is recomputed from them; the correction
    counter is not touched and no signal is emitted.  It does this whether
    or not prediction is enabled.  Otherwise it changes nothing. *)
Theorem initialize_from_server_state_snaps (state : ShardState.t) (p : ShardPrediction.t) :
  let r := ShardPrediction.initialize_from_server_state state p in
  (ShardPrediction._my_peer_id p < 0 \/ own_server_player state p = None ->
     fst r = p /\ snd r = []) /\
  (forall server_player : variant,
     0 <= ShardPrediction._my_peer_id p ->
     own_server_player state p = Some server_player ->
     let sp := as_Dict server_player in
     let server_pos := Vector2.mk (variant_num (dict_get sp "x" (VFloat 0)))
                                  (variant_num (dict_get sp "y" (VFloat 0))) in
     let server_vel := Vector2.mk (variant_num (dict_get sp "vx" (VFloat 0)))
                                  (variant_num (dict_get sp "vy" (VFloat 0))) in
     fst r = snapped server_pos server_vel p /\
     ShardPrediction._prediction_corrections (fst r)
       = ShardPrediction._prediction_corrections p /\
     ShardPrediction._enabled (fst r) = ShardPrediction._enabled p /\
     emitted (snd r) = []).
Proof.
  cbv zeta. unfold ShardPrediction.initialize_from_server_state, own_server_player.
  split.
  - intros [Hpeer|Habsent].
    + apply Z.ltb_lt in Hpeer. rewrite Hpeer. split; reflexivity.
    + destruct (ShardPrediction._my_peer_id p <? 0); [split; reflexivity|].
      destruct (bool_decide (ShardState.get_latest_state state = ∅)); [split; reflexivity|].
      rewrite Habsent. split; reflexivity.
  - intros server_player Hpeer Hfound.
    assert (Hset : (ShardPrediction._my_peer_id p <? 0) = false) by (apply Z.ltb_ge; lia).
    rewrite Hset.
    destruct (bool_decide (ShardState.get_latest_state state = ∅)) eqn:Hlatest.
    + apply bool_decide_eq_true in Hlatest. rewrite Hlatest in Hfound.
      discriminate Hfound.
    + rewrite Hfound. unfold ShardPrediction._log, snapped.
      rewrite !fst_seq, !snd_seq, !fst_modify, !snd_modify.
      destruct p as [enabled pos vel mine grounded corrections debug].
      prediction_cbn. destruct debug; repeat split; reflexivity.
Qed.

Lemma initialize_from_server_state_snaps_witness :
  ShardPrediction._predicted_position
    (fst (ShardPrediction.initialize_from_server_state server_state prediction_at_origin))
  = Vector2.mk 100 0.
Proof.
  destruct (proj2 (initialize_from_server_state_snaps server_state prediction_at_origin)
              (player_of 1 100 0 0 0 100) ltac:(simpl; lia) eq_refl) as (Hsnap & _).
  rewrite Hsnap. reflexivity.
Defined.

(** ** Input buffer *)

Lemma find_input_at_tick_absent (tick : Z) (buffer : list ShardInput.entry) :
  Forall (fun e => ShardInput.tick e <> tick) buffer ->
  ShardInput.find_input_at_tick tick buffer = ∅.
Proof.
  induction 1 as [|e rest Hne _ IH]; [reflexivity|].
  cbn [ShardInput.find_input_at_tick]. apply Z.eqb_neq in Hne. rewrite Hne. exact IH.
Qed.

Lemma find_input_at_tick_last (tick : Z) (input : Dict) (buffer : list ShardInput.entry) :
  Forall (fun e => ShardInput.tick e <> tick) buffer ->
  ShardInput.find_input_at_tick tick (buffer ++ [ShardInput.mkEntry tick input]) = input.
Proof.
  induction 1 as [|e rest Hne _ IH].
  - cbn. rewrite Z.eqb_refl. reflexivity.
  - cbn [app ShardInput.find_input_at_tick]. apply Z.eqb_neq in Hne. rewrite Hne. exact IH.
Qed.

Lemma pop_front_while_over_snoc {A : Type} (cap : nat) (a : list A) (x : A) :
  (1 <= cap)%nat ->
  pop_front_while_over cap (a ++ [x]) = drop (length a + 1 - cap) a ++ [x].
Proof.
  intros Hcap. rewrite pop_front_while_over_drop, length_app. cbn [length].
  apply drop_app_le. lia.
Qed.

(** X21.  An input that was sent can be read back by its tick.  While the
    buffer is ordered (its ticks increase and none is ahead of the tick
    counter, which every sequence of the orchestrator's calls maintains),
    right after an accepted [send_input] the accessor [get_input_at_tick]
    returns, for the new tick, the validated record that was sent, and the
    empty Dictionary for any later tick; the buffer is ordered again. *)
Theorem get_input_at_tick_round_trip `{Engine} (now : Z) (conn : ShardConnection.t)
    (input : Dict) (s : ShardInput.t) :
  buffer_ordered s ->
  ShardConnection.is_authenticated conn = true ->
  let r := ShardInput.send_input now (Some conn) input true s in
  let tick := ShardInput._current_tick s + 1 in
  ShardInput.get_input_at_tick tick (handler r) = ShardInput._validate_input input /\
  (forall later, tick < later -> ShardInput.get_input_at_tick later (handler r) = ∅) /\
  buffer_ordered (handler r).
Proof.
  intros [Hinc Hle] Hauth. cbv zeta.
  destruct (send_input_handler now (Some conn) input true s) as [_ Haccepted].
  destruct Haccepted as [Htick Hbuffer]; [cbn; exact Hauth|].
  unfold ShardInput.get_input_at_tick. rewrite Hbuffer.
  rewrite pop_front_while_over_snoc by (unfold ShardInput.INPUT_BUFFER_SIZE; lia).
  set (kept := drop _ (ShardInput._input_buffer s)).
  assert (Hkept : Forall (fun e => ShardInput.tick e <= ShardInput._current_tick s) kept)
    by (apply Forall_drop; exact Hle).
  split; [|split].
  - apply find_input_at_tick_last. eapply Forall_impl; [exact Hkept|].
    cbn. intros e He. lia.
  - intros later Hlater. apply find_input_at_tick_absent.
    apply Forall_app. split.
    + eapply Forall_impl; [exact Hkept|]. cbn. intros e He. lia.
    + apply Forall_singleton. cbn. lia.
  - apply (run_handler_call_ordered s (SendInput now (Some conn) input true)).
    split; assumption.
Qed.

Lemma get_input_at_tick_round_trip_witness :
  ShardInput.get_input_at_tick 16
    (handler (ShardInput.send_input (H := reference_engine) 0 (Some authenticated_connection)
                sample_input true handler_at_15))
  = ShardInput._validate_input (H := reference_engine) sample_input.
Proof.
  apply (get_input_at_tick_round_trip (H := reference_engine) 0 authenticated_connection
           sample_input handler_at_15).
  - split.
    + simpl. repeat split; repeat constructor; simpl; lia.
    + repeat constructor; simpl; lia.
  - reflexivity.
Defined.

(** X22.  Validation is idempotent.  With an engine whose [float()] is the
    identity on floats and whose [bool()] is the identity on booleans, a
    validated record validates to itself: what the buffer stores and the
    server receives is a fixed point of [_validate_input]. *)
Theorem validate_input_idempotent `{Engine} (input : Dict) :
  (forall q : Q, to_float (VFloat q) = q) ->
  (forall b : bool, to_bool (VBool b) = b) ->
  ShardInput._validate_input (ShardInput._validate_input input)
  = ShardInput._validate_input input.
Proof.
  intros Hfloat Hbool.
  destruct (validate_input_fields input) as (Hx & Hy & Hj & Hp & Hu & Hd & Ha & _).
  cbv zeta in *.
  set (v := ShardInput._validate_input input) in *.
  unfold ShardInput._validate_input at 1. unfold dict_get.
  rewrite Hx, Hy, Hj, Hp, Hu, Hd, Ha, !Hfloat, !Hbool.
  rewrite !(clampf_id (clampf _ (-1) 1) (-1) 1)
    by (apply clampf_bounds; vm_compute; discriminate).
  reflexivity.
Qed.

Lemma validate_input_idempotent_witness :
  ShardInput._validate_input (H := reference_engine)
    (ShardInput._validate_input (H := reference_engine) sample_input)
  = ShardInput._validate_input (H := reference_engine) sample_input.
Proof.
  apply (validate_input_idempotent (H := reference_engine) sample_input).
  - intros q. reflexivity.
  - intros b. reflexivity.
Defined.

Lemma ticks_consecutive_drop (k : nat) (s : ShardInput.t) :
  ticks_consecutive s ->
  ticks_consecutive (ShardInput.set_input_buffer (drop k (ShardInput._input_buffer s)) s).
Proof.
  unfold ticks_consecutive. destruct s as [current buffer sent debug].
  cbn [ShardInput._input_buffer ShardInput._current_tick ShardInput.set_input_buffer].
  intros Hs i e Hlookup. rewrite lookup_drop in Hlookup.
  pose proof (lookup_lt_Some _ _ _ Hlookup) as Hlt.
  rewrite (Hs _ _ Hlookup), length_drop. lia.
Qed.

Lemma pop_front_while_tick_le_drop (tick : Z) (buffer : list ShardInput.entry) :
  exists k : nat, ShardInput.pop_front_while_tick_le tick buffer = drop k buffer.
Proof.
  destruct (pop_front_while_tick_le_split tick buffer) as (evicted & Hsplit & _).
  exists (length evicted). rewrite Hsplit at 2. rewrite drop_app_length. reflexivity.
Qed.

Lemma send_input_counters `{Engine} (now : Z) (connection : option ShardConnection.t)
    (input : Dict) (is_playing : bool) (s : ShardInput.t) :
  input_accepted connection is_playing = true ->
  ShardInput._inputs_sent
    (handler (ShardInput.send_input now connection input is_playing s))
  = ShardInput._inputs_sent s + 1.
Proof.
  unfold input_accepted, ShardInput.send_input.
  destruct is_playing; [|discriminate]. destruct connection as [conn|]; [|discriminate].
  cbn [andb negb]. intros Hauth. rewrite Hauth. cbn [negb].
  destruct (ShardConnection.send_message _ conn) as [conn1 effs1].
  unfold ShardInput._store_input, ShardInput._log.
  destruct s as [current buffer sent debug].
  unfold seq, modify, tell. cbn. reflexivity.
Qed.

Lemma run_handler_call_consecutive `{Engine} (s : ShardInput.t) (c : handler_call) :
  ticks_consecutive s /\ ShardInput._inputs_sent s = ShardInput._current_tick s ->
  ticks_consecutive (run_handler_call s c) /\
  ShardInput._inputs_sent (run_handler_call s c)
    = ShardInput._current_tick (run_handler_call s c).
Proof.
  intros [Hs Hsent]. destruct c as [now connection input is_playing|tick|];
    cbn [run_handler_call].
  - destruct (send_input_handler now connection input is_playing s) as [Hno Hyes].
    destruct (input_accepted connection is_playing) eqn:Haccepted.
    + destruct (Hyes eq_refl) as [Htick Hbuffer].
      pose proof (send_input_counters now connection input is_playing s Haccepted) as Hcount.
      split; [|lia].
      unfold ticks_consecutive. rewrite Htick, Hbuffer.
      rewrite pop_front_while_over_snoc by (unfold ShardInput.INPUT_BUFFER_SIZE; lia).
      unfold ShardInput.INPUT_BUFFER_SIZE.
      set (k := (length (ShardInput._input_buffer s) + 1 - 60)%nat).
      assert (Hk : (k <= length (ShardInput._input_buffer s))%nat) by (unfold k; lia).
      intros i e Hlookup. rewrite length_app, length_drop. cbn [length].
      apply lookup_app_Some in Hlookup as [Hold|[Hge Hnew]].
      * rewrite lookup_drop in Hold. pose proof (lookup_lt_Some _ _ _ Hold).
        rewrite (Hs _ _ Hold). lia.
      * rewrite length_drop in Hge, Hnew.
        apply list_lookup_singleton_Some in Hnew as [Hi <-]. cbn [ShardInput.tick]. lia.
    + rewrite (Hno eq_refl). split; assumption.
  - unfold ShardInput.clear_inputs_before_tick.
    destruct (pop_front_while_tick_le_drop tick (ShardInput._input_buffer s)) as [k Hk].
    rewrite Hk. split; [apply ticks_consecutive_drop; exact Hs|].
    destruct s; exact Hsent.
  - unfold ShardInput.reset, ShardInput._log. rewrite !fst_seq, !fst_modify.
    cbn [fst]. split; [|reflexivity].
    intros i e Hlookup. destruct s. discriminate Hlookup.
Qed.

(** X23.  Ticks are consecutive.  In every state that the orchestrator's
    calls on the input handler produce ([send_input],
    [clear_inputs_before_tick], [reset], in any order, from a fresh
    handler), the buffer holds consecutive ticks that end at the tick
    counter: the entry at index [i] of [n] has the tick
    [_current_tick - n + 1 + i]; and the tick counter equals the number of
    inputs sent since the last reset. *)
Theorem handler_ticks_consecutive `{Engine} (calls : list handler_call) :
  let s := fold_left run_handler_call calls ShardInput.init in
  ticks_consecutive s /\
  ShardInput.get_inputs_sent s = ShardInput.get_current_tick s /\
  (forall e, last (ShardInput._input_buffer s) = Some e ->
     ShardInput.tick e = ShardInput.get_current_tick s).
Proof.
  cbv zeta.
  assert (Hinv : ticks_consecutive (fold_left run_handler_call calls ShardInput.init) /\
                 ShardInput._inputs_sent (fold_left run_handler_call calls ShardInput.init)
                 = ShardInput._current_tick
                     (fold_left run_handler_call calls ShardInput.init)).
  { induction calls as [|c rest IH] using rev_ind.
    - split; [|reflexivity]. intros i e Hlookup. discriminate Hlookup.
    - rewrite fold_left_app. cbn [fold_left]. apply run_handler_call_consecutive, IH. }
  destruct Hinv as [Hs Hsent]. split; [exact Hs|]. split; [exact Hsent|].
  intros e Hlast. rewrite last_lookup in Hlast.
  rewrite (Hs _ _ Hlast). pose proof (lookup_lt_Some _ _ _ Hlast).
  unfold ShardInput.get_current_tick. lia.
Qed.

(** ** Scoreboard *)

Lemma handle_countdown_scores `{Engine} (message : Dict) (m : ShardMatch.t) :
  ShardMatch._scores (fst (ShardMatch._handle_countdown message m)) = ShardMatch._scores m.
Proof.
  unfold ShardMatch._handle_countdown, ShardMatch._log, ShardMatch.emit_signal.
  destruct (negb (dict_has message "seconds")); [reflexivity|].
  rewrite !fst_seq, !fst_modify. destruct m. reflexivity.
Qed.

Lemma handle_round_start_scores `{Engine} (message : Dict) (m : ShardMatch.t) :
  ShardMatch._scores (fst (ShardMatch._handle_round_start message m)) = ShardMatch._scores m.
Proof.
  unfold ShardMatch._handle_round_start, ShardMatch._log, ShardMatch.emit_signal.
  destruct (negb (dict_has message "round")); [reflexivity|].
  destruct (dict_has message "spawn_positions"
            && is_Array (dict_get message "spawn_positions" VNil)),
           (dict_has message "weapon_spawns"
            && is_Array (dict_get message "weapon_spawns" VNil));
    rewrite !fst_seq, !fst_modify, ?fst_skip; destruct m; reflexivity.
Qed.

Lemma handle_round_over_keeps_scores `{Engine} (message : Dict) (m : ShardMatch.t) :
  (forall payload, message !! "scores" <> Some (VArray payload)) ->
  ShardMatch._scores (fst (ShardMatch._handle_round_over message m)) = ShardMatch._scores m /\
  emitted (snd (ShardMatch._handle_round_over message m)) =
    [ShardMatch.round_ended
       (if dict_has message "winner_peer_id"
        then to_int (dict_get message "winner_peer_id" VNil) else -1)
       (ShardMatch._scores m)].
Proof.
  intros Hnot. unfold ShardMatch._handle_round_over, ShardMatch._parse_scores,
    ShardMatch._log, ShardMatch.emit_signal, dict_has, dict_get.
  destruct (message !! "scores") as [payload|] eqn:Hscores.
  - destruct payload; try (exfalso; eapply Hnot; reflexivity);
      rewrite !fst_seq, !snd_seq, !fst_modify, !snd_modify, !emitted_app;
      destruct m as [? ? ? ? ? ? ? ? debug]; destruct debug; split; reflexivity.
  - rewrite !fst_seq, !snd_seq, !fst_modify, !snd_modify, !emitted_app.
    destruct m as [? ? ? ? ? ? ? ? debug]; destruct debug; split; reflexivity.
Qed.

Lemma handle_match_over_keeps_scores `{Engine} (message : Dict) (m : ShardMatch.t) :
  (forall payload, message !! "final_scores" <> Some (VArray payload)) ->
  ShardMatch._scores (fst (ShardMatch._handle_match_over message m)) = ShardMatch._scores m /\
  ShardMatch._final_scores (fst (ShardMatch._handle_match_over message m)) = [].
Proof.
  intros Hnot. unfold ShardMatch._handle_match_over, ShardMatch._log, ShardMatch.emit_signal.
  assert (Hskip : dict_has message "final_scores"
                  && is_Array (dict_get message "final_scores" VNil) = false).
  { unfold dict_has, dict_get. destruct (message !! "final_scores") as [payload|] eqn:Hf;
      [|reflexivity].
    destruct payload; try reflexivity. exfalso. eapply Hnot. reflexivity. }
  rewrite Hskip.
  destruct (dict_has message "winner_peer_id"), (dict_has message "winner_username");
    rewrite !fst_seq, !fst_modify, ?fst_skip; destruct m; split; reflexivity.
Qed.

(** X24.  The scoreboard changes only through a score payload.  Whatever
    message the match handles, its score map afterwards differs from the one
    before only if the message is a [round_over] carrying a [scores] array or
    a [match_over] carrying a [final_scores] array; countdowns, round starts
    and unclaimed messages never touch it.  A [round_over] without a scores
    array still ends the round, and its signal carries the scores as they
    were. *)
Theorem scoreboard_changes `{Engine} (message : Dict) (m : ShardMatch.t) :
  let r := ShardMatch.handle_message message m in
  (ShardMatch._scores (fst (fst r)) <> ShardMatch._scores m ->
     exists payload : list variant,
       (message !! "type" = Some (VStr "round_over") /\
        message !! "scores" = Some (VArray payload)) \/
       (message !! "type" = Some (VStr "match_over") /\
        message !! "final_scores" = Some (VArray payload))) /\
  (message !! "type" = Some (VStr "round_over") ->
   (forall payload, message !! "scores" <> Some (VArray payload)) ->
     ShardMatch._state (fst (fst r)) = ShardMatch.ROUND_OVER /\
     emitted (snd (fst r)) =
       [ShardMatch.round_ended
          (if dict_has message "winner_peer_id"
           then to_int (dict_get message "winner_peer_id" VNil) else -1)
          (ShardMatch._scores m)]).
Proof.
  cbv zeta. split.
  - intros Hchanged. unfold ShardMatch.handle_message in Hchanged.
    destruct (message !! "type") as [ty|] eqn:Htype; [|contradiction Hchanged; reflexivity].
    destruct (variant_eq_str ty ShardProtocol.MSG_COUNTDOWN);
      [contradiction Hchanged; apply handle_countdown_scores|].
    destruct (variant_eq_str ty ShardProtocol.MSG_ROUND_START);
      [contradiction Hchanged; apply handle_round_start_scores|].
    destruct (variant_eq_str ty ShardProtocol.MSG_ROUND_OVER) eqn:Hover.
    { apply variant_eq_str_true in Hover. subst ty.
      destruct (message !! "scores") as [[| | | | |payload|]|] eqn:Hscores;
        try (contradiction Hchanged;
             apply handle_round_over_keeps_scores; intros payload' Hp; congruence).
      exists payload. left. split; reflexivity. }
    destruct (variant_eq_str ty ShardProtocol.MSG_MATCH_OVER) eqn:Hmatch;
      [|contradiction Hchanged; reflexivity].
    apply variant_eq_str_true in Hmatch. subst ty.
    destruct (message !! "final_scores") as [[| | | | |payload|]|] eqn:Hscores;
      try (contradiction Hchanged;
           apply handle_match_over_keeps_scores; intros payload' Hp; congruence).
    exists payload. right. split; reflexivity.
  - intros Htype Hnot. unfold ShardMatch.handle_message. rewrite Htype.
    change (variant_eq_str (VStr "round_over") ShardProtocol.MSG_COUNTDOWN) with false.
    change (variant_eq_str (VStr "round_over") ShardProtocol.MSG_ROUND_START) with false.
    change (variant_eq_str (VStr "round_over") ShardProtocol.MSG_ROUND_OVER) with true.
    cbv iota. cbn [fst snd].
    split; [apply handle_round_over_state|].
    apply handle_round_over_keeps_scores. exact Hnot.
Qed.

Lemma scoreboard_changes_witness :
  let r := ShardMatch.handle_message (H := reference_engine) (bare_message "round_over")
             match_in_round_two in
  ShardMatch._state (fst (fst r)) = ShardMatch.ROUND_OVER /\
  emitted (snd (fst r)) =
    [ShardMatch.round_ended (-1) (ShardMatch._scores match_in_round_two)].
Proof.
  destruct (proj2 (scoreboard_changes (H := reference_engine) (bare_message "round_over")
                     match_in_round_two) eq_refl ltac:(intros payload; discriminate))
    as [Hstate Hemit].
  split; [exact Hstate|]. rewrite Hemit. reflexivity.
Defined.

(** ** Snapshots *)











(** ** Routing in the singleton *)

Lemma deliver_quiet {A : Type} (on_signal : A -> ShardMultiplayer.M)
    (tr : list (effect A)) (o : ShardMultiplayer.t) :
  emitted tr = [] ->
  fst (ShardMultiplayer.deliver on_signal tr o) = o /\
  emitted (snd (ShardMultiplayer.deliver on_signal tr o)) = [].
Proof.
  induction tr as [|e rest IH]; intros Hquiet; [split; reflexivity|].
  destruct e as [component format args|s]; [|discriminate Hquiet].
  cbn [ShardMultiplayer.deliver]. rewrite fst_seq, snd_seq, emitted_app.
  cbn [fst snd tell emitted app]. apply IH. exact Hquiet.
Qed.

Lemma deliver_one {A : Type} (on_signal : A -> ShardMultiplayer.M)
    (tr : list (effect A)) (s : A) (o : ShardMultiplayer.t) :
  emitted tr = [s] ->
  fst (ShardMultiplayer.deliver on_signal tr o) = fst (on_signal s o) /\
  emitted (snd (ShardMultiplayer.deliver on_signal tr o)) = emitted (snd (on_signal s o)).
Proof.
  induction tr as [|e rest IH]; intros Hone; [discriminate Hone|].
  destruct e as [component format args|s'].
  - cbn [ShardMultiplayer.deliver]. rewrite fst_seq, snd_seq, emitted_app.
    cbn [fst snd tell emitted app]. apply IH. exact Hone.
  - cbn [emitted] in Hone. injection Hone as -> Hrest.
    cbn [ShardMultiplayer.deliver]. rewrite fst_seq, snd_seq, emitted_app.
    destruct (deliver_quiet on_signal rest (fst (on_signal s o)) Hrest) as [Hfst Hsnd].
    rewrite Hfst, Hsnd, app_nil_r. split; reflexivity.
Qed.

Lemma lobby_ignores `{Engine} (message : Dict) (tag : string) (l : ShardLobby.t) :
  message !! "type" = Some (VStr tag) -> tag ∉ lobby_tags ->
  ShardLobby.handle_message message l = (l, [], false).
Proof.
  intros Htype Htag. apply lobby_handle_message_unclaimed.
  destruct (snd (ShardLobby.handle_message message l)) eqn:Hclaimed; [|reflexivity].
  apply lobby_handle_message_claimed in Hclaimed as (tag' & Htype' & Htag').
  rewrite Htype in Htype'. injection Htype' as <-. contradiction.
Qed.

Lemma match_ignores `{Engine} (message : Dict) (tag : string) (m : ShardMatch.t) :
  message !! "type" = Some (VStr tag) -> tag ∉ match_tags ->
  ShardMatch.handle_message message m = (m, [], false).
Proof.
  intros Htype Htag. apply match_handle_message_unclaimed.
  destruct (snd (ShardMatch.handle_message message m)) eqn:Hclaimed; [|reflexivity].
  apply match_handle_message_claimed in Hclaimed as (tag' & Htype' & Htag').
  rewrite Htype in Htype'. injection Htype' as <-. contradiction.
Qed.

Lemma handle_snapshot_emitted (now : Z) (message : Dict) (s : ShardState.t) :
  emitted (snd (ShardState.handle_snapshot now message s))
  = [ShardState.state_received (ShardState.make_snapshot now message)].
Proof.
  unfold ShardState.handle_snapshot, ShardState._log.
  rewrite !snd_seq, !snd_modify, !emitted_app. cbn [app fst snd tell emitted].
  match goal with |- context [if ?b then _ else _] => destruct b end; reflexivity.
Qed.

Ltac singleton_cbn :=
  cbn [fst snd app emitted
       ShardMultiplayer._connection ShardMultiplayer._lobby ShardMultiplayer._match
       ShardMultiplayer._input ShardMultiplayer._state ShardMultiplayer._prediction
       ShardMultiplayer._debug_logging ShardMultiplayer._interpolation_delay
       ShardMultiplayer._prediction_enabled ShardMultiplayer._last_error
       ShardMultiplayer.set_connection ShardMultiplayer.set_lobby ShardMultiplayer.set_match
       ShardMultiplayer.set_input ShardMultiplayer.set_state ShardMultiplayer.set_prediction
       ShardMultiplayer.set_last_error].

(** What [_on_message_received] does with a message that neither the lobby
    nor the match claims. *)
Lemma on_message_received_unclaimed `{Engine} (now : Z) (message : Dict) (tag : string)
    (o : ShardMultiplayer.t) :
  message !! "type" = Some (VStr tag) ->
  tag ∉ lobby_tags -> tag ∉ match_tags ->
  let rest :=
    if variant_eq_str (VStr tag) ShardProtocol.MSG_STATE_SNAPSHOT
    then ShardMultiplayer.on_state (ShardState.handle_snapshot now message)
    else ShardMultiplayer._handle_game_event now message in
  fst (ShardMultiplayer._on_message_received now message o) = fst (rest o) /\
  emitted (snd (ShardMultiplayer._on_message_received now message o))
    = emitted (snd (rest o)).
Proof.
  intros Htype Hlobby Hmatch. cbv zeta. unfold ShardMultiplayer._on_message_received.
  rewrite Htype. rewrite fst_seq, snd_seq, emitted_app.
  assert (Hlog : forall format args,
            fst (ShardMultiplayer._log format args o) = o /\
            emitted (snd (ShardMultiplayer._log format args o)) = [])
    by (intros; unfold ShardMultiplayer._log;
        destruct (ShardMultiplayer._debug_logging o); split; reflexivity).
  rewrite (proj1 (Hlog _ _)), (proj2 (Hlog _ _)). cbn [app].
  rewrite (lobby_ignores message tag (ShardMultiplayer._lobby o) Htype Hlobby).
  cbv beta iota zeta.
  rewrite ?fst_seq, ?snd_seq, ?emitted_app, ?fst_modify, ?snd_modify.
  cbn [ShardMultiplayer.deliver].
  rewrite ?fst_seq, ?snd_seq, ?emitted_app, ?fst_modify, ?snd_modify, ?fst_skip, ?snd_skip.
  assert (Hsame : ShardMultiplayer.set_lobby (ShardMultiplayer._lobby o) o = o)
    by (destruct o; reflexivity).
  rewrite Hsame.
  rewrite (match_ignores message tag (ShardMultiplayer._match o) Htype Hmatch).
  cbv beta iota zeta.
  rewrite ?fst_seq, ?snd_seq, ?emitted_app, ?fst_modify, ?snd_modify.
  cbn [ShardMultiplayer.deliver].
  rewrite ?fst_seq, ?snd_seq, ?emitted_app, ?fst_modify, ?snd_modify, ?fst_skip, ?snd_skip.
  assert (Hsame' : ShardMultiplayer.set_match (ShardMultiplayer._match o) o = o)
    by (destruct o; reflexivity).
  rewrite Hsame'. cbn [app emitted]. split; reflexivity.
Qed.

(** X27.  Routing of what nobody claims.  A [state_snapshot] message
    reaches the snapshot buffer and nothing else: the singleton's state
    component handles it, [state_received] is re-emitted with the snapshot,
    and the connection, lobby, match, input handler, prediction and last
    error are left as they were.  A message without a type, or with a type
    that is neither a lobby tag, a match tag, the snapshot tag nor a game
    event tag, changes nothing and emits nothing. *)
Theorem snapshot_routing `{Engine} (now : Z) (message : Dict) (o : ShardMultiplayer.t) :
  let r := ShardMultiplayer._on_message_received now message o in
  (message !! "type" = Some (VStr "state_snapshot") ->
     fst r = ShardMultiplayer.set_state
               (fst (ShardState.handle_snapshot now message (ShardMultiplayer._state o))) o /\
     emitted (snd r) =
       [ShardMultiplayer.state_received (ShardState.make_snapshot now message)]) /\
  (message !! "type" = None -> fst r = o /\ emitted (snd r) = []) /\
  (forall tag : string,
     message !! "type" = Some (VStr tag) ->
     tag ∉ lobby_tags -> tag ∉ match_tags -> tag <> "state_snapshot" -> tag ∉ event_tags ->
     fst r = o /\ emitted (snd r) = []).
Proof.
  cbv zeta. split; [|split].
  - intros Htype.
    destruct (on_message_received_unclaimed now message "state_snapshot" o Htype)
      as [Hfst Hsnd];
      [unfold lobby_tags; rewrite !not_elem_of_cons;
       repeat split; try discriminate; apply not_elem_of_nil
      |unfold match_tags; rewrite !not_elem_of_cons;
       repeat split; try discriminate; apply not_elem_of_nil|].
    cbv zeta in Hfst, Hsnd. rewrite Hfst, Hsnd.
    change (variant_eq_str (VStr "state_snapshot") ShardProtocol.MSG_STATE_SNAPSHOT) with true.
    cbv iota. unfold ShardMultiplayer.on_state.
    pose proof (handle_snapshot_emitted now message (ShardMultiplayer._state o)) as Hemit.
    destruct (ShardState.handle_snapshot now message (ShardMultiplayer._state o))
      as [s effs] eqn:Hhandled.
    cbn [fst snd] in Hemit |- *.
    rewrite fst_seq, snd_seq, emitted_app, fst_modify, snd_modify.
    destruct (deliver_one ShardMultiplayer._on_state_signal effs _
                (ShardMultiplayer.set_state s o) Hemit) as [Hd1 Hd2].
    rewrite Hd1, Hd2. split; reflexivity.
  - intros Hnone. unfold ShardMultiplayer._on_message_received, ShardMultiplayer._log.
    rewrite Hnone. destruct (ShardMultiplayer._debug_logging o); split; reflexivity.
  - intros tag Htype Hlobby Hmatch Hsnapshot Hevent.
    destruct (on_message_received_unclaimed now message tag o Htype Hlobby Hmatch)
      as [Hfst Hsnd].
    cbv zeta in Hfst, Hsnd. rewrite Hfst, Hsnd.
    assert (Hno : forall tag', tag <> tag' -> variant_eq_str (VStr tag) tag' = false)
      by (intros tag' Hne; unfold variant_eq_str; apply bool_decide_eq_false; exact Hne).
    rewrite (Hno ShardProtocol.MSG_STATE_SNAPSHOT) by exact Hsnapshot.
    assert (Hty : dict_get message "type" (VStr "") = VStr tag)
      by (unfold dict_get; rewrite Htype; reflexivity).
    unfold ShardMultiplayer._handle_game_event. rewrite Hty.
    unfold event_tags in Hevent. rewrite !not_elem_of_cons in Hevent.
    destruct Hevent as (H1 & H2 & H3 & H4 & H5 & H6 & H7 & H8 & _).
    rewrite !Hno by assumption. split; reflexivity.
Qed.

Lemma snapshot_routing_witness :
  let r := ShardMultiplayer._on_message_received (H := reference_engine) 2000
             server_message singleton_in_round_two in
  emitted (snd r) =
    [ShardMultiplayer.state_received (ShardState.make_snapshot 2000 server_message)] /\
  ShardMultiplayer._match (fst r) = match_in_round_two.
Proof.
  destruct (proj1 (snapshot_routing (H := reference_engine) 2000 server_message
                     singleton_in_round_two) eq_refl) as [Hfst Hsnd].
  split; [exact Hsnd|]. rewrite Hfst. reflexivity.
Defined.

Lemma singleton_log (format : string) (args : list variant) (o : ShardMultiplayer.t) :
  fst (ShardMultiplayer._log format args o) = o /\
  emitted (snd (ShardMultiplayer._log format args o)) = [].
Proof.
  unfold ShardMultiplayer._log. destruct (ShardMultiplayer._debug_logging o); split; reflexivity.
Qed.

Lemma lobby_error_message `{Engine} (message : Dict) (l : ShardLobby.t) :
  message !! "type" = Some (VStr "error") ->
  ShardLobby.handle_message message l = ShardLobby._handle_error message l.
Proof.
  intros Htype. unfold ShardLobby.handle_message. rewrite Htype. reflexivity.
Qed.

(** X28.  Routing of errors.  An [error] message touches no component; it
    is recorded in the singleton's last error and reported by at most one
    signal.  When it carries a code that is a lobby error code, the lobby
    claims it and the signal is [lobby_error] with the code and the message
    text as sent; when it carries any other code, the signal is
    [error_received] with the code and the text as Strings.  Without a code
    the code reads [unknown]. *)
Theorem error_routing `{Engine} (now : Z) (message : Dict) (o : ShardMultiplayer.t) :
  message !! "type" = Some (VStr "error") ->
  let r := ShardMultiplayer._on_message_received now message o in
  let code := to_str (dict_get message "code" (VStr "unknown")) in
  let text := dict_get message "message" (VStr "Unknown error") in
  (ShardMultiplayer._connection (fst r) = ShardMultiplayer._connection o /\
   ShardMultiplayer._lobby (fst r) = ShardMultiplayer._lobby o /\
   ShardMultiplayer._match (fst r) = ShardMultiplayer._match o /\
   ShardMultiplayer._input (fst r) = ShardMultiplayer._input o /\
   ShardMultiplayer._state (fst r) = ShardMultiplayer._state o /\
   ShardMultiplayer._prediction (fst r) = ShardMultiplayer._prediction o) /\
  (dict_has message "code" = true -> ShardProtocol.is_lobby_error code = true ->
     emitted (snd r) = [ShardMultiplayer.lobby_error code text] /\
     ShardMultiplayer.get_last_error (fst r) = ShardMultiplayer.error_record code text now) /\
  (dict_has message "code" = true -> ShardProtocol.is_lobby_error code = false ->
     emitted (snd r) = [ShardMultiplayer.error_received code (to_str text)] /\
     ShardMultiplayer.get_last_error (fst r)
       = ShardMultiplayer.error_record code (VStr (to_str text)) now) /\
  (dict_has message "code" = false ->
     emitted (snd r) =
       (if ShardProtocol.is_lobby_error code then []
        else [ShardMultiplayer.error_received code (to_str text)]) /\
     ShardMultiplayer.get_last_error (fst r)
       = ShardMultiplayer.error_record code (VStr (to_str text)) now).
Proof.
  intros Htype. cbv zeta.
  set (code := to_str (dict_get message "code" (VStr "unknown"))).
  set (text := dict_get message "message" (VStr "Unknown error")).
  assert (Hunclaimed :
    ShardLobby.handle_message message (ShardMultiplayer._lobby o)
      = (ShardMultiplayer._lobby o, [], false) ->
    let r := ShardMultiplayer._on_message_received now message o in
    fst r = ShardMultiplayer.set_last_error
              (ShardMultiplayer.error_record code (VStr (to_str text)) now) o /\
    emitted (snd r) =
      (if ShardProtocol.is_lobby_error code then []
       else [ShardMultiplayer.error_received code (to_str text)])).
  { intros Hlobby. cbv zeta. unfold ShardMultiplayer._on_message_received.
    rewrite Htype, fst_seq, snd_seq, emitted_app.
    rewrite (proj1 (singleton_log _ _ o)), (proj2 (singleton_log _ _ o)). cbn [app].
    rewrite Hlobby. cbv beta iota zeta.
    rewrite ?fst_seq, ?snd_seq, ?emitted_app, ?fst_modify, ?snd_modify.
    cbn [ShardMultiplayer.deliver].
    rewrite ?fst_seq, ?snd_seq, ?emitted_app, ?fst_modify, ?snd_modify, ?fst_skip, ?snd_skip.
    assert (Hsame : ShardMultiplayer.set_lobby (ShardMultiplayer._lobby o) o = o)
      by (destruct o; reflexivity).
    rewrite Hsame.
    rewrite (match_ignores message "error" (ShardMultiplayer._match o) Htype)
      by (unfold match_tags; rewrite !not_elem_of_cons;
          repeat split; try discriminate; apply not_elem_of_nil).
    cbv beta iota zeta.
    rewrite ?fst_seq, ?snd_seq, ?emitted_app, ?fst_modify, ?snd_modify.
    cbn [ShardMultiplayer.deliver].
    rewrite ?fst_seq, ?snd_seq, ?emitted_app, ?fst_modify, ?snd_modify, ?fst_skip, ?snd_skip.
    assert (Hsame' : ShardMultiplayer.set_match (ShardMultiplayer._match o) o = o)
      by (destruct o; reflexivity).
    rewrite Hsame'. cbn [app].
    change (variant_eq_str (VStr "error") ShardProtocol.MSG_STATE_SNAPSHOT) with false.
    cbv iota.
    assert (Hty : dict_get message "type" (VStr "") = VStr "error")
      by (unfold dict_get; rewrite Htype; reflexivity).
    unfold ShardMultiplayer._handle_game_event. rewrite Hty.
    change (variant_eq_str (VStr "error") ShardProtocol.MSG_PLAYER_DAMAGED) with false.
    change (variant_eq_str (VStr "error") ShardProtocol.MSG_PLAYER_ELIMINATED) with false.
    change (variant_eq_str (VStr "error") ShardProtocol.MSG_PLAYER_DISCONNECTED) with false.
    change (variant_eq_str (VStr "error") ShardProtocol.MSG_PLAYER_RECONNECTED) with false.
    change (variant_eq_str (VStr "error") ShardProtocol.MSG_PLAYER_TIMEOUT) with false.
    change (variant_eq_str (VStr "error") ShardProtocol.MSG_WEAPON_PICKUP) with false.
    change (variant_eq_str (VStr "error") ShardProtocol.MSG_WEAPON_DROPPED) with false.
    change (variant_eq_str (VStr "error") ShardProtocol.MSG_ERROR) with true.
    cbv iota. unfold ShardMultiplayer._handle_error. fold code. fold text.
    rewrite ?fst_seq, ?snd_seq, ?emitted_app, ?fst_modify, ?snd_modify.
    rewrite (proj1 (singleton_log _ _ _)), (proj2 (singleton_log _ _ _)). cbn [app].
    destruct (ShardProtocol.is_lobby_error code); cbn [negb]; split; reflexivity. }
  rewrite (lobby_error_message message (ShardMultiplayer._lobby o) Htype) in Hunclaimed.
  unfold ShardLobby._handle_error in Hunclaimed.
  assert (Hcode : dict_has message "code" = true ->
                  to_str (dict_get message "code" VNil) = code).
  { unfold code, dict_has, dict_get. destruct (message !! "code"); [reflexivity|discriminate]. }
  destruct (dict_has message "code") eqn:Hhas; cbn [negb] in Hunclaimed.
  - rewrite (Hcode eq_refl) in Hunclaimed. fold text in Hunclaimed.
    destruct (ShardProtocol.is_lobby_error code) eqn:Herr.
    + clear Hunclaimed.
      assert (Hrun :
        let r := ShardMultiplayer._on_message_received now message o in
        fst r = ShardMultiplayer.set_last_error
                  (ShardMultiplayer.error_record code text now) o /\
        emitted (snd r) = [ShardMultiplayer.lobby_error code text]).
      { cbv zeta. unfold ShardMultiplayer._on_message_received.
        rewrite Htype, fst_seq, snd_seq, emitted_app.
        rewrite (proj1 (singleton_log _ _ o)), (proj2 (singleton_log _ _ o)). cbn [app].
        rewrite (lobby_error_message message (ShardMultiplayer._lobby o) Htype).
        unfold ShardLobby._handle_error. rewrite Hhas. cbn [negb].
        rewrite (Hcode eq_refl), Herr. fold text.
        destruct ((ShardLobby._log "Lobby error: %s - %s" [VStr code; text] >>
                   ShardLobby.emit_signal (ShardLobby.lobby_error code text))
                    (ShardMultiplayer._lobby o)) as [l effs] eqn:Hlobby.
        assert (Hl : l = ShardMultiplayer._lobby o /\
                     emitted effs = [ShardLobby.lobby_error code text]).
        { unfold seq, ShardLobby._log, ShardLobby.emit_signal, tell in Hlobby.
          injection Hlobby as <- <-.
          destruct (ShardLobby._debug_logging (ShardMultiplayer._lobby o)); split; reflexivity. }
        destruct Hl as [-> Heffs]. cbv beta iota zeta.
        rewrite ?fst_seq, ?snd_seq, ?emitted_app, ?fst_modify, ?snd_modify,
          ?fst_skip, ?snd_skip.
        assert (Hsame : ShardMultiplayer.set_lobby (ShardMultiplayer._lobby o) o = o)
          by (destruct o; reflexivity).
        rewrite Hsame.
        destruct (deliver_one (ShardMultiplayer._on_lobby_signal now) effs _ o Heffs)
          as [Hd1 Hd2].
        rewrite Hd1, Hd2. cbn [ShardMultiplayer._on_lobby_signal].
        unfold ShardMultiplayer._on_lobby_error.
        rewrite ?fst_seq, ?snd_seq, ?emitted_app, ?fst_modify, ?snd_modify.
        rewrite (proj1 (singleton_log _ _ _)), (proj2 (singleton_log _ _ _)).
        cbn [app]. rewrite app_nil_r. split; reflexivity. }
      cbv zeta in Hrun. destruct Hrun as [Hfst Hsnd]. rewrite Hfst, Hsnd.
      unfold ShardMultiplayer.get_last_error.
      split; [destruct o; repeat split; reflexivity|].
      split; [intros _ _; split; [reflexivity|destruct o; reflexivity]|].
      split; [intros _ Hc; discriminate Hc|intros Hc; discriminate Hc].
    + destruct (Hunclaimed eq_refl) as [Hfst Hsnd]. rewrite Hfst, Hsnd.
      unfold ShardMultiplayer.get_last_error.
      split; [destruct o; repeat split; reflexivity|].
      split; [intros _ Hc; discriminate Hc|].
      split; [intros _ _; split; [reflexivity|destruct o; reflexivity]|].
      intros Hc; discriminate Hc.
  - destruct (Hunclaimed eq_refl) as [Hfst Hsnd]. rewrite Hfst, Hsnd.
    unfold ShardMultiplayer.get_last_error.
    split; [destruct o; repeat split; reflexivity|].
    split; [intros Hc; discriminate Hc|].
    split; [intros Hc; discriminate Hc|].
    intros _. split; [reflexivity|destruct o; reflexivity].
Qed.

Lemma error_routing_witness :
  emitted (snd (ShardMultiplayer._on_message_received (H := reference_engine) 0
                  (error_message "lobby_full") singleton_in_round_two))
    = [ShardMultiplayer.lobby_error "lobby_full" (VStr "refused")] /\
  emitted (snd (ShardMultiplayer._on_message_received (H := reference_engine) 0
                  (error_message "rate_limited") singleton_in_round_two))
    = [ShardMultiplayer.error_received "rate_limited" "refused"].
Proof.
  split.
  - destruct (error_routing (H := reference_engine) 0 (error_message "lobby_full")
                singleton_in_round_two eq_refl) as (_ & Hlobby & _).
    apply (Hlobby eq_refl eq_refl).
  - destruct (error_routing (H := reference_engine) 0 (error_message "rate_limited")
                singleton_in_round_two eq_refl) as (_ & _ & Hother & _).
    apply (Hother eq_refl eq_refl).
Defined.

Lemma handle_round_start_fields `{Engine} (message : Dict) (m : ShardMatch.t) :
  dict_has message "round" = true ->
  let started := fst (ShardMatch._handle_round_start message m) in
  ShardMatch._state started = ShardMatch.PLAYING /\
  ShardMatch._current_round started = to_int (dict_get message "round" VNil) /\
  emitted (snd (ShardMatch._handle_round_start message m)) =
    [ShardMatch.round_started (ShardMatch._current_round started)
       (ShardMatch._spawn_positions started) (ShardMatch._weapon_spawns started)].
Proof.
  intros Hround. cbv zeta. unfold ShardMatch._handle_round_start, ShardMatch._log,
    ShardMatch.emit_signal.
  rewrite Hround. cbn [negb].
  destruct m as [? ? ? ? ? ? ? ? debug].
  destruct debug,
           (dict_has message "spawn_positions"
            && is_Array (dict_get message "spawn_positions" VNil)),
           (dict_has message "weapon_spawns"
            && is_Array (dict_get message "weapon_spawns" VNil));
    (split; [reflexivity|split; reflexivity]).
Qed.

Lemma deliver_input_signals (tr : list (effect ShardInput.signal)) (o : ShardMultiplayer.t) :
  fst (ShardMultiplayer.deliver ShardMultiplayer._on_input_signal tr o) = o /\
  emitted (snd (ShardMultiplayer.deliver ShardMultiplayer._on_input_signal tr o)) = [].
Proof.
  induction tr as [|e rest IH]; [split; reflexivity|].
  destruct e as [component format args|s]; cbn [ShardMultiplayer.deliver];
    rewrite fst_seq, snd_seq, emitted_app; exact IH.
Qed.

Lemma on_input_quiet (a : ShardInput.M) (o : ShardMultiplayer.t) :
  fst (ShardMultiplayer.on_input a o)
    = ShardMultiplayer.set_input (fst (a (ShardMultiplayer._input o))) o /\
  emitted (snd (ShardMultiplayer.on_input a o)) = [].
Proof.
  unfold ShardMultiplayer.on_input.
  destruct (a (ShardMultiplayer._input o)) as [i effs].
  rewrite fst_seq, snd_seq, emitted_app, fst_modify, snd_modify. cbn [fst app].
  apply deliver_input_signals.
Qed.

Lemma on_prediction_quiet (a : ShardPrediction.M) (o : ShardMultiplayer.t) :
  emitted (snd (a (ShardMultiplayer._prediction o))) = [] ->
  fst (ShardMultiplayer.on_prediction a o)
    = ShardMultiplayer.set_prediction (fst (a (ShardMultiplayer._prediction o))) o /\
  emitted (snd (ShardMultiplayer.on_prediction a o)) = [].
Proof.
  intros Hquiet. unfold ShardMultiplayer.on_prediction.
  destruct (a (ShardMultiplayer._prediction o)) as [p effs]. cbn [fst snd] in Hquiet |- *.
  rewrite fst_seq, snd_seq, emitted_app, fst_modify, snd_modify. cbn [app].
  apply deliver_quiet. exact Hquiet.
Qed.

Lemma initialize_prediction_for_round_spawn (spawn_positions : list variant)
    (o : ShardMultiplayer.t) :
  let my_peer_id := ShardLobby._my_peer_id (ShardMultiplayer._lobby o) in
  let r := ShardMultiplayer._initialize_prediction_for_round spawn_positions o in
  fst r =
    ShardMultiplayer.set_prediction
      (if my_peer_id <? 0 then ShardMultiplayer._prediction o
       else match ShardMultiplayer._find_spawn spawn_positions my_peer_id with
            | None => ShardMultiplayer._prediction o
            | Some spawn =>
                ShardPrediction.set_is_grounded true
                  (ShardPrediction.set_predicted_velocity Vector2.ZERO
                     (ShardPrediction.set_predicted_position
                        (Vector2.mk (variant_num (dict_get spawn "x" (VFloat 0)))
                                    (variant_num (dict_get spawn "y" (VFloat 0))))
                        (ShardMultiplayer._prediction o)))
            end) o /\
  emitted (snd r) = [].
Proof.
  cbv zeta. unfold ShardMultiplayer._initialize_prediction_for_round,
    ShardLobby.get_my_peer_id.
  destruct (ShardLobby._my_peer_id (ShardMultiplayer._lobby o) <? 0);
    [split; [destruct o; reflexivity|reflexivity]|].
  destruct (ShardMultiplayer._find_spawn spawn_positions _) as [spawn|];
    [|split; [destruct o; reflexivity|reflexivity]].
  rewrite !fst_seq, !snd_seq, !emitted_app.
  set (pos := Vector2.mk _ _).
  destruct (on_prediction_quiet (ShardPrediction.set_position pos) o) as [H1 E1].
  { unfold ShardPrediction.set_position, ShardPrediction._log.
    rewrite snd_seq, snd_modify. cbn [fst snd app].
    match goal with |- context [if ?b then _ else _] => destruct b end; reflexivity. }
  rewrite H1, E1.
  match goal with
  | |- context [ShardMultiplayer.on_prediction (ShardPrediction.set_velocity ?v) ?o1] =>
      destruct (on_prediction_quiet (ShardPrediction.set_velocity v) o1) as [H2 E2];
        [reflexivity|]
  end.
  rewrite H2, E2.
  match goal with
  | |- context [ShardMultiplayer.on_prediction (ShardPrediction.set_grounded ?g) ?o2] =>
      destruct (on_prediction_quiet (ShardPrediction.set_grounded g) o2) as [H3 E3];
        [reflexivity|]
  end.
  rewrite H3, E3.
  rewrite (proj1 (singleton_log _ _ _)), (proj2 (singleton_log _ _ _)).
  split; [|reflexivity].
  unfold ShardPrediction.set_position, ShardPrediction.set_velocity,
    ShardPrediction.set_grounded, ShardPrediction._log.
  rewrite !fst_seq, !fst_modify. destruct o. reflexivity.
Qed.

(** X29.  A round start, end to end.  When the singleton receives a
    [round_start] message with a round number, the match handles it (the
    state is Playing), the input handler is reset (tick 0, empty buffer, no
    inputs sent), the connection is marked as in a match, and the prediction
    is placed at rest on the first spawn of the message that is a Dictionary
    with the lobby's own peer id; when the own peer id is not set or no
    spawn names it, the prediction is left as it was.  The lobby and the
    snapshot buffer are not touched, and exactly one signal is emitted,
    [round_started]. *)
Theorem round_start_routing `{Engine} (now : Z) (message : Dict) (o : ShardMultiplayer.t) :
  message !! "type" = Some (VStr "round_start") ->
  dict_has message "round" = true ->
  let r := ShardMultiplayer._on_message_received now message o in
  let started := fst (ShardMatch._handle_round_start message (ShardMultiplayer._match o)) in
  let spawns := ShardMatch._spawn_positions started in
  let my_peer_id := ShardLobby._my_peer_id (ShardMultiplayer._lobby o) in
  ShardMultiplayer._match (fst r) = started /\
  ShardMatch._state started = ShardMatch.PLAYING /\
  ShardMultiplayer._input (fst r) =
    ShardInput.mk 0 [] 0 (ShardInput._debug_logging (ShardMultiplayer._input o)) /\
  ShardMultiplayer._connection (fst r) =
    ShardConnection.set_in_match true (ShardMultiplayer._connection o) /\
  ShardMultiplayer._lobby (fst r) = ShardMultiplayer._lobby o /\
  ShardMultiplayer._state (fst r) = ShardMultiplayer._state o /\
  ShardMultiplayer._prediction (fst r) =
    (if my_peer_id <? 0 then ShardMultiplayer._prediction o
     else match ShardMultiplayer._find_spawn spawns my_peer_id with
          | None => ShardMultiplayer._prediction o
          | Some spawn =>
              ShardPrediction.set_is_grounded true
                (ShardPrediction.set_predicted_velocity Vector2.ZERO
                   (ShardPrediction.set_predicted_position
                      (Vector2.mk (variant_num (dict_get spawn "x" (VFloat 0)))
                                  (variant_num (dict_get spawn "y" (VFloat 0))))
                      (ShardMultiplayer._prediction o)))
          end) /\
  emitted (snd r) =
    [ShardMultiplayer.round_started (ShardMatch._current_round started) spawns
       (ShardMatch._weapon_spawns started)].
Proof.
  intros Htype Hround. cbv zeta.
  destruct (handle_round_start_fields message (ShardMultiplayer._match o) Hround)
    as (Hplaying & _ & Hstarted).
  cbv zeta in Hplaying, Hstarted.
  unfold ShardMultiplayer._on_message_received.
  rewrite Htype, fst_seq, snd_seq, emitted_app.
  rewrite (proj1 (singleton_log _ _ o)), (proj2 (singleton_log _ _ o)). cbn [app].
  rewrite (lobby_ignores message "round_start" (ShardMultiplayer._lobby o) Htype)
    by (unfold lobby_tags; rewrite !not_elem_of_cons;
        repeat split; try discriminate; apply not_elem_of_nil).
  cbv beta iota zeta.
  rewrite ?fst_seq, ?snd_seq, ?emitted_app, ?fst_modify, ?snd_modify.
  cbn [ShardMultiplayer.deliver].
  rewrite ?fst_seq, ?snd_seq, ?emitted_app, ?fst_modify, ?snd_modify, ?fst_skip, ?snd_skip.
  assert (Hsame : ShardMultiplayer.set_lobby (ShardMultiplayer._lobby o) o = o)
    by (destruct o; reflexivity).
  rewrite Hsame. cbn [app].
  assert (Hmatch : ShardMatch.handle_message message (ShardMultiplayer._match o)
                   = (ShardMatch._handle_round_start message (ShardMultiplayer._match o), true))
    by (unfold ShardMatch.handle_message; rewrite Htype; reflexivity).
  rewrite Hmatch.
  destruct (ShardMatch._handle_round_start message (ShardMultiplayer._match o))
    as [started effs] eqn:Hhandled.
  cbn [fst snd] in Hplaying, Hstarted |- *. cbv beta iota zeta.
  rewrite ?fst_seq, ?snd_seq, ?emitted_app, ?fst_modify, ?snd_modify.
  change (variant_eq_str (VStr "round_start") ShardProtocol.MSG_ROUND_START) with true.
  cbv iota. rewrite ?fst_modify, ?snd_modify.
  destruct (deliver_one ShardMultiplayer._on_match_signal effs _
              (ShardMultiplayer.set_match started o) Hstarted) as [Hd1 Hd2].
  rewrite Hd1, Hd2. clear Hd1 Hd2. cbn [ShardMultiplayer._on_match_signal].
  unfold ShardMultiplayer._on_round_started.
  rewrite ?fst_seq, ?snd_seq, ?emitted_app.
  rewrite (proj1 (singleton_log _ _ _)), (proj2 (singleton_log _ _ _)).
  destruct (on_input_quiet ShardInput.reset (ShardMultiplayer.set_match started o))
    as [Hi1 Hi2].
  rewrite Hi1, Hi2. clear Hi1 Hi2.
  match goal with
  | |- context [ShardMultiplayer._initialize_prediction_for_round ?s ?o1] =>
      destruct (initialize_prediction_for_round_spawn s o1) as [Hp1 Hp2]
  end.
  cbv zeta in Hp1, Hp2. rewrite Hp1, Hp2. clear Hp1 Hp2.
  unfold ShardMultiplayer.emit_signal. rewrite ?fst_tell, ?snd_tell.
  cbn [app emitted].
  unfold ShardInput.reset, ShardInput._log. rewrite !fst_seq, !fst_modify. cbn [fst].
  destruct o as [connection lobby mtch input state prediction debug delay enabled last_error].
  singleton_cbn. destruct input.
  split; [reflexivity|]. split; [exact Hplaying|]. repeat split; reflexivity.
Qed.

Lemma round_start_routing_witness :
  let r := ShardMultiplayer._on_message_received (H := reference_engine) 0
             round_start_message singleton_in_round_two in
  ShardInput._input_buffer (ShardMultiplayer._input (fst r)) = [] /\
  ShardConnection._in_match (ShardMultiplayer._connection (fst r)) = true /\
  ShardPrediction._predicted_position (ShardMultiplayer._prediction (fst r))
    = Vector2.mk 40 0.
Proof.
  destruct (round_start_routing (H := reference_engine) 0 round_start_message
              singleton_in_round_two eq_refl eq_refl)
    as (_ & _ & Hinput & Hconnection & _ & _ & Hprediction & _).
  split; [rewrite Hinput; reflexivity|].
  split; [rewrite Hconnection; reflexivity|rewrite Hprediction; reflexivity].
Defined.

Lemma with_connection_input `{Engine} (now : Z)
    (r : call_result ShardInput.t ShardInput.signal) (o : ShardMultiplayer.t) :
  emitted (connection_effects r) = [] ->
  fst (ShardMultiplayer.with_connection now ShardMultiplayer.set_input
         ShardMultiplayer._on_input_signal r o)
    = ShardMultiplayer.set_input (handler r)
        (match handler_connection r with
         | Some c => ShardMultiplayer.set_connection c o
         | None => o
         end) /\
  emitted (snd (ShardMultiplayer.with_connection now ShardMultiplayer.set_input
                  ShardMultiplayer._on_input_signal r o)) = [].
Proof.
  intros Hquiet. unfold ShardMultiplayer.with_connection.
  rewrite !fst_seq, !snd_seq, !emitted_app, !fst_modify, !snd_modify.
  match goal with
  | |- context [ShardMultiplayer.deliver (ShardMultiplayer._on_connection_signal now) _ ?o1] =>
      destruct (deliver_quiet (ShardMultiplayer._on_connection_signal now)
                  (connection_effects r) o1 Hquiet) as [Hc1 Hc2]
  end.
  rewrite Hc1, Hc2.
  rewrite (proj1 (deliver_input_signals _ _)), (proj2 (deliver_input_signals _ _)).
  split; reflexivity.
Qed.

Lemma send_input_connection `{Engine} (now : Z) (c : ShardConnection.t) (input : Dict)
    (is_playing : bool) (s : ShardInput.t) :
  let r := ShardInput.send_input now (Some c) input is_playing s in
  emitted (connection_effects r) = [] /\
  (input_accepted (Some c) is_playing = false -> handler_connection r = Some c) /\
  exists c', handler_connection r = Some c'.
Proof.
  cbv zeta. unfold input_accepted, ShardInput.send_input.
  destruct is_playing; cbn [negb andb];
    [|split; [reflexivity|split; [reflexivity|exists c; reflexivity]]].
  destruct (ShardConnection.is_authenticated c); cbn [negb];
    [|split; [reflexivity|split; [reflexivity|exists c; reflexivity]]].
  match goal with
  | |- context [ShardConnection.send_message ?m c] =>
      destruct (send_message_state m c) as (ws & sent & bytes & _ & Hquiet);
        destruct (ShardConnection.send_message m c) as [c' ce]
  end.
  cbn [snd] in Hquiet. cbn [connection_effects handler_connection].
  split; [exact Hquiet|split; [discriminate|exists c'; reflexivity]].
Qed.

(** X30.  What one [send_input] of the singleton does.  The prediction
    integrates the raw input over the frame time whenever it is enabled and
    the match is Playing, whether or not the input handler sent anything
    (an unauthenticated connection drops the input, the prediction still
    moves).  The input handler advances its tick by one and stores the
    validated record last exactly when the match is Playing and the
    connection is authenticated; otherwise the handler and the connection
    are unchanged.  Outside a Playing match the call changes nothing.  The
    lobby, the match, the snapshot buffer and the last error are never
    touched and the singleton emits no signal. *)
Theorem singleton_send_input `{Engine} (now : Z) (process_delta : Q) (input : Dict)
    (o : ShardMultiplayer.t) :
  let r := ShardMultiplayer.send_input now process_delta input o in
  let playing := ShardMatch.is_playing (ShardMultiplayer._match o) in
  let accepted := input_accepted (Some (ShardMultiplayer._connection o)) playing in
  let tick := ShardInput._current_tick (ShardMultiplayer._input o) in
  ShardMultiplayer._prediction (fst r) =
    (if ShardPrediction.is_enabled (ShardMultiplayer._prediction o) && playing
     then ShardPrediction.apply_input input process_delta (ShardMultiplayer._prediction o)
     else ShardMultiplayer._prediction o) /\
  ShardInput._current_tick (ShardMultiplayer._input (fst r))
    = tick + (if accepted then 1 else 0) /\
  (accepted = true ->
     last (ShardInput._input_buffer (ShardMultiplayer._input (fst r)))
       = Some (ShardInput.mkEntry (tick + 1) (ShardInput._validate_input input))) /\
  (accepted = false ->
     ShardMultiplayer._input (fst r) = ShardMultiplayer._input o /\
     ShardMultiplayer._connection (fst r) = ShardMultiplayer._connection o) /\
  (playing = false -> fst r = o) /\
  ShardMultiplayer._lobby (fst r) = ShardMultiplayer._lobby o /\
  ShardMultiplayer._match (fst r) = ShardMultiplayer._match o /\
  ShardMultiplayer._state (fst r) = ShardMultiplayer._state o /\
  ShardMultiplayer._last_error (fst r) = ShardMultiplayer._last_error o /\
  emitted (snd r) = [].
Proof.
  destruct o as [connection lobby mtch handler0 state prediction debug delay enabled
                 last_error].
  cbv zeta. unfold ShardMultiplayer.send_input. singleton_cbn.
  set (playing := ShardMatch.is_playing mtch).
  set (sent := ShardInput.send_input now (Some connection) input playing handler0).
  destruct (send_input_connection now connection input playing handler0)
    as (Hquiet & Hsame & c' & Hconnection).
  destruct (send_input_handler now (Some connection) input playing handler0)
    as [Hrejected Haccepted].
  cbv zeta in Hquiet, Hsame, Hconnection, Hrejected, Haccepted.
  fold sent in Hquiet, Hsame, Hconnection, Hrejected, Haccepted.
  rewrite !fst_seq, !snd_seq, !emitted_app.
  match goal with
  | |- context [ShardMultiplayer.with_connection now _ _ sent ?o] =>
      destruct (with_connection_input now sent o Hquiet) as [Hw1 Hw2]
  end.
  rewrite Hw1, Hw2. clear Hw1 Hw2.
  rewrite Hconnection. unfold when. singleton_cbn.
  assert (Hplaying : playing = false -> input_accepted (Some connection) playing = false)
    by (intros ->; reflexivity).
  assert (Htick : ShardInput._current_tick (handler sent)
                  = ShardInput._current_tick handler0
                    + (if input_accepted (Some connection) playing then 1 else 0)).
  { destruct (input_accepted (Some connection) playing).
    - apply (Haccepted eq_refl).
    - rewrite (Hrejected eq_refl). lia. }
  assert (Hlast : input_accepted (Some connection) playing = true ->
            last (ShardInput._input_buffer (handler sent))
            = Some (ShardInput.mkEntry (ShardInput._current_tick handler0 + 1)
                      (ShardInput._validate_input input))).
  { intros Hacc. destruct (Haccepted Hacc) as [_ Hbuffer]. rewrite Hbuffer.
    rewrite pop_front_while_over_snoc by (unfold ShardInput.INPUT_BUFFER_SIZE; lia).
    apply last_snoc. }
  assert (Hdropped : input_accepted (Some connection) playing = false ->
            handler sent = handler0 /\ c' = connection).
  { intros Hacc. split; [exact (Hrejected Hacc)|].
    specialize (Hsame Hacc). rewrite Hconnection in Hsame. injection Hsame as ->.
    reflexivity. }
  destruct (ShardPrediction.is_enabled prediction && playing) eqn:Hpredict;
    rewrite ?fst_modify, ?snd_modify, ?fst_skip, ?snd_skip; singleton_cbn.
  - split; [reflexivity|]. split; [exact Htick|]. split; [exact Hlast|].
    split; [exact Hdropped|].
    split; [|repeat split; reflexivity].
    intros Hno. rewrite Hno, andb_false_r in Hpredict. discriminate Hpredict.
  - split; [reflexivity|]. split; [exact Htick|]. split; [exact Hlast|].
    split; [exact Hdropped|].
    split; [|repeat split; reflexivity].
    intros Hno. destruct (Hdropped (Hplaying Hno)) as [-> ->]. reflexivity.
Qed.
